(** * Notifier: the notification popup manager of the desktop softphone

    A shallow embedding of [src/components/notifier/Notifier.cpp].  The
    class keeps a counter of live popups and the vertical offset of the
    next popup, both guarded by one mutex; popups are QML objects that
    live in the toolkit's heap, are hidden by the user or by the end of
    a call, and are deleted by a single-shot timer.

    The embedding threads an explicit [World] (the two fields, the heap
    of popups, the pending timers, the signal connections and a trace of
    mutex and field events) through a small state-and-abort monad. *)

From Stdlib Require Import ZArith Lia.
From stdpp Require Import gmap strings list.

#[local] Set Warnings "-register-all".
#[local] Open Scope Z_scope.

(** ** Machine integers *)

(** The two integer types the file computes with.  Values are kept in
    [Z]; every arithmetic result is brought back into the range of its
    type by [wrap] (two's complement for [int], modulo 2^32 for
    [unsigned int]). *)
Inductive int_type : Type := c_int | c_unsigned_int.

Definition type_min (t : int_type) : Z :=
  match t with c_int => - 2 ^ 31 | c_unsigned_int => 0 end.

Definition type_max (t : int_type) : Z :=
  match t with c_int => 2 ^ 31 - 1 | c_unsigned_int => 2 ^ 32 - 1 end.

Definition wrap (t : int_type) (z : Z) : Z :=
  match t with
  | c_int => (z + 2 ^ 31) mod 2 ^ 32 - 2 ^ 31
  | c_unsigned_int => z mod 2 ^ 32
  end.

Definition in_range (t : int_type) (z : Z) : Prop :=
  type_min t <= z <= type_max t.

Definition INT_MAX : Z := type_max c_int.

(** [a + b] on two [int] operands, with the two's complement wrap-around
    of the machines the program runs on (the language itself leaves the
    overflow of a signed addition undefined). *)
Definition int_add (a b : Z) : Z := wrap c_int (a + b).

(** ** Constants of Notifier.cpp *)

Definition NOTIFICATION_SHOW_METHOD_NAME : string := "show".

Definition NOTIFICATION_PROPERTY_DATA : string := "notificationData".
Definition NOTIFICATION_PROPERTY_HEIGHT : string := "notificationHeight".
Definition NOTIFICATION_PROPERTY_OFFSET : string := "notificationOffset".

Definition QML_NOTIFICATION_PATH_RECEIVED_MESSAGE : string :=
  "qrc:/ui/modules/Linphone/Notifications/NotificationReceivedMessage.qml".
Definition QML_NOTIFICATION_PATH_RECEIVED_FILE_MESSAGE : string :=
  "qrc:/ui/modules/Linphone/Notifications/NotificationReceivedFileMessage.qml".
Definition QML_NOTIFICATION_PATH_RECEIVED_CALL : string :=
  "qrc:/ui/modules/Linphone/Notifications/NotificationReceivedCall.qml".

Definition NOTIFICATION_TIMEOUT_RECEIVED_MESSAGE : Z := 10000.
Definition NOTIFICATION_TIMEOUT_RECEIVED_FILE_MESSAGE : Z := 10000.
Definition NOTIFICATION_TIMEOUT_RECEIVED_CALL : Z := 10000.

Definition NOTIFICATION_SPACING : Z := 10.
Definition N_MAX_NOTIFICATIONS : Z := 15.
Definition MAX_TIMEOUT : Z := 60000.

(** ** Toolkit values and objects *)

(** Objects outside the popup heap (the main window, a call model) are
    known by their address only. *)
Abbreviation address := nat.

(** The [QVariant] values that Notifier.cpp builds or reads. *)
Inductive QVariant : Type :=
  | QInvalid
  | QInt (i : Z)
  | QULongLong (n : Z)
  | QString (s : string)
  | QObjectStar (p : address)
  | QVariantMap (m : gmap string QVariant).

(** What a QML notification template gives when it is instantiated:
    the properties its meta-object declares (with the values each one
    accepts on a write), their initial values, and whether the object
    has a [QQuickWindow] child, with its initial visibility. *)
Record QmlObject : Type := {
  qml_meta : string -> option (QVariant -> bool);
  qml_properties : gmap string QVariant;
  qml_window : option bool
}.

(** A live popup.  [visibleChanged_receivers] counts the connections of
    its window's [visibleChanged] signal to the counter lambda of
    [showNotification]. *)
Record QObject : Type := {
  component : string;
  meta : string -> option (QVariant -> bool);
  properties : gmap string QVariant;
  window : option bool;
  visibleChanged_receivers : nat
}.

Inductive NotificationType : Type :=
  | MessageReceived
  | FileMessageReceived
  | CallReceived.

Inductive CallStatus : Type :=
  | CallStatusConnected
  | CallStatusEnded
  | CallStatusIncoming
  | CallStatusOutgoing
  | CallStatusPaused.

(** The parts of [linphone::ChatMessage] and [linphone::Call] that the
    notifier reads. *)
Record ChatMessage : Type := {
  getText : string;
  getFromAddress_asStringUriOnly : string;
  getFileTransferFilepath : string;
  getFileTransferInformation_getSize : option Z
}.

Record Call : Type := { call_id : nat }.

(** What the file takes from outside: the toolkit's conversion of a
    variant to [int] (value and success flag), the QML engine (what the
    component at a URL instantiates as the object at a given address),
    the string conversion of utils.hpp, the application's main window,
    the call model of a call, and the integer type of the instance
    counter, which is declared in Notifier.hpp. *)
Class Externals : Type := {
  QVariant_toInt : QVariant -> Z * bool;
  qml_instantiate : string -> nat -> QmlObject;
  linphoneStringToQString : string -> string;
  getMainWindow : address;
  getCall : Call -> address;
  counter_type : int_type
}.

(** ** The world and its monad *)

Inductive Field : Type := f_n_instances | f_offset.

(** Events of a run: the mutex, the reads and writes of the two guarded
    fields, the log, and the two toolkit calls that hand data over. *)
Inductive Event : Type :=
  | EvLock
  | EvUnlock
  | EvRead (f : Field)
  | EvWrite (f : Field)
  | EvWarning (msg : string)
  | EvInfo (msg : string)
  | EvCreate (url : string) (p : nat)
  | EvSetProperty (p : nat) (name : string) (v : QVariant).

(** The notifier and the toolkit state around it.  [m_offset] is an
    [int], like the local [offset] it is added to and the popup property
    it is written to; [m_n_instances] has the type [counter_type].  The
    heap holds the live popups by address, [allocated] is the next free
    address, [status_connections] the connections of
    [CallModel::statusChanged] (sender, popup in whose context the
    lambda runs), [timers] the pending single shots (duration, popup to
    delete), and [trace] what happened so far. *)
Record World : Type := {
  m_offset : Z;
  m_n_instances : Z;
  heap : gmap nat QObject;
  allocated : nat;
  status_connections : list (address * nat);
  timers : list (Z * nat);
  trace : list Event
}.

Inductive Crash : Type :=
  | QFatal (msg : string)
  | NullDereference
  | DanglingPointer.

Inductive Outcome (A : Type) : Type :=
  | Done (a : A) (w : World)
  | Abort (c : Crash).
Arguments Done {A} a w.
Arguments Abort {A} c.

Definition M (A : Type) : Type := World -> Outcome A.

Definition ret {A} (a : A) : M A := fun w => Done a w.

Definition bind {A B} (m : M A) (k : A -> M B) : M B :=
  fun w => match m w with
           | Done a w' => k a w'
           | Abort c => Abort c
           end.

Definition crash {A} (c : Crash) : M A := fun _ => Abort c.

#[global] Instance M_ret : MRet M := @ret.
#[global] Instance M_bind : MBind M := fun A B k m => bind m k.

Definition modify (f : World -> World) : M unit := fun w => Done tt (f w).
Definition gets {A} (f : World -> A) : M A := fun w => Done (f w) w.

Definition set_offset (v : Z) (w : World) : World :=
  {| m_offset := v; m_n_instances := m_n_instances w; heap := heap w;
     allocated := allocated w; status_connections := status_connections w;
     timers := timers w; trace := trace w |}.

Definition set_n_instances (v : Z) (w : World) : World :=
  {| m_offset := m_offset w; m_n_instances := v; heap := heap w;
     allocated := allocated w; status_connections := status_connections w;
     timers := timers w; trace := trace w |}.

Definition set_heap (h : gmap nat QObject) (w : World) : World :=
  {| m_offset := m_offset w; m_n_instances := m_n_instances w; heap := h;
     allocated := allocated w; status_connections := status_connections w;
     timers := timers w; trace := trace w |}.

Definition set_allocated (n : nat) (w : World) : World :=
  {| m_offset := m_offset w; m_n_instances := m_n_instances w; heap := heap w;
     allocated := n; status_connections := status_connections w;
     timers := timers w; trace := trace w |}.

Definition set_status_connections (l : list (address * nat)) (w : World) : World :=
  {| m_offset := m_offset w; m_n_instances := m_n_instances w; heap := heap w;
     allocated := allocated w; status_connections := l;
     timers := timers w; trace := trace w |}.

Definition set_timers (l : list (Z * nat)) (w : World) : World :=
  {| m_offset := m_offset w; m_n_instances := m_n_instances w; heap := heap w;
     allocated := allocated w; status_connections := status_connections w;
     timers := l; trace := trace w |}.

Definition emit (e : Event) (w : World) : World :=
  {| m_offset := m_offset w; m_n_instances := m_n_instances w; heap := heap w;
     allocated := allocated w; status_connections := status_connections w;
     timers := timers w; trace := trace w ++ [e] |}.

(** *** The mutex and the two guarded fields *)

Definition m_mutex_lock : M unit := modify (emit EvLock).
Definition m_mutex_unlock : M unit := modify (emit EvUnlock).

Definition read_n_instances : M Z :=
  modify (emit (EvRead f_n_instances)) ;; gets m_n_instances.
Definition write_n_instances (v : Z) : M unit :=
  modify (emit (EvWrite f_n_instances)) ;; modify (set_n_instances v).
Definition read_offset : M Z :=
  modify (emit (EvRead f_offset)) ;; gets m_offset.
Definition write_offset (v : Z) : M unit :=
  modify (emit (EvWrite f_offset)) ;; modify (set_offset v).

Definition qWarning (msg : string) : M unit := modify (emit (EvWarning msg)).
Definition qInfo (msg : string) : M unit := modify (emit (EvInfo msg)).

(** *** The popup heap *)

Definition deref (p : nat) : M QObject :=
  fun w => match heap w !! p with
           | Some o => Done o w
           | None => Abort DanglingPointer
           end.

Definition store (p : nat) (o : QObject) : M unit :=
  modify (fun w => set_heap (<[p := o]> (heap w)) w).

Definition with_properties (o : QObject) (ps : gmap string QVariant) : QObject :=
  {| component := component o; meta := meta o; properties := ps;
     window := window o;
     visibleChanged_receivers := visibleChanged_receivers o |}.

Definition with_window (o : QObject) (v : option bool) : QObject :=
  {| component := component o; meta := meta o; properties := properties o;
     window := v;
     visibleChanged_receivers := visibleChanged_receivers o |}.

Definition with_receivers (o : QObject) (n : nat) : QObject :=
  {| component := component o; meta := meta o; properties := properties o;
     window := window o; visibleChanged_receivers := n |}.

(** [QObject::property]: an absent property reads as an invalid variant. *)
Definition QObject_property (o : QObject) (name : string) : QVariant :=
  match properties o !! name with
  | Some v => v
  | None => QInvalid
  end.

(** [QObject::setProperty]: a declared property is written when it
    accepts the value, and the call answers whether it did; an
    undeclared name becomes a dynamic property and the call answers
    false. *)
Definition QObject_setProperty (p : nat) (name : string) (v : QVariant) : M bool :=
  modify (emit (EvSetProperty p name v)) ;;
  o ← deref p;
  match meta o name with
  | Some accepts =>
      if accepts v
      then store p (with_properties o (<[name := v]> (properties o))) ;; ret true
      else ret false
  | None =>
      store p (with_properties o (<[name := v]> (properties o))) ;; ret false
  end.

(** ** Notifier.cpp *)

Section Notifier.
Context `{Externals}.

(** [getNotificationSize]: the property read as a non-negative [int],
    or -1. *)
Definition getNotificationSize (object : nat) (property : string) : M Z :=
  o ← deref object;
  let variant := QObject_property o property in
  let '(size, so_far_so_good) := QVariant_toInt variant in
  if negb so_far_so_good || (size <? 0)
  then qWarning "Unable to get notification size." ;; mret (-1)
  else mret size.

(** The file's own [setProperty] template. *)
Definition setProperty (object : nat) (property : string) (value : QVariant) : M bool :=
  ok ← QObject_setProperty object property value;
  if negb ok
  then qWarning ("Unable to set property: `" +:+ property +:+ "`.") ;; mret false
  else mret true.

(** The three components built by the constructor; the array is never
    written afterwards. *)
Definition m_components (type : NotificationType) : string :=
  match type with
  | MessageReceived => QML_NOTIFICATION_PATH_RECEIVED_MESSAGE
  | FileMessageReceived => QML_NOTIFICATION_PATH_RECEIVED_FILE_MESSAGE
  | CallReceived => QML_NOTIFICATION_PATH_RECEIVED_CALL
  end.

(** [QQmlComponent::create]: a new object at the next free address.  The
    constructor aborts when a component has errors, so an object is
    always given.  No signal of a new object is connected yet. *)
Definition new_popup (url : string) (p : nat) : QObject :=
  let q := qml_instantiate url p in
  {| component := url; meta := qml_meta q; properties := qml_properties q;
     window := qml_window q; visibleChanged_receivers := 0 |}.

Definition QQmlComponent_create (url : string) : M nat :=
  p ← gets allocated;
  modify (emit (EvCreate url p)) ;;
  modify (fun w =>
    set_allocated (S p) (set_heap (<[p := new_popup url p]> (heap w)) w)) ;;
  mret p.

(** The lambda that [showNotification] connects to [visibleChanged]. *)
Definition on_visibleChanged (visible : bool) : M unit :=
  qInfo "Update notifications counter, hidden notification detected." ;;
  (if visible then qWarning "A notification cannot be visible twice!" else mret tt) ;;
  m_mutex_lock ;;
  n ← read_n_instances;
  write_n_instances (wrap counter_type (n - 1)) ;;
  n' ← read_n_instances;
  (if n' =? 0 then write_offset 0 else mret tt) ;;
  m_mutex_unlock.

(** Emission of [visibleChanged]: one call of the lambda per connection. *)
Fixpoint emit_visibleChanged (receivers : nat) (visible : bool) : M unit :=
  match receivers with
  | O => mret tt
  | S k => on_visibleChanged visible ;; emit_visibleChanged k visible
  end.

(** [findChild<QQuickWindow *>()]: a window is known by the address of
    its popup. *)
Definition findChild_QQuickWindow (p : nat) : M (option nat) :=
  o ← deref p;
  mret (match window o with Some _ => Some p | None => None end).

(** [QQuickWindow::setVisible]: a change of visibility is signalled, a
    call that changes nothing is not. *)
Definition QQuickWindow_setVisible (wp : nat) (visible : bool) : M unit :=
  o ← deref wp;
  match window o with
  | None => crash DanglingPointer
  | Some current =>
      if Bool.eqb current visible then mret tt
      else store wp (with_window o (Some visible)) ;;
           emit_visibleChanged (visibleChanged_receivers o) visible
  end.

(** [delete notification].  As the comment above the lambda says, a
    popup that is still visible when it is deleted is hidden first and
    the lambda runs; the object then leaves the heap together with the
    connections it is the context of. *)
Definition delete_QObject (p : nat) : M unit :=
  o ← deref p;
  (match window o with
   | Some true => QQuickWindow_setVisible p false
   | _ => mret tt
   end) ;;
  modify (fun w =>
    set_status_connections (filter (fun c => c.2 ≠ p) (status_connections w))
      (set_heap (delete p (heap w)) w)).

Definition createNotification (type : NotificationType) : M (option nat) :=
  m_mutex_lock ;;
  n ← read_n_instances;
  if N_MAX_NOTIFICATIONS <=? n then
    qWarning "Unable to create another notification" ;;
    m_mutex_unlock ;;
    mret None
  else
    object ← QQmlComponent_create (m_components type);
    offset ← getNotificationSize object NOTIFICATION_PROPERTY_HEIGHT;
    failed ← (if offset =? -1 then mret true
              else cur ← read_offset;
                   ok ← setProperty object NOTIFICATION_PROPERTY_OFFSET (QInt cur);
                   mret (negb ok));
    if failed : bool then
      delete_QObject object ;;
      m_mutex_unlock ;;
      mret None
    else
      cur ← read_offset;
      write_offset (int_add (int_add offset cur) NOTIFICATION_SPACING) ;;
      n ← read_n_instances;
      write_n_instances (wrap counter_type (n + 1)) ;;
      m_mutex_unlock ;;
      mret (Some object).

(** Modelled from the spec: the QML method named by
    [NOTIFICATION_SHOW_METHOD_NAME] is not under src; the spec says the
    popup is displayed, so the call makes the popup's window visible. *)
Definition invokeMethod_show (notification : nat) : M unit :=
  w ← findChild_QQuickWindow notification;
  match w with
  | Some wp => QQuickWindow_setVisible wp true
  | None => mret tt
  end.

Definition connect_visibleChanged (wp : nat) : M unit :=
  o ← deref wp;
  store wp (with_receivers o (S (visibleChanged_receivers o))).

Definition QTimer_singleShot (msec : Z) (notification : nat) : M unit :=
  modify (fun w => set_timers (timers w ++ [(msec, notification)]) w).

Definition showNotification (notification : nat) (timeout : Z) : M unit :=
  let timeout := if MAX_TIMEOUT <? timeout then MAX_TIMEOUT else timeout in
  invokeMethod_show notification ;;
  window ← findChild_QQuickWindow notification;
  match window with
  | None => crash (QFatal "Cannot found a `QQuickWindow` instance in `notification`.")
  | Some wp =>
      connect_visibleChanged wp ;;
      QTimer_singleShot timeout notification
  end.

(** *** Signals of the toolkit *)

(** The [k]-th pending single shot expires: its lambda deletes the
    popup. *)
Definition QTimer_timeout (k : nat) : M unit :=
  ts ← gets timers;
  match ts !! k with
  | None => mret tt
  | Some (_, notification) =>
      modify (set_timers (delete k ts)) ;;
      delete_QObject notification
  end.

(** A click on the popup hides its window. *)
Definition dismiss (notification : nat) : M unit :=
  QQuickWindow_setVisible notification false.

(** The lambda that [notifyReceivedCall] connects to
    [CallModel::statusChanged]. *)
Definition on_statusChanged (notification : nat) (status : CallStatus) : M unit :=
  match status with
  | CallStatusEnded =>
      w ← findChild_QQuickWindow notification;
      match w with
      | Some wp => QQuickWindow_setVisible wp false
      | None => crash NullDereference
      end
  | _ => mret tt
  end.

Fixpoint emit_statusChanged (cs : list (address * nat)) (model : address)
    (status : CallStatus) : M unit :=
  match cs with
  | [] => mret tt
  | (sender, notification) :: cs' =>
      (if Nat.eqb sender model then on_statusChanged notification status
       else mret tt) ;;
      emit_statusChanged cs' model status
  end.

Definition CallModel_statusChanged (model : address) (status : CallStatus) : M unit :=
  cs ← gets status_connections;
  emit_statusChanged cs model status.

(** *** The three notify operations *)

Definition message_data (message : ChatMessage) : gmap string QVariant :=
  <["window" := QObjectStar getMainWindow]>
    (<["sipAddress" := QString (linphoneStringToQString (getFromAddress_asStringUriOnly message))]>
       (<["message" := QString (linphoneStringToQString (getText message))]> ∅)).

Definition notifyReceivedMessage (message : ChatMessage) : M unit :=
  notification ← createNotification MessageReceived;
  match notification with
  | None => mret tt
  | Some notification =>
      setProperty notification NOTIFICATION_PROPERTY_DATA
        (QVariantMap (message_data message)) ;;
      showNotification notification NOTIFICATION_TIMEOUT_RECEIVED_MESSAGE
  end.

Definition file_message_data (message : ChatMessage) (size : Z) : gmap string QVariant :=
  <["fileSize" := QULongLong (size mod 2 ^ 64)]>
    (<["fileUri" := QString (linphoneStringToQString (getFileTransferFilepath message))]> ∅).

Definition notifyReceivedFileMessage (message : ChatMessage) : M unit :=
  notification ← createNotification FileMessageReceived;
  match notification with
  | None => mret tt
  | Some notification =>
      match getFileTransferInformation_getSize message with
      | None => crash NullDereference
      | Some size =>
          setProperty notification NOTIFICATION_PROPERTY_DATA
            (QVariantMap (file_message_data message size)) ;;
          showNotification notification NOTIFICATION_TIMEOUT_RECEIVED_FILE_MESSAGE
      end
  end.

Definition call_data (model : address) : gmap string QVariant :=
  <["call" := QObjectStar model]> ∅.

Definition connect_statusChanged (model : address) (notification : nat) : M unit :=
  modify (fun w =>
    set_status_connections (status_connections w ++ [(model, notification)]) w).

Definition notifyReceivedCall (call : Call) : M unit :=
  notification ← createNotification CallReceived;
  match notification with
  | None => mret tt
  | Some notification =>
      let model := getCall call in
      connect_statusChanged model notification ;;
      setProperty notification NOTIFICATION_PROPERTY_DATA
        (QVariantMap (call_data model)) ;;
      showNotification notification NOTIFICATION_TIMEOUT_RECEIVED_CALL
  end.

End Notifier.

(** ** Vocabulary of the statements *)

Section Vocabulary.
Context `{Externals}.

(** What [getNotificationSize] reads on a popup: the value and the
    conversion flag of its height property. *)
Definition popup_height (o : QObject) : Z * bool :=
  QVariant_toInt (QObject_property o NOTIFICATION_PROPERTY_HEIGHT).

(** The height property reads as a non-negative integer. *)
Definition height_readable (o : QObject) : bool :=
  (popup_height o).2 && (0 <=? (popup_height o).1).

(** A write of [v] to the declared property [name] is accepted. *)
Definition property_accepts (o : QObject) (name : string) (v : QVariant) : bool :=
  match meta o name with
  | Some accepts => accepts v
  | None => false
  end.

(** The popup that the next [createNotification] of [type] instantiates. *)
Definition next_popup (type : NotificationType) (w : World) : QObject :=
  new_popup (m_components type) (allocated w).

End Vocabulary.

(** The timeout that [showNotification] hands to the single shot. *)
Definition scheduled_timeout (p : nat) (w w' : World) : option Z :=
  match drop (length (timers w)) (timers w') with
  | [(msec, q)] => if Nat.eqb q p then Some msec else None
  | _ => None
  end.

(** The lock discipline on a trace: starting with the mutex [held] or
    free, the mutex is never taken twice nor released when free, and a
    field is read or written only while it is held.  The answer is the
    state of the mutex at the end. *)
Fixpoint lock_scan (held : bool) (evs : list Event) : option bool :=
  match evs with
  | [] => Some held
  | EvLock :: evs' => if held then None else lock_scan true evs'
  | EvUnlock :: evs' => if held then lock_scan false evs' else None
  | EvRead _ :: evs' => if held then lock_scan held evs' else None
  | EvWrite _ :: evs' => if held then lock_scan held evs' else None
  | _ :: evs' => lock_scan held evs'
  end.

Definition guarded (evs : list Event) : Prop := lock_scan false evs = Some false.

(** A computation keeps a relation between the world it starts in and
    the world it ends in. *)
Definition keeps {A} (R : World -> World -> Prop) (m : M A) : Prop :=
  forall w, match m w with
            | Done _ w' => R w w'
            | Abort _ => True
            end.

(** The events of a run obey the lock discipline. *)
Definition extends_guarded (w w' : World) : Prop :=
  exists evs, trace w' = trace w ++ evs /\ guarded evs.

(** The offset is kept or reset to zero. *)
Definition kept_or_reset (w w' : World) : Prop :=
  m_offset w' = m_offset w \/ m_offset w' = 0.

(** The parts of the world that only the toolkit calls change. *)
Definition same_timers (w w' : World) : Prop := timers w' = timers w.

(** A relation that the toolkit's bookkeeping of objects and
    connections cannot break and that a run of the visibility lambda
    keeps. *)
Class Frame `{Externals} (R : World -> World -> Prop) : Prop := {
  frame_preorder :: PreOrder R;
  frame_heap : forall w h, R w (set_heap h w);
  frame_status : forall w l, R w (set_status_connections l w);
  frame_lambda : forall visible, keeps R (on_visibleChanged visible)
}.

(** The operations and signals that drive the notifier from outside:
    the three notify operations, a click that hides a popup, the expiry
    of a single shot and a status change of a call model.  Nothing in
    the source makes a hidden window visible again, and no stimulus
    does. *)
Inductive Stimulus : Type :=
  | ReceivedMessage (message : ChatMessage)
  | ReceivedFileMessage (message : ChatMessage)
  | ReceivedCall (call : Call)
  | Click (notification : nat)
  | TimerExpired (k : nat)
  | StatusChanged (model : address) (status : CallStatus).

Definition react `{Externals} (s : Stimulus) : M unit :=
  match s with
  | ReceivedMessage message => notifyReceivedMessage message
  | ReceivedFileMessage message => notifyReceivedFileMessage message
  | ReceivedCall call => notifyReceivedCall call
  | Click notification => dismiss notification
  | TimerExpired k => QTimer_timeout k
  | StatusChanged model status => CallModel_statusChanged model status
  end.

(** What a notify operation has done when it returns: either no popup
    is shown (the counter and the timers are as before and no data was
    forwarded), or the object at the next free address was instantiated
    from the component of [type], was handed [data], and only [data],
    as its data property, is visible, and has its single shot pending. *)
Definition nothing_shown (w w' : World) : Prop :=
  m_n_instances w' = m_n_instances w /\ m_offset w' = m_offset w /\
  timers w' = timers w /\
  forall evs p v, trace w' = trace w ++ evs ->
    EvSetProperty p NOTIFICATION_PROPERTY_DATA v ∉ evs.

Definition shown (type : NotificationType) (data : gmap string QVariant)
    (timeout : Z) (w w' : World) : Prop :=
  exists o evs,
    heap w' !! allocated w = Some o /\
    component o = m_components type /\ window o = Some true /\
    trace w' = trace w ++ evs /\
    EvCreate (m_components type) (allocated w) ∈ evs /\
    (forall p v, EvSetProperty p NOTIFICATION_PROPERTY_DATA v ∈ evs <->
       p = allocated w /\ v = QVariantMap data) /\
    timers w' = timers w ++ [(timeout, allocated w)].

(** ** A sample environment *)

(** Popups of the sample environment declare the offset and the data
    property, carry a window that starts hidden, and have the height
    that the engine is asked to give to the [k]-th object. *)
Definition sample_meta (name : string) : option (QVariant -> bool) :=
  if bool_decide (name = NOTIFICATION_PROPERTY_OFFSET)
  then Some (fun v => match v with QInt _ => true | _ => false end)
  else if bool_decide (name = NOTIFICATION_PROPERTY_DATA)
  then Some (fun v => match v with QVariantMap _ => true | _ => false end)
  else None.

Definition sample_popup (height : QVariant) : QmlObject :=
  {| qml_meta := sample_meta;
     qml_properties := <[NOTIFICATION_PROPERTY_HEIGHT := height]> ∅;
     qml_window := Some false |}.

Definition sample_externals (heights : nat -> QVariant) (t : int_type) : Externals :=
  {| QVariant_toInt := fun v => match v with QInt i => (i, true) | _ => (0, false) end;
     qml_instantiate := fun _ k => sample_popup (heights k);
     linphoneStringToQString := fun s => s;
     getMainWindow := 1000%nat;
     getCall := fun c => (2000 + call_id c)%nat;
     counter_type := t |}.

(** The notifier before any notification: no popup, no timer, the
    counter and the offset at zero. *)
Definition fresh_world : World :=
  {| m_offset := 0; m_n_instances := 0; heap := ∅; allocated := 0;
     status_connections := []; timers := []; trace := [] |}.

Definition sample_message : ChatMessage :=
  {| getText := "hello"; getFromAddress_asStringUriOnly := "sip:alice@example.org";
     getFileTransferFilepath := "/tmp/report.pdf";
     getFileTransferInformation_getSize := Some 4096 |}.

(** Popups of 120 pixels, an unsigned counter. *)
Definition plain_externals : Externals :=
  sample_externals (fun _ => QInt 120) c_unsigned_int.

(** Popups whose height is the largest [int]. *)
Definition tall_externals : Externals :=
  sample_externals (fun _ => QInt 2147483647) c_int.


(** Popups whose height property holds a text. *)
Definition broken_externals : Externals :=
  sample_externals (fun _ => QString "tall") c_int.

(** Fifteen live popups of 120 pixels. *)
Definition crowded_world : World :=
  set_n_instances 15 (set_offset 1950 fresh_world).

(** The sample notifier after one message popup was created, and after
    it was shown. *)
Definition created_world : World :=
  match @createNotification plain_externals MessageReceived fresh_world with
  | Done _ w => w
  | Abort _ => fresh_world
  end.

Definition shown_world : World :=
  match @showNotification plain_externals 0%nat 10000 created_world with
  | Done _ w => w
  | Abort _ => created_world
  end.

(** The stimuli that are signals of the toolkit, not notify calls. *)
Definition is_signal (s : Stimulus) : Prop :=
  match s with
  | Click _ | TimerExpired _ | StatusChanged _ _ => True
  | _ => False
  end.

(** ** The constructor *)

(** What the constructor does with the three components it builds: it
    visits them by index and calls [abort] at the first one that has
    errors, after a warning that names the index.  [isError] is the
    answer of the QML engine for the component at a URL.  The numbering
    of the kinds is in Notifier.hpp; the kinds are visited here in the
    order in which lines 88 to 90 build them. *)
Inductive Construction : Type :=
  | Constructed
  | Aborted (i : nat) (url : string).

Definition all_types : list NotificationType :=
  [MessageReceived; FileMessageReceived; CallReceived].

Fixpoint check_components (isError : string -> bool) (i : nat)
    (urls : list string) : Construction :=
  match urls with
  | [] => Constructed
  | url :: urls' =>
      if isError url then Aborted i url
      else check_components isError (S i) urls'
  end.

Definition Notifier_constructor (isError : string -> bool) : Construction :=
  check_components isError 0 (m_components <$> all_types).

(** ** Whole runs *)

(** A sequence of stimuli, one after the other. *)
Fixpoint run `{Externals} (ss : list Stimulus) : M unit :=
  match ss with
  | [] => mret tt
  | s :: ss' => react s ;; run ss'
  end.

(** All pending single shots expire, in the order in which they were
    scheduled. *)
Fixpoint expire_all `{Externals} (n : nat) : M unit :=
  match n with
  | O => mret tt
  | S n' => QTimer_timeout 0 ;; expire_all n'
  end.

(** The popups whose window is visible. *)
Definition visible_popups (h : gmap nat QObject) : gmap nat QObject :=
  filter (fun po => window po.2 = Some true) h.

(** The state that the notifier keeps between two stimuli: every live
    popup sits below the next free address, has a window and one
    listening lambda; the counter is the number of visible popups and
    is at most the cap; the offset is an [int], and is zero when the
    counter is; the pending single shots are those of the live popups,
    one each, none longer than [MAX_TIMEOUT]; the connections to call
    models end in live popups. *)
Record consistent (w : World) : Prop := {
  popups_fresh :
    forall p, is_Some (heap w !! p) -> (p < allocated w)%nat;
  popups_watched :
    forall p o, heap w !! p = Some o ->
      visibleChanged_receivers o = 1%nat /\ is_Some (window o);
  counter_counts :
    m_n_instances w = Z.of_nat (size (visible_popups (heap w)));
  counter_capped : m_n_instances w <= N_MAX_NOTIFICATIONS;
  offset_reset : m_n_instances w = 0 -> m_offset w = 0;
  offset_int : in_range c_int (m_offset w);
  timers_live :
    forall p, p ∈ (timers w).*2 <-> is_Some (heap w !! p);
  timers_once : NoDup (timers w).*2;
  timers_bounded :
    forall msec p, (msec, p) ∈ timers w -> msec <= MAX_TIMEOUT;
  connections_live :
    forall model p, (model, p) ∈ status_connections w -> is_Some (heap w !! p)
}.

(** ** The layout *)

(** Where a popup sits: its top is the offset it was handed, its bottom
    is the top plus the height that [getNotificationSize] reads. *)
Definition popup_top (o : QObject) : Z :=
  match QObject_property o NOTIFICATION_PROPERTY_OFFSET with
  | QInt y => y
  | _ => 0
  end.

Definition popup_bottom `{Externals} (o : QObject) : Z :=
  popup_top o + (popup_height o).1.

(** The visible popups are stacked: each one lies between 0 and the
    stored offset, with the spacing below it, and any two of them are
    at least the spacing apart. *)
Record stacked `{Externals} (w : World) : Prop := {
  stacked_offset : 0 <= m_offset w;
  stacked_below :
    forall p o, heap w !! p = Some o -> window o = Some true ->
      0 <= popup_top o /\ popup_top o <= popup_bottom o /\
      popup_bottom o + NOTIFICATION_SPACING <= m_offset w;
  stacked_apart :
    forall p q o o', p <> q ->
      heap w !! p = Some o -> heap w !! q = Some o' ->
      window o = Some true -> window o' = Some true ->
      popup_bottom o + NOTIFICATION_SPACING <= popup_top o' \/
      popup_bottom o' + NOTIFICATION_SPACING <= popup_top o
}.

(** There is room for one more popup of any kind: the sum of line 129
    fits in an [int]. *)
Definition roomy `{Externals} (w : World) : Prop :=
  forall type,
    m_offset w + (popup_height (next_popup type w)).1 + NOTIFICATION_SPACING
      <= INT_MAX.

(** From [w] to [w'] popups were only hidden or deleted: a popup
    visible in [w'] is the same object in [w], and the offset is as
    before, or is zero with no popup visible any more. *)
Definition shrinks (w w' : World) : Prop :=
  (forall p o, heap w' !! p = Some o -> window o = Some true ->
     heap w !! p = Some o) /\
  (m_offset w' = m_offset w \/
   (m_offset w' = 0 /\
    forall p o, heap w' !! p = Some o -> window o <> Some true)).

(** The stimuli that the toolkit can deliver in a world: a click needs
    a live popup to click on. *)
Definition deliverable (s : Stimulus) (w : World) : Prop :=
  match s with
  | Click p => is_Some (heap w !! p)
  | TimerExpired _ | StatusChanged _ _ => True
  | _ => False
  end.

(** A run for the examples: two messages and a call arrive, the first
    popup is clicked, the call ends, the first single shot expires. *)
Definition sample_run : list Stimulus :=
  [ReceivedMessage sample_message; ReceivedFileMessage sample_message;
   ReceivedCall {| call_id := 7 |}; Click 0%nat;
   StatusChanged 2007%nat CallStatusEnded; TimerExpired 0%nat].

(** Two more environments for the examples: popups of 120 pixels that
    declare the offset property only, without a window, and with a
    window that starts hidden. *)
Definition bare_popup (win : option bool) : QmlObject :=
  {| qml_meta := fun name =>
       if bool_decide (name = NOTIFICATION_PROPERTY_OFFSET)
       then Some (fun v => match v with QInt _ => true | _ => false end)
       else None;
     qml_properties := <[NOTIFICATION_PROPERTY_HEIGHT := QInt 120]> ∅;
     qml_window := win |}.

Definition bare_externals (win : option bool) : Externals :=
  {| QVariant_toInt := fun v => match v with QInt i => (i, true) | _ => (0, false) end;
     qml_instantiate := fun _ _ => bare_popup win;
     linphoneStringToQString := fun s => s;
     getMainWindow := 1000%nat;
     getCall := fun c => (2000 + call_id c)%nat;
     counter_type := c_int |}.

Definition windowless_externals : Externals := bare_externals None.
Definition dataless_externals : Externals := bare_externals (Some false).

(** Worlds for the examples: the sample notifier after [sample_run],
    after a run that leaves no popup visible, and after fifteen
    messages. *)
Definition world_after (ss : list Stimulus) : World :=
  match @run plain_externals ss fresh_world with
  | Done _ w => w
  | Abort _ => fresh_world
  end.

Definition busy_world : World := world_after sample_run.

Definition quiet_run : list Stimulus :=
  [ReceivedMessage sample_message; ReceivedMessage sample_message;
   Click 1%nat; TimerExpired 0%nat].

Definition quiet_world : World := world_after quiet_run.

Definition full_run : list Stimulus :=
  replicate 15 (ReceivedMessage sample_message).

Definition full_world : World := world_after full_run.

(** ** Tearing a popup down *)

(** The kind of popup that a notify operation asks for. *)
Definition notify_kind (s : Stimulus) : option NotificationType :=
  match s with
  | ReceivedMessage _ => Some MessageReceived
  | ReceivedFileMessage _ => Some FileMessageReceived
  | ReceivedCall _ => Some CallReceived
  | Click _ | TimerExpired _ | StatusChanged _ _ => None
  end.

(** What lies ahead of the shown popup [p] in the world [w], its single
    shot being the [k]-th pending one.  If the single shot expires now,
    the object is deleted, the single shot is no longer pending and the
    counter has gone down by one.  If the user dismisses the popup
    first, the counter goes down by one at once, a second click does
    nothing, and the expiry then deletes the object and leaves the
    counter alone. *)
Definition torn_down `{Externals} (p k : nat) (w : World) : Prop :=
  (exists w3,
     QTimer_timeout k w = Done tt w3 /\ heap w3 !! p = None /\
     timers w3 = delete k (timers w) /\
     m_n_instances w3 = wrap counter_type (m_n_instances w - 1)) /\
  (exists w3 w4,
     dismiss p w = Done tt w3 /\
     m_n_instances w3 = wrap counter_type (m_n_instances w - 1) /\
     dismiss p w3 = Done tt w3 /\
     QTimer_timeout k w3 = Done tt w4 /\ heap w4 !! p = None /\
     timers w4 = delete k (timers w) /\
     m_n_instances w4 = m_n_instances w3).

(** ** The offset under the signals *)

(** One decrement of the counter, as line 166 performs it. *)
Definition decrement `{Externals} (n : Z) : Z := wrap counter_type (n - 1).

(** From [w] to [w'] the counter was decremented [i] times and nothing
    else happened to it; the offset is as before, or it is zero and one
    of these decrements, the [j]-th, brought the counter to zero. *)
Definition reset_at_zero `{Externals} (w w' : World) : Prop :=
  exists i : nat,
    m_n_instances w' = Nat.iter i decrement (m_n_instances w) /\
    (m_offset w' = m_offset w \/
     (m_offset w' = 0 /\
      exists j : nat, (1 <= j <= i)%nat /\
        Nat.iter j decrement (m_n_instances w) = 0)).

(** * Proofs *)

(** ** Machine integers *)

Lemma wrap_in_range (t : int_type) (z : Z) : in_range t (wrap t z).
Proof.
  unfold in_range, wrap, type_min, type_max.
  destruct t.
  - pose proof (Z.mod_pos_bound (z + 2 ^ 31) (2 ^ 32) ltac:(lia)). lia.
  - pose proof (Z.mod_pos_bound z (2 ^ 32) ltac:(lia)). lia.
Qed.

Lemma wrap_id (t : int_type) (z : Z) : in_range t z -> wrap t z = z.
Proof.
  unfold in_range, wrap, type_min, type_max.
  destruct t; intros Hz.
  - rewrite Z.mod_small by lia. lia.
  - apply Z.mod_small. lia.
Qed.

Lemma int_add_exact (a b : Z) : in_range c_int (a + b) -> int_add a b = a + b.
Proof. apply wrap_id. Qed.

(** ** The monad *)

Ltac unfold_monad :=
  unfold mbind, M_bind, bind, mret, M_ret, ret, modify, gets, crash in *.

Lemma bind_done {A B} (m : M A) (k : A -> M B) (w w' : World) (a : A) :
  m w = Done a w' -> (m ≫= k) w = k a w'.
Proof. unfold_monad. intros ->. reflexivity. Qed.

Lemma bind_abort {A B} (m : M A) (k : A -> M B) (w : World) (c : Crash) :
  m w = Abort c -> (m ≫= k) w = Abort c.
Proof. unfold_monad. intros ->. reflexivity. Qed.

Lemma bind_inv {A B} (m : M A) (k : A -> M B) (w w'' : World) (b : B) :
  (m ≫= k) w = Done b w'' ->
  exists a w', m w = Done a w' /\ k a w' = Done b w''.
Proof.
  unfold_monad. destruct (m w) as [a w'|c]; [eauto | discriminate].
Qed.

(** ** Relations kept by a computation *)

Section Keeps.
Context (R : World -> World -> Prop) `{!PreOrder R}.

Lemma keeps_ret {A} (a : A) : keeps R (mret a).
Proof. intros w. unfold_monad. reflexivity. Qed.

Lemma keeps_crash {A} (c : Crash) : keeps R (@crash A c).
Proof. intros w. exact I. Qed.

Lemma keeps_bind {A B} (m : M A) (k : A -> M B) :
  keeps R m -> (forall a, keeps R (k a)) -> keeps R (m ≫= k).
Proof.
  intros Hm Hk w. specialize (Hm w). unfold_monad.
  destruct (m w) as [a w'|c]; [|exact I].
  specialize (Hk a w'). destruct (k a w') as [b w''|c]; [|exact I].
  etransitivity; eassumption.
Qed.

Lemma keeps_gets {A} (f : World -> A) : keeps R (gets f).
Proof. intros w. unfold_monad. reflexivity. Qed.

Lemma keeps_modify (f : World -> World) :
  (forall w, R w (f w)) -> keeps R (modify f).
Proof. intros Hf w. apply Hf. Qed.

Lemma keeps_deref (p : nat) : keeps R (deref p).
Proof. intros w. unfold deref. destruct (heap w !! p); [reflexivity | exact I]. Qed.

End Keeps.

(** ** The lock discipline *)

Lemma lock_scan_app (held : bool) (evs1 evs2 : list Event) :
  lock_scan held (evs1 ++ evs2) =
  match lock_scan held evs1 with
  | Some held' => lock_scan held' evs2
  | None => None
  end.
Proof.
  revert held. induction evs1 as [|e evs1 IH]; intros held; [reflexivity|].
  destruct e; cbn [app lock_scan]; destruct held; auto.
Qed.

Lemma guarded_nil : guarded [].
Proof. reflexivity. Qed.

Lemma guarded_app (evs1 evs2 : list Event) :
  guarded evs1 -> guarded evs2 -> guarded (evs1 ++ evs2).
Proof.
  unfold guarded. intros H1 H2. rewrite lock_scan_app, H1. exact H2.
Qed.

Lemma guarded_quiet (e : Event) :
  match e with EvLock | EvUnlock | EvRead _ | EvWrite _ => False | _ => True end ->
  guarded [e].
Proof. destruct e; intros []; reflexivity. Qed.

#[global] Instance extends_guarded_preorder : PreOrder extends_guarded.
Proof.
  split.
  - intros w. exists []. rewrite app_nil_r. split; [reflexivity | apply guarded_nil].
  - intros w1 w2 w3 (e1 & H1 & G1) (e2 & H2 & G2). exists (e1 ++ e2).
    rewrite H2, H1, app_assoc. split; [reflexivity | by apply guarded_app].
Qed.

#[global] Instance kept_or_reset_preorder : PreOrder kept_or_reset.
Proof.
  split.
  - intros w. by left.
  - intros w1 w2 w3 [H1|H1] [H2|H2]; unfold kept_or_reset; try (right; lia).
    left. congruence.
Qed.

#[global] Instance same_timers_preorder : PreOrder same_timers.
Proof.
  split.
  - intros w. reflexivity.
  - intros w1 w2 w3 H1 H2. unfold same_timers in *. congruence.
Qed.

(** ** The visibility lambda *)

Section Handler.
Context `{Externals}.

(** One run of the lambda, field by field. *)
Lemma on_visibleChanged_run (visible : bool) (w : World) :
  exists w',
    on_visibleChanged visible w = Done tt w' /\
    m_n_instances w' = wrap counter_type (m_n_instances w - 1) /\
    m_offset w' = (if m_n_instances w' =? 0 then 0 else m_offset w) /\
    heap w' = heap w /\ allocated w' = allocated w /\
    status_connections w' = status_connections w /\ timers w' = timers w /\
    trace w' = trace w ++
      [EvInfo "Update notifications counter, hidden notification detected."] ++
      (if visible then [EvWarning "A notification cannot be visible twice!"] else []) ++
      [EvLock; EvRead f_n_instances; EvWrite f_n_instances; EvRead f_n_instances] ++
      (if m_n_instances w' =? 0 then [EvWrite f_offset] else []) ++ [EvUnlock].
Proof.
  unfold on_visibleChanged, qInfo, qWarning, m_mutex_lock, m_mutex_unlock,
    read_n_instances, write_n_instances, write_offset.
  unfold_monad.
  destruct visible; cbn;
    destruct (wrap counter_type (m_n_instances w - 1) =? 0) eqn:E;
    eexists; (split; [reflexivity|]); cbn; rewrite ?E;
    repeat split; rewrite <- ?app_assoc; reflexivity.
Qed.

Lemma on_visibleChanged_guarded (visible : bool) :
  keeps extends_guarded (on_visibleChanged visible).
Proof.
  intros w. destruct (on_visibleChanged_run visible w)
    as (w' & -> & _ & _ & _ & _ & _ & _ & Ht).
  eexists. split; [exact Ht|].
  destruct visible; destruct (m_n_instances w' =? 0); reflexivity.
Qed.

Lemma on_visibleChanged_kept_or_reset (visible : bool) :
  keeps kept_or_reset (on_visibleChanged visible).
Proof.
  intros w. destruct (on_visibleChanged_run visible w)
    as (w' & -> & _ & Ho & _). unfold kept_or_reset. rewrite Ho.
  destruct (m_n_instances w' =? 0); auto.
Qed.

Lemma on_visibleChanged_same_timers (visible : bool) :
  keeps same_timers (on_visibleChanged visible).
Proof.
  intros w. destruct (on_visibleChanged_run visible w)
    as (w' & -> & _ & _ & _ & _ & _ & Ht & _). exact Ht.
Qed.

End Handler.

(** ** Signals keep every frame relation *)

Section Signals.
Context `{Externals} (R : World -> World -> Prop) `{!Frame R}.

Lemma keeps_store (p : nat) (o : QObject) : keeps R (store p o).
Proof. intros w. apply frame_heap. Qed.

Lemma keeps_emit_visibleChanged (receivers : nat) (visible : bool) :
  keeps R (emit_visibleChanged receivers visible).
Proof.
  induction receivers as [|k IH]; cbn [emit_visibleChanged].
  - apply keeps_ret, _.
  - apply keeps_bind; [apply _ | apply frame_lambda | intros _; exact IH].
Qed.

Lemma keeps_findChild (p : nat) : keeps R (findChild_QQuickWindow p).
Proof.
  apply keeps_bind; [apply _ | apply keeps_deref, _ | intros o; apply keeps_ret, _].
Qed.

Lemma keeps_setVisible (wp : nat) (visible : bool) :
  keeps R (QQuickWindow_setVisible wp visible).
Proof.
  apply keeps_bind; [apply _ | apply keeps_deref, _ | intros o].
  destruct (window o) as [current|]; [|apply keeps_crash].
  destruct (Bool.eqb current visible); [apply keeps_ret, _|].
  apply keeps_bind; [apply _ | apply keeps_store | intros _].
  apply keeps_emit_visibleChanged.
Qed.

Lemma keeps_invokeMethod_show (p : nat) : keeps R (invokeMethod_show p).
Proof.
  apply keeps_bind; [apply _ | apply keeps_findChild | intros [wp|]].
  - apply keeps_setVisible.
  - apply keeps_ret, _.
Qed.

Lemma keeps_delete_QObject (p : nat) : keeps R (delete_QObject p).
Proof.
  apply keeps_bind; [apply _ | apply keeps_deref, _ | intros o].
  apply keeps_bind; [apply _ | | intros _].
  - destruct (window o) as [[|]|]; [apply keeps_setVisible | apply keeps_ret, _ ..].
  - apply keeps_modify. intros w. etransitivity; [apply frame_heap | apply frame_status].
Qed.

Lemma keeps_on_statusChanged (p : nat) (status : CallStatus) :
  keeps R (on_statusChanged p status).
Proof.
  destruct status; try (apply keeps_ret, _).
  apply keeps_bind; [apply _ | apply keeps_findChild | intros [wp|]].
  - apply keeps_setVisible.
  - apply keeps_crash.
Qed.

Lemma keeps_emit_statusChanged (cs : list (address * nat)) (model : address)
    (status : CallStatus) :
  keeps R (emit_statusChanged cs model status).
Proof.
  induction cs as [|[sender p] cs IH]; cbn [emit_statusChanged].
  - apply keeps_ret, _.
  - apply keeps_bind; [apply _ | | intros _; exact IH].
    destruct (Nat.eqb sender model);
      [apply keeps_on_statusChanged | apply keeps_ret, _].
Qed.

Lemma keeps_CallModel_statusChanged (model : address) (status : CallStatus) :
  keeps R (CallModel_statusChanged model status).
Proof.
  apply keeps_bind; [apply _ | apply keeps_gets, _ | intros cs].
  apply keeps_emit_statusChanged.
Qed.

Lemma keeps_QTimer_timeout (k : nat) :
  (forall w l, R w (set_timers l w)) -> keeps R (QTimer_timeout k).
Proof.
  intros Ht.
  apply keeps_bind; [apply _ | apply keeps_gets, _ | intros ts].
  destruct (ts !! k) as [[msec p]|]; [|apply keeps_ret, _].
  apply keeps_bind; [apply _ | apply keeps_modify; intros w; apply Ht | intros _].
  apply keeps_delete_QObject.
Qed.

End Signals.

Section Frames.
Context `{Externals}.

#[global] Instance extends_guarded_frame : Frame extends_guarded.
Proof.
  split; [apply _ | | | apply on_visibleChanged_guarded];
    intros w x; exists []; cbn; rewrite app_nil_r; (split; [reflexivity | apply guarded_nil]).
Qed.

#[global] Instance kept_or_reset_frame : Frame kept_or_reset.
Proof.
  split; [apply _ | | | apply on_visibleChanged_kept_or_reset];
    intros w x; by left.
Qed.

#[global] Instance same_timers_frame : Frame same_timers.
Proof.
  split; [apply _ | | | apply on_visibleChanged_same_timers];
    intros w x; reflexivity.
Qed.

End Frames.

(** ** Runs of [createNotification] *)

Section Create.
Context `{Externals}.

Ltac unfold_create :=
  unfold createNotification, QQmlComponent_create, getNotificationSize,
    setProperty, QObject_setProperty, delete_QObject, QQuickWindow_setVisible,
    m_mutex_lock, m_mutex_unlock, read_n_instances, write_n_instances,
    read_offset, write_offset, qWarning, deref, store;
  unfold_monad.

Lemma createNotification_capacity_run (type : NotificationType) (w : World) :
  N_MAX_NOTIFICATIONS <= m_n_instances w ->
  exists w',
    createNotification type w = Done None w' /\
    m_offset w' = m_offset w /\ m_n_instances w' = m_n_instances w /\
    heap w' = heap w /\ allocated w' = allocated w /\
    status_connections w' = status_connections w /\ timers w' = timers w /\
    trace w' = trace w ++
      [EvLock; EvRead f_n_instances;
       EvWarning "Unable to create another notification"; EvUnlock].
Proof.
  intros Hn. unfold_create. cbn.
  destruct (Z.leb_spec N_MAX_NOTIFICATIONS (m_n_instances w)); [|lia].
  eexists. split; [reflexivity|]. cbn. rewrite <- !app_assoc. repeat split; reflexivity.
Qed.

Lemma createNotification_failure_run (type : NotificationType) (w : World) :
  m_n_instances w < N_MAX_NOTIFICATIONS ->
  height_readable (next_popup type w) = false \/
  property_accepts (next_popup type w) NOTIFICATION_PROPERTY_OFFSET
    (QInt (m_offset w)) = false ->
  exists w',
    createNotification type w = Done None w' /\
    m_offset w' = m_offset w /\ m_n_instances w' = m_n_instances w /\
    heap w' = delete (allocated w) (heap w) /\
    allocated w' = S (allocated w) /\
    status_connections w' =
      filter (fun c => c.2 ≠ allocated w) (status_connections w) /\
    timers w' = timers w /\
    exists evs, trace w' = trace w ++ evs /\ guarded evs /\
      evs !! 2%nat = Some (EvCreate (m_components type) (allocated w)).
Proof.
  intros Hn Hfail. unfold_create. cbn.
  destruct (Z.leb_spec N_MAX_NOTIFICATIONS (m_n_instances w)); [lia|].
  rewrite lookup_insert_eq.
  unfold height_readable, property_accepts, popup_height, next_popup in Hfail.
  destruct (QVariant_toInt _) as [size ok] eqn:Hsize. cbn in Hfail.
  destruct (negb ok || (size <? 0)) eqn:Hbad; cbn.
  - (* the height cannot be read *)
    rewrite lookup_insert_eq.
    destruct (window _) as [[|]|] eqn:Hw; cbn;
      rewrite ?lookup_insert_eq, ?Hw; cbn;
      eexists; (split; [reflexivity|]); cbn;
      rewrite ?delete_insert_eq, <- ?app_assoc;
      repeat split; eexists; (split; [reflexivity|]); split; reflexivity.
  - (* the height is read, the offset is refused *)
    assert (Hsz : 0 <= size /\ ok = true)
      by (destruct ok; cbn in Hbad; [split; [lia | reflexivity] | discriminate]).
    destruct Hsz as [Hsz ->].
    destruct Hfail as [Hfail|Hfail]; [cbn in Hfail; lia|].
    destruct (Z.eqb_spec size (-1)); [lia|]. cbn.
    rewrite lookup_insert_eq.
    cbn in Hfail |- *.
    destruct (qml_meta _ NOTIFICATION_PROPERTY_OFFSET) as [accepts|];
      [rewrite Hfail|]; cbn; rewrite ?lookup_insert_eq; cbn;
      destruct (qml_window _) as [[|]|] eqn:Hw; cbn;
      rewrite ?lookup_insert_eq; cbn; rewrite ?Hw; cbn;
      eexists; (split; [reflexivity|]); cbn;
      rewrite ?delete_insert_eq, <- ?app_assoc;
      repeat split; eexists; (split; [reflexivity|]); split; reflexivity.
Qed.

Lemma createNotification_success_run (type : NotificationType) (w : World) :
  m_n_instances w < N_MAX_NOTIFICATIONS ->
  height_readable (next_popup type w) = true ->
  property_accepts (next_popup type w) NOTIFICATION_PROPERTY_OFFSET
    (QInt (m_offset w)) = true ->
  exists w',
    createNotification type w = Done (Some (allocated w)) w' /\
    m_offset w' =
      int_add (int_add (popup_height (next_popup type w)).1 (m_offset w))
        NOTIFICATION_SPACING /\
    m_n_instances w' = wrap counter_type (m_n_instances w + 1) /\
    heap w' =
      <[allocated w :=
          with_properties (next_popup type w)
            (<[NOTIFICATION_PROPERTY_OFFSET := QInt (m_offset w)]>
               (properties (next_popup type w)))]> (heap w) /\
    allocated w' = S (allocated w) /\
    status_connections w' = status_connections w /\ timers w' = timers w /\
    trace w' = trace w ++
      [EvLock; EvRead f_n_instances;
       EvCreate (m_components type) (allocated w);
       EvRead f_offset;
       EvSetProperty (allocated w) NOTIFICATION_PROPERTY_OFFSET (QInt (m_offset w));
       EvRead f_offset; EvWrite f_offset;
       EvRead f_n_instances; EvWrite f_n_instances; EvUnlock].
Proof.
  intros Hn Hh Hset. unfold_create. cbn.
  destruct (Z.leb_spec N_MAX_NOTIFICATIONS (m_n_instances w)); [lia|].
  rewrite lookup_insert_eq.
  unfold height_readable, property_accepts, popup_height, next_popup in *.
  destruct (QVariant_toInt _) as [size ok] eqn:Hsize. cbn in Hh.
  apply andb_prop in Hh as [-> Hsz]. apply Z.leb_le in Hsz.
  destruct (Z.ltb_spec size 0); [lia|]. cbn.
  destruct (Z.eqb_spec size (-1)); [lia|]. cbn.
  rewrite lookup_insert_eq. cbn in Hset |- *.
  destruct (qml_meta _ NOTIFICATION_PROPERTY_OFFSET) as [accepts|]; [|discriminate].
  rewrite Hset. cbn.
  eexists. split; [reflexivity|]. cbn.
  rewrite insert_insert_eq, <- !app_assoc. repeat split; reflexivity.
Qed.

(** The three runs are all there is. *)
Lemma createNotification_cases (type : NotificationType) (w : World) :
  N_MAX_NOTIFICATIONS <= m_n_instances w \/
  (m_n_instances w < N_MAX_NOTIFICATIONS /\
   (height_readable (next_popup type w) = false \/
    property_accepts (next_popup type w) NOTIFICATION_PROPERTY_OFFSET
      (QInt (m_offset w)) = false)) \/
  (m_n_instances w < N_MAX_NOTIFICATIONS /\
   height_readable (next_popup type w) = true /\
   property_accepts (next_popup type w) NOTIFICATION_PROPERTY_OFFSET
     (QInt (m_offset w)) = true).
Proof.
  destruct (Z.le_gt_cases N_MAX_NOTIFICATIONS (m_n_instances w)); [by left|right].
  destruct (height_readable _); [|left; auto].
  destruct (property_accepts _ _ _); [right; auto | left; auto].
Qed.

End Create.

(** ** Runs of the toolkit signals and of [showNotification] *)

Section Lifecycle.
Context `{Externals}.

Lemma emit_visibleChanged_zero (visible : bool) (w : World) :
  emit_visibleChanged 0 visible w = Done tt w.
Proof. reflexivity. Qed.

Lemma emit_visibleChanged_one (visible : bool) (w : World) :
  emit_visibleChanged 1 visible w = on_visibleChanged visible w.
Proof.
  cbn [emit_visibleChanged].
  destruct (on_visibleChanged_run visible w) as (w' & Hrun & _).
  rewrite (bind_done _ _ _ _ _ Hrun), Hrun. reflexivity.
Qed.

Lemma setVisible_same (p : nat) (o : QObject) (visible : bool) (w : World) :
  heap w !! p = Some o -> window o = Some visible ->
  QQuickWindow_setVisible p visible w = Done tt w.
Proof.
  intros Hp Hw. unfold QQuickWindow_setVisible, deref. unfold_monad.
  rewrite Hp, Hw, Bool.eqb_reflx. reflexivity.
Qed.

Lemma setVisible_change (p : nat) (o : QObject) (visible : bool) (w : World) :
  heap w !! p = Some o -> window o = Some (negb visible) ->
  QQuickWindow_setVisible p visible w =
  emit_visibleChanged (visibleChanged_receivers o) visible
    (set_heap (<[p := with_window o (Some visible)]> (heap w)) w).
Proof.
  intros Hp Hw. unfold QQuickWindow_setVisible, deref, store. unfold_monad.
  rewrite Hp, Hw. destruct visible; reflexivity.
Qed.

(** Showing a popup that no lambda listens to yet. *)
Lemma showNotification_fresh_run (p : nat) (o : QObject) (v : bool)
    (timeout : Z) (w : World) :
  heap w !! p = Some o -> window o = Some v -> visibleChanged_receivers o = 0%nat ->
  showNotification p timeout w =
  Done tt
    (set_timers (timers w ++ [(Z.min timeout MAX_TIMEOUT, p)])
       (set_heap (<[p := with_receivers (with_window o (Some true)) 1]> (heap w)) w)).
Proof.
  intros Hp Hw Hr.
  assert (Hmin : (if MAX_TIMEOUT <? timeout then MAX_TIMEOUT else timeout)
                 = Z.min timeout MAX_TIMEOUT)
    by (destruct (Z.ltb_spec MAX_TIMEOUT timeout); lia).
  unfold showNotification. rewrite Hmin.
  unfold invokeMethod_show, findChild_QQuickWindow, connect_visibleChanged,
    QTimer_singleShot, QQuickWindow_setVisible, deref, store.
  unfold_monad. rewrite Hp, Hw. cbn. rewrite Hp, Hw.
  destruct v; cbn.
  - rewrite Hp, Hw. cbn. rewrite Hp. cbn. rewrite Hr.
    unfold with_receivers, with_window. cbn. rewrite Hw. reflexivity.
  - rewrite Hr. cbn. repeat (rewrite lookup_insert_eq; cbn).
    unfold set_heap at 1. cbn. rewrite insert_insert_eq. unfold with_receivers, with_window. cbn.
    rewrite ?Hr. reflexivity.
Qed.

(** Whatever the popup, a show that returns has scheduled one single
    shot, with the clamped timeout. *)
Lemma showNotification_timers (p : nat) (timeout : Z) (w w' : World) :
  showNotification p timeout w = Done tt w' ->
  timers w' = timers w ++ [(Z.min timeout MAX_TIMEOUT, p)].
Proof.
  assert (Hmin : (if MAX_TIMEOUT <? timeout then MAX_TIMEOUT else timeout)
                 = Z.min timeout MAX_TIMEOUT)
    by (destruct (Z.ltb_spec MAX_TIMEOUT timeout); lia).
  unfold showNotification. rewrite Hmin. intros Hrun.
  apply bind_inv in Hrun as ([] & w1 & Hshow & Hrun).
  pose proof (keeps_invokeMethod_show same_timers p w) as Hk.
  rewrite Hshow in Hk. unfold same_timers in Hk.
  revert Hrun. unfold findChild_QQuickWindow, connect_visibleChanged,
    QTimer_singleShot, deref, store. unfold_monad.
  destruct (heap w1 !! p) as [o|] eqn:Hp; [|discriminate].
  destruct (window o); [|discriminate].
  cbn. rewrite Hp. intros [= <-]. cbn. rewrite Hk. reflexivity.
Qed.

(** A click on a visible popup with one listening lambda. *)
Lemma dismiss_run (p : nat) (o : QObject) (w : World) :
  heap w !! p = Some o -> window o = Some true ->
  visibleChanged_receivers o = 1%nat ->
  exists w',
    dismiss p w = Done tt w' /\
    m_n_instances w' = wrap counter_type (m_n_instances w - 1) /\
    m_offset w' = (if m_n_instances w' =? 0 then 0 else m_offset w) /\
    heap w' = <[p := with_window o (Some false)]> (heap w) /\
    timers w' = timers w.
Proof.
  intros Hp Hw Hr. unfold dismiss.
  rewrite (setVisible_change p o false w Hp Hw), Hr, emit_visibleChanged_one.
  destruct (on_visibleChanged_run false
              (set_heap (<[p := with_window o (Some false)]> (heap w)) w))
    as (w' & Hrun & Hn & Ho & Hh & _ & _ & Ht & _).
  exists w'. repeat split; assumption.
Qed.

(** The single shot expires while the popup is still visible: the
    lambda runs once and the popup is gone. *)
Lemma QTimer_timeout_visible_run (k p : nat) (msec : Z) (o : QObject) (w : World) :
  timers w !! k = Some (msec, p) ->
  heap w !! p = Some o -> window o = Some true ->
  visibleChanged_receivers o = 1%nat ->
  exists w',
    QTimer_timeout k w = Done tt w' /\
    m_n_instances w' = wrap counter_type (m_n_instances w - 1) /\
    m_offset w' = (if m_n_instances w' =? 0 then 0 else m_offset w) /\
    heap w' = delete p (heap w) /\
    timers w' = delete k (timers w).
Proof.
  intros Hk Hp Hw Hr.
  unfold QTimer_timeout, delete_QObject, deref. unfold_monad. rewrite Hk. cbn.
  rewrite Hp, Hw.
  pose (w0 := set_timers (delete k (timers w)) w).
  assert (Hp0 : heap w0 !! p = Some o) by exact Hp.
  fold w0. rewrite (setVisible_change p o false w0 Hp0 Hw), Hr, emit_visibleChanged_one.
  destruct (on_visibleChanged_run false
              (set_heap (<[p := with_window o (Some false)]> (heap w0)) w0))
    as (w' & Hrun & Hn & Ho & Hh & _ & _ & Ht & _).
  rewrite Hrun. eexists. split; [reflexivity|]. cbn.
  rewrite Hh, Ht. cbn. rewrite delete_insert_eq. repeat split; assumption.
Qed.

(** The single shot expires after the popup was hidden: the popup is
    gone and the fields are as they were. *)
Lemma QTimer_timeout_hidden_run (k p : nat) (msec : Z) (o : QObject) (w : World) :
  timers w !! k = Some (msec, p) ->
  heap w !! p = Some o -> window o = Some false ->
  exists w',
    QTimer_timeout k w = Done tt w' /\
    m_n_instances w' = m_n_instances w /\ m_offset w' = m_offset w /\
    heap w' = delete p (heap w) /\
    timers w' = delete k (timers w) /\ trace w' = trace w.
Proof.
  intros Hk Hp Hw.
  unfold QTimer_timeout, delete_QObject, deref. unfold_monad. rewrite Hk. cbn.
  rewrite Hp, Hw. eexists. split; [reflexivity|]. cbn. repeat split.
Qed.

End Lifecycle.

(** ** Forwarding the data and showing the popup *)

Section Forward.
Context `{Externals}.

Lemma setProperty_run (p : nat) (o : QObject) (name : string) (v : QVariant)
    (w : World) :
  heap w !! p = Some o ->
  exists ok w' o' evs,
    setProperty p name v w = Done ok w' /\
    heap w' = <[p := o']> (heap w) /\
    component o' = component o /\ window o' = window o /\
    visibleChanged_receivers o' = visibleChanged_receivers o /\
    m_offset w' = m_offset w /\ m_n_instances w' = m_n_instances w /\
    allocated w' = allocated w /\
    status_connections w' = status_connections w /\ timers w' = timers w /\
    trace w' = trace w ++ EvSetProperty p name v :: evs /\
    (evs = [] \/ exists msg, evs = [EvWarning msg]).
Proof.
  intros Hp. unfold setProperty, QObject_setProperty, qWarning, deref, store.
  unfold_monad. cbn. rewrite Hp.
  destruct (meta o name) as [accepts|]; [destruct (accepts v)|]; cbn.
  - exists true. eexists. exists (with_properties o (<[name := v]> (properties o))).
    exists []. repeat split; auto.
  - exists false. eexists. exists o. eexists. split; [reflexivity|]. cbn.
    rewrite insert_id by exact Hp. rewrite <- app_assoc. repeat split; eauto.
  - exists false. eexists. exists (with_properties o (<[name := v]> (properties o))).
    eexists. split; [reflexivity|]. cbn. rewrite <- app_assoc. repeat split; eauto.
Qed.

Lemma showNotification_no_window (p : nat) (o : QObject) (timeout : Z) (w : World) :
  heap w !! p = Some o -> window o = None ->
  exists c, showNotification p timeout w = Abort c.
Proof.
  intros Hp Hw. unfold showNotification, invokeMethod_show, findChild_QQuickWindow, deref.
  unfold_monad. rewrite Hp, Hw. cbn. rewrite Hp, Hw. eauto.
Qed.

(** What the three notify operations do with a popup that
    [createNotification] has just returned. *)
Lemma forward_and_show_run (p : nat) (o : QObject) (data : gmap string QVariant)
    (timeout : Z) (w w' : World) :
  heap w !! p = Some o -> visibleChanged_receivers o = 0%nat ->
  (setProperty p NOTIFICATION_PROPERTY_DATA (QVariantMap data) ≫=
     fun _ => showNotification p timeout) w = Done tt w' ->
  exists o' evs,
    heap w' !! p = Some o' /\ component o' = component o /\
    window o' = Some true /\ visibleChanged_receivers o' = 1%nat /\
    m_offset w' = m_offset w /\ m_n_instances w' = m_n_instances w /\
    status_connections w' = status_connections w /\
    timers w' = timers w ++ [(Z.min timeout MAX_TIMEOUT, p)] /\
    trace w' = trace w ++
      EvSetProperty p NOTIFICATION_PROPERTY_DATA (QVariantMap data) :: evs /\
    (evs = [] \/ exists msg, evs = [EvWarning msg]).
Proof.
  intros Hp Hr Hrun.
  destruct (setProperty_run p o NOTIFICATION_PROPERTY_DATA (QVariantMap data) w Hp)
    as (ok & w1 & o1 & evs & Hset & Hh & Hc & Hw & Hr1 & Ho & Hn & _ & Hs & Ht & Htr & Hevs).
  rewrite (bind_done _ _ _ _ _ Hset) in Hrun.
  assert (Hp1 : heap w1 !! p = Some o1) by (rewrite Hh; apply lookup_insert_eq).
  destruct (window o1) as [v|] eqn:Hw1.
  - rewrite (showNotification_fresh_run p o1 v timeout w1 Hp1 Hw1) in Hrun
      by congruence.
    injection Hrun as <-. cbn. rewrite lookup_insert_eq.
    eexists. exists evs. split; [reflexivity|]. cbn.
    repeat split; try assumption. rewrite Ht. reflexivity.
  - destruct (showNotification_no_window p o1 timeout w1 Hp1 Hw1) as [c Hc'].
    rewrite Hc' in Hrun. discriminate.
Qed.

End Forward.

(** ** Consequences of the runs *)

Section Inversion.
Context `{Externals}.

Lemma createNotification_Some_inv (type : NotificationType) (w w' : World) (p : nat) :
  createNotification type w = Done (Some p) w' ->
  p = allocated w /\ m_n_instances w < N_MAX_NOTIFICATIONS /\
  height_readable (next_popup type w) = true /\
  property_accepts (next_popup type w) NOTIFICATION_PROPERTY_OFFSET
    (QInt (m_offset w)) = true.
Proof.
  intros Hrun.
  destruct (createNotification_cases type w) as [Hc|[[Hn Hf]|(Hn & Hh & Hs)]].
  - destruct (createNotification_capacity_run type w Hc) as (w1 & Hr & _). congruence.
  - destruct (createNotification_failure_run type w Hn Hf) as (w1 & Hr & _). congruence.
  - destruct (createNotification_success_run type w Hn Hh Hs) as (w1 & Hr & _).
    rewrite Hr in Hrun. injection Hrun as <- _. auto.
Qed.

Lemma createNotification_None_inv (type : NotificationType) (w w' : World) :
  createNotification type w = Done None w' ->
  m_offset w' = m_offset w /\ m_n_instances w' = m_n_instances w /\
  timers w' = timers w /\
  (forall evs p v, trace w' = trace w ++ evs ->
     EvSetProperty p NOTIFICATION_PROPERTY_DATA v ∉ evs).
Proof.
  intros Hrun.
  destruct (createNotification_cases type w) as [Hc|[[Hn Hf]|(Hn & Hh & Hs)]].
  - destruct (createNotification_capacity_run type w Hc)
      as (w1 & Hr & Ho & Hc' & _ & _ & _ & Ht & Htr).
    rewrite Hr in Hrun. injection Hrun as <-. repeat split; try assumption.
    intros evs p v Hevs. rewrite Htr in Hevs. apply app_inv_head in Hevs as <-.
    rewrite !not_elem_of_cons. repeat split; try discriminate. apply not_elem_of_nil.
  - revert Hrun. clear Hf.
    unfold createNotification, QQmlComponent_create, getNotificationSize,
      setProperty, QObject_setProperty, delete_QObject, QQuickWindow_setVisible,
      m_mutex_lock, m_mutex_unlock, read_n_instances, write_n_instances,
      read_offset, write_offset, qWarning, deref, store.
    unfold_monad. cbn.
    destruct (Z.leb_spec N_MAX_NOTIFICATIONS (m_n_instances w)); [lia|].
    rewrite lookup_insert_eq.
    destruct (QVariant_toInt _) as [size ok].
    assert (Hne : forall p v,
      EvSetProperty p NOTIFICATION_PROPERTY_DATA v ≠
      EvSetProperty (allocated w) NOTIFICATION_PROPERTY_OFFSET (QInt (m_offset w)))
      by (intros p v [= _ Hs _]; discriminate Hs).
    destruct (negb ok || (size <? 0)); cbn;
      [|destruct (size =? -1); cbn];
      repeat (rewrite ?lookup_insert_eq; cbn;
              try match goal with
                  | |- context [match ?x with _ => _ end] =>
                      lazymatch x with
                      | context [match _ with _ => _ end] => fail
                      | _ => destruct x eqn:?
                      end
                  end; cbn);
      try discriminate;
      intros [= <-]; cbn; (repeat split; try reflexivity);
      intros evs p v Hevs; rewrite <- ?app_assoc in Hevs;
      apply app_inv_head in Hevs as <-; cbn;
      rewrite !not_elem_of_cons; repeat split;
      try discriminate; try apply Hne; try apply not_elem_of_nil.
  - destruct (createNotification_success_run type w Hn Hh Hs) as (w1 & Hr & _). congruence.
Qed.

Lemma createNotification_total (type : NotificationType) (w : World) :
  exists r w', createNotification type w = Done r w'.
Proof.
  destruct (createNotification_cases type w) as [Hc|[[Hn Hf]|(Hn & Hh & Hs)]].
  - destruct (createNotification_capacity_run type w Hc) as (w1 & Hr & _). eauto.
  - destruct (createNotification_failure_run type w Hn Hf) as (w1 & Hr & _). eauto.
  - destruct (createNotification_success_run type w Hn Hh Hs) as (w1 & Hr & _). eauto.
Qed.

Lemma createNotification_guarded (type : NotificationType) :
  keeps extends_guarded (createNotification type).
Proof.
  intros w.
  destruct (createNotification_cases type w) as [Hc|[[Hn Hf]|(Hn & Hh & Hs)]].
  - destruct (createNotification_capacity_run type w Hc)
      as (w1 & -> & _ & _ & _ & _ & _ & _ & Htr).
    eexists. split; [exact Htr | reflexivity].
  - destruct (createNotification_failure_run type w Hn Hf)
      as (w1 & -> & _ & _ & _ & _ & _ & _ & evs & Htr & Hg & _).
    exists evs. auto.
  - destruct (createNotification_success_run type w Hn Hh Hs)
      as (w1 & -> & _ & _ & _ & _ & _ & _ & Htr).
    eexists. split; [exact Htr | reflexivity].
Qed.

End Inversion.

(** ** Every stimulus obeys the lock discipline *)

Section Discipline.
Context `{Externals}.

Lemma extends_guarded_quiet (e : Event) (w : World) :
  match e with EvLock | EvUnlock | EvRead _ | EvWrite _ => False | _ => True end ->
  extends_guarded w (emit e w).
Proof. intros He. exists [e]. split; [reflexivity | by apply guarded_quiet]. Qed.

Lemma extends_guarded_silent (w w' : World) :
  trace w' = trace w -> extends_guarded w w'.
Proof.
  intros Ht. exists []. rewrite app_nil_r. split; [exact Ht | apply guarded_nil].
Qed.

Lemma setProperty_guarded (p : nat) (name : string) (v : QVariant) :
  keeps extends_guarded (setProperty p name v).
Proof.
  unfold setProperty, QObject_setProperty, qWarning.
  apply keeps_bind; [apply _ | | intros ok].
  - apply keeps_bind; [apply _ | | intros _].
    { apply keeps_modify. intros w. by apply extends_guarded_quiet. }
    apply keeps_bind; [apply _ | apply keeps_deref, _ | intros o].
    destruct (meta o name) as [accepts|]; [destruct (accepts v)|];
      try (apply keeps_ret, _);
      (apply keeps_bind; [apply _ | apply keeps_store, _ | intros _; apply keeps_ret, _]).
  - destruct (negb ok); [|apply keeps_ret, _].
    apply keeps_bind; [apply _ | | intros _; apply keeps_ret, _].
    apply keeps_modify. intros w. by apply extends_guarded_quiet.
Qed.

Lemma showNotification_guarded (p : nat) (timeout : Z) :
  keeps extends_guarded (showNotification p timeout).
Proof.
  unfold showNotification, connect_visibleChanged, QTimer_singleShot.
  apply keeps_bind; [apply _ | apply keeps_invokeMethod_show, _ | intros _].
  apply keeps_bind; [apply _ | apply keeps_findChild, _ | intros [wp|]];
    [|apply keeps_crash].
  apply keeps_bind; [apply _ | | intros _].
  - apply keeps_bind; [apply _ | apply keeps_deref, _ | intros o].
    apply keeps_store, _.
  - apply keeps_modify. intros w. by apply extends_guarded_silent.
Qed.

Lemma forward_and_show_guarded (p : nat) (data : gmap string QVariant) (timeout : Z) :
  keeps extends_guarded
    (setProperty p NOTIFICATION_PROPERTY_DATA (QVariantMap data) ≫=
       fun _ => showNotification p timeout).
Proof.
  apply keeps_bind; [apply _ | apply setProperty_guarded | intros _].
  apply showNotification_guarded.
Qed.

Lemma react_guarded (s : Stimulus) : keeps extends_guarded (react s).
Proof.
  destruct s as [message|message|call|p|k|model status]; cbn [react].
  - apply keeps_bind; [apply _ | apply createNotification_guarded | intros [p|]];
      [apply forward_and_show_guarded | apply keeps_ret, _].
  - apply keeps_bind; [apply _ | apply createNotification_guarded | intros [p|]];
      [|apply keeps_ret, _].
    destruct (getFileTransferInformation_getSize message);
      [apply forward_and_show_guarded | apply keeps_crash].
  - apply keeps_bind; [apply _ | apply createNotification_guarded | intros [p|]];
      [|apply keeps_ret, _].
    apply keeps_bind; [apply _ | | intros _; apply forward_and_show_guarded].
    apply keeps_modify. intros w. by apply extends_guarded_silent.
  - apply keeps_setVisible, _.
  - apply keeps_QTimer_timeout; [apply _|].
    intros w l. by apply extends_guarded_silent.
  - apply keeps_CallModel_statusChanged, _.
Qed.

End Discipline.

(** * The notification cap and the layout offset *)

(** C1.  When the counter of live popups is at [N_MAX_NOTIFICATIONS]
    (15) or above, [createNotification] returns null; the counter and
    the offset are as before, and no object was instantiated. *)
Theorem createNotification_at_capacity `{Externals}
    (type : NotificationType) (w : World) :
  N_MAX_NOTIFICATIONS <= m_n_instances w ->
  exists w',
    createNotification type w = Done None w' /\
    m_n_instances w' = m_n_instances w /\ m_offset w' = m_offset w /\
    heap w' = heap w /\ allocated w' = allocated w.
Proof.
  intros Hn.
  destruct (createNotification_capacity_run type w Hn)
    as (w' & Hrun & Ho & Hc & Hh & Ha & _).
  exists w'. auto.
Qed.

Lemma createNotification_at_capacity_witness :
  N_MAX_NOTIFICATIONS <= m_n_instances crowded_world /\
  exists w',
    @createNotification plain_externals CallReceived crowded_world = Done None w' /\
    m_n_instances w' = m_n_instances crowded_world /\
    m_offset w' = m_offset crowded_world /\
    heap w' = heap crowded_world /\ allocated w' = allocated crowded_world.
Proof.
  split; [cbn; unfold N_MAX_NOTIFICATIONS; lia|].
  apply (@createNotification_at_capacity plain_externals CallReceived crowded_world).
  cbn. unfold N_MAX_NOTIFICATIONS. lia.
Defined.

(** C8.  Below the cap, when the height of the new popup cannot be read
    as a non-negative integer or the popup refuses its offset,
    [createNotification] returns null with the counter and the offset
    as before; the popup was instantiated and is deleted again. *)
Theorem createNotification_failure_keeps_state `{Externals}
    (type : NotificationType) (w : World) :
  m_n_instances w < N_MAX_NOTIFICATIONS ->
  height_readable (next_popup type w) = false \/
  property_accepts (next_popup type w) NOTIFICATION_PROPERTY_OFFSET
    (QInt (m_offset w)) = false ->
  exists w',
    createNotification type w = Done None w' /\
    m_n_instances w' = m_n_instances w /\ m_offset w' = m_offset w /\
    heap w' !! allocated w = None /\ allocated w' = S (allocated w) /\
    exists evs, trace w' = trace w ++ evs /\
      EvCreate (m_components type) (allocated w) ∈ evs.
Proof.
  intros Hn Hfail.
  destruct (createNotification_failure_run type w Hn Hfail)
    as (w' & Hrun & Ho & Hc & Hh & Ha & _ & _ & evs & Htr & _ & Hev).
  exists w'. repeat split; try assumption.
  - rewrite Hh. apply lookup_delete_eq.
  - exists evs. split; [exact Htr|]. eapply list_elem_of_lookup_2, Hev.
Qed.

Lemma createNotification_failure_keeps_state_witness :
  m_n_instances fresh_world < N_MAX_NOTIFICATIONS /\
  @height_readable broken_externals
    (@next_popup broken_externals MessageReceived fresh_world) = false /\
  exists w',
    @createNotification broken_externals MessageReceived fresh_world = Done None w' /\
    m_n_instances w' = m_n_instances fresh_world /\
    m_offset w' = m_offset fresh_world /\
    heap w' !! allocated fresh_world = None /\
    allocated w' = S (allocated fresh_world) /\
    exists evs, trace w' = trace fresh_world ++ evs /\
      EvCreate (@m_components MessageReceived) (allocated fresh_world) ∈ evs.
Proof.
  split; [cbn; unfold N_MAX_NOTIFICATIONS; lia|].
  split; [vm_compute; reflexivity|].
  apply (@createNotification_failure_keeps_state broken_externals
           MessageReceived fresh_world).
  - cbn. unfold N_MAX_NOTIFICATIONS. lia.
  - left. vm_compute. reflexivity.
Defined.

(** The offset after a success, in the arithmetic of the code: the two
    [int] additions of line 129, the height being non-negative. *)
Lemma createNotification_offset_int `{Externals}
    (type : NotificationType) (w w' : World) (p : nat) :
  createNotification type w = Done (Some p) w' ->
  0 <= (popup_height (next_popup type w)).1 /\
  m_offset w' =
    int_add (int_add (popup_height (next_popup type w)).1 (m_offset w))
      NOTIFICATION_SPACING /\
  m_n_instances w' = wrap counter_type (m_n_instances w + 1) /\
  heap w' !! p =
    Some (with_properties (next_popup type w)
            (<[NOTIFICATION_PROPERTY_OFFSET := QInt (m_offset w)]>
               (properties (next_popup type w)))).
Proof.
  intros Hrun.
  destruct (createNotification_Some_inv type w w' p Hrun) as (-> & Hn & Hh & Hs).
  destruct (createNotification_success_run type w Hn Hh Hs)
    as (w1 & Hr & Ho & Hc & Hheap & _).
  rewrite Hr in Hrun. injection Hrun as <-.
  unfold height_readable in Hh. apply andb_prop in Hh as [_ Hh%Z.leb_le].
  repeat split; try assumption. rewrite Hheap. apply lookup_insert_eq.
Qed.

Lemma int_sum_exact (offset height : Z) :
  in_range c_int offset -> 0 <= height ->
  offset + height + NOTIFICATION_SPACING <= INT_MAX ->
  int_add (int_add height offset) NOTIFICATION_SPACING =
  offset + height + NOTIFICATION_SPACING.
Proof.
  unfold in_range, INT_MAX, NOTIFICATION_SPACING. cbn [type_min type_max].
  intros Ho Hh Hs.
  rewrite (int_add_exact height offset)
    by (unfold in_range; cbn [type_min type_max]; lia).
  rewrite int_add_exact by (unfold in_range; cbn [type_min type_max]; lia).
  lia.
Qed.

(** The two fields keep values of their types: the hypothesis that the
    offset is an [int] holds in every world the notifier can reach. *)
Lemma fields_stay_in_range `{Externals} (w : World) :
  in_range c_int (m_offset w) ->
  in_range counter_type (m_n_instances w) ->
  (forall type r w',
     createNotification type w = Done r w' ->
     in_range c_int (m_offset w') /\ in_range counter_type (m_n_instances w')) /\
  (forall visible w',
     on_visibleChanged visible w = Done tt w' ->
     in_range c_int (m_offset w') /\ in_range counter_type (m_n_instances w')).
Proof.
  intros Ho Hn. split.
  - intros type [p|] w' Hrun.
    + destruct (createNotification_offset_int type w w' p Hrun) as (_ & -> & -> & _).
      split; apply wrap_in_range.
    + destruct (createNotification_None_inv type w w' Hrun) as (-> & -> & _).
      auto.
  - intros visible w' Hrun.
    destruct (on_visibleChanged_run visible w) as (w1 & Hrun1 & Hn1 & Ho1 & _).
    rewrite Hrun1 in Hrun. injection Hrun as <-.
    split; [|rewrite Hn1; apply wrap_in_range].
    rewrite Ho1. destruct (m_n_instances w1 =? 0); [|exact Ho].
    unfold in_range. cbn. lia.
Qed.

(** C2, as amended.  After a successful [createNotification] whose sum
    old offset + height + [NOTIFICATION_SPACING] fits in an [int], the
    new popup carries the old offset as its position, and the stored
    offset is the old offset plus the height plus 10: the next popup
    starts below the bottom of this one. *)
Theorem createNotification_stacks `{Externals}
    (type : NotificationType) (w w' : World) (p : nat) :
  createNotification type w = Done (Some p) w' ->
  in_range c_int (m_offset w) ->
  m_offset w + (popup_height (next_popup type w)).1 + NOTIFICATION_SPACING
    <= INT_MAX ->
  (exists o, heap w' !! p = Some o /\
     component o = m_components type /\
     QObject_property o NOTIFICATION_PROPERTY_OFFSET = QInt (m_offset w)) /\
  m_offset w' =
    m_offset w + (popup_height (next_popup type w)).1 + NOTIFICATION_SPACING /\
  m_offset w + (popup_height (next_popup type w)).1 < m_offset w'.
Proof.
  intros Hrun Hr Hfit.
  destruct (createNotification_offset_int type w w' p Hrun) as (Hh & Ho & _ & Hp).
  rewrite int_sum_exact in Ho by assumption.
  split; [|split; [exact Ho | rewrite Ho; unfold NOTIFICATION_SPACING; lia]].
  eexists. split; [exact Hp|]. split; [reflexivity|].
  unfold QObject_property. cbn. rewrite lookup_insert_eq. reflexivity.
Qed.

Lemma createNotification_stacks_witness :
  exists w',
    @createNotification plain_externals MessageReceived fresh_world
      = Done (Some 0%nat) w' /\
    (exists o, heap w' !! 0%nat = Some o /\
       component o = QML_NOTIFICATION_PATH_RECEIVED_MESSAGE /\
       QObject_property o NOTIFICATION_PROPERTY_OFFSET = QInt 0) /\
    m_offset w' = 0 + 120 + NOTIFICATION_SPACING /\
    0 + 120 < m_offset w'.
Proof.
  eexists. split; [vm_compute; reflexivity|].
  apply (@createNotification_stacks plain_externals MessageReceived fresh_world _ 0%nat).
  - vm_compute. reflexivity.
  - vm_compute. split; discriminate.
  - vm_compute. discriminate.
Defined.

(** C2 as stated fails when the sum leaves the range of [int]: with a
    popup as high as the largest [int], the first success stores
    -2147483639, not 0 + 2147483647 + 10. *)
Lemma createNotification_offset_wraps :
  exists w',
    @createNotification tall_externals MessageReceived fresh_world
      = Done (Some 0%nat) w' /\
    (@popup_height tall_externals
       (@next_popup tall_externals MessageReceived fresh_world)).1 = 2147483647 /\
    m_offset w' = -2147483639 /\
    m_offset w' <> m_offset fresh_world + 2147483647 + NOTIFICATION_SPACING.
Proof.
  eexists. split; [vm_compute; reflexivity|].
  split; [vm_compute; reflexivity|].
  split; [vm_compute; reflexivity|].
  vm_compute. discriminate.
Qed.

Section ResetAtZero.
Context `{Externals}.

Lemma reset_at_zero_refl (w : World) : reset_at_zero w w.
Proof. exists 0%nat. split; [reflexivity | by left]. Qed.

Lemma reset_at_zero_trans (w1 w2 w3 : World) :
  reset_at_zero w1 w2 -> reset_at_zero w2 w3 -> reset_at_zero w1 w3.
Proof.
  intros (i1 & Hn1 & Ho1) (i2 & Hn2 & Ho2).
  exists (i2 + i1)%nat. split.
  - rewrite Nat.iter_add, <- Hn1. exact Hn2.
  - destruct Ho2 as [Ho2|(Ho2 & j & Hj & Hz)].
    + destruct Ho1 as [Ho1|(Ho1 & j & Hj & Hz)].
      * left. congruence.
      * right. split; [congruence|]. exists j. split; [lia | exact Hz].
    + right. split; [exact Ho2|]. exists (j + i1)%nat. split; [lia|].
      rewrite Nat.iter_add, <- Hn1. exact Hz.
Qed.

#[global] Instance reset_at_zero_preorder : PreOrder reset_at_zero.
Proof. split; [exact reset_at_zero_refl | exact reset_at_zero_trans]. Qed.

(** One run of the lambda is one decrement; it resets the offset when
    that decrement brings the counter to zero, and only then. *)
Lemma on_visibleChanged_reset_at_zero (visible : bool) :
  keeps reset_at_zero (on_visibleChanged visible).
Proof.
  intros w. destruct (on_visibleChanged_run visible w) as (w' & -> & Hn & Ho & _).
  exists 1%nat. split; [exact Hn|].
  destruct (Z.eqb_spec (m_n_instances w') 0) as [Hz|Hz].
  - right. split; [exact Ho|]. exists 1%nat. split; [lia|].
    cbn. unfold decrement. congruence.
  - left. exact Ho.
Qed.

#[global] Instance reset_at_zero_frame : Frame reset_at_zero.
Proof.
  split; [apply _ | | | apply on_visibleChanged_reset_at_zero];
    intros w x; exists 0%nat; (split; [reflexivity | by left]).
Qed.

End ResetAtZero.




(** * Dismissal and the timeout *)

(** C3.  A run of the lambda connected to [visibleChanged] decrements
    the counter; when the new count is zero the offset is reset to
    zero, otherwise the offset is as before.  So it is for a click on a
    visible popup that one lambda listens to. *)
Theorem dismissal_resets_offset `{Externals} (visible : bool) (w : World) :
  (exists w',
     on_visibleChanged visible w = Done tt w' /\
     m_n_instances w' = wrap counter_type (m_n_instances w - 1) /\
     (m_n_instances w' = 0 -> m_offset w' = 0) /\
     (m_n_instances w' <> 0 -> m_offset w' = m_offset w)) /\
  (forall p o,
     heap w !! p = Some o -> window o = Some true ->
     visibleChanged_receivers o = 1%nat ->
     exists w',
       dismiss p w = Done tt w' /\
       m_n_instances w' = wrap counter_type (m_n_instances w - 1) /\
       (m_n_instances w' = 0 -> m_offset w' = 0) /\
       (m_n_instances w' <> 0 -> m_offset w' = m_offset w)).
Proof.
  split.
  - destruct (on_visibleChanged_run visible w) as (w' & Hrun & Hn & Ho & _).
    exists w'. split; [exact Hrun|]. split; [exact Hn|].
    destruct (Z.eqb_spec (m_n_instances w') 0); split; intros; congruence.
  - intros p o Hp Hw Hr.
    destruct (dismiss_run p o w Hp Hw Hr) as (w' & Hrun & Hn & Ho & _).
    exists w'. split; [exact Hrun|]. split; [exact Hn|].
    destruct (Z.eqb_spec (m_n_instances w') 0); split; intros; congruence.
Qed.

Lemma dismissal_resets_offset_witness :
  exists o w',
    heap shown_world !! 0%nat = Some o /\
    @dismiss plain_externals 0%nat shown_world = Done tt w' /\
    m_n_instances w' = 0 /\ m_offset shown_world = 130 /\ m_offset w' = 0.
Proof.
  destruct (proj2 (@dismissal_resets_offset plain_externals false shown_world) 0%nat
              (with_receivers
                 (with_window
                    (with_properties
                       (@next_popup plain_externals MessageReceived fresh_world)
                       (<[NOTIFICATION_PROPERTY_OFFSET := QInt 0]>
                          (properties
                             (@next_popup plain_externals MessageReceived fresh_world))))
                    (Some true)) 1))
    as (w' & Hrun & Hn & Hzero & _);
    [vm_compute; reflexivity | reflexivity | reflexivity |].
  eexists. exists w'. split; [vm_compute; reflexivity|].
  split; [exact Hrun|].
  assert (Hn0 : m_n_instances w' = 0) by (rewrite Hn; vm_compute; reflexivity).
  split; [exact Hn0|]. split; [vm_compute; reflexivity | exact (Hzero Hn0)].
Defined.

(** C4.  A [showNotification] that returns has scheduled one single
    shot for the popup; its duration is at most [MAX_TIMEOUT] (60000),
    and it is [MAX_TIMEOUT] when more was asked. *)
Theorem showNotification_timeout_bounded `{Externals}
    (p : nat) (timeout : Z) (w w' : World) :
  showNotification p timeout w = Done tt w' ->
  exists msec,
    timers w' = timers w ++ [(msec, p)] /\
    scheduled_timeout p w w' = Some msec /\
    msec <= MAX_TIMEOUT /\
    (MAX_TIMEOUT < timeout -> msec = MAX_TIMEOUT).
Proof.
  intros Hrun. apply showNotification_timers in Hrun.
  exists (Z.min timeout MAX_TIMEOUT). split; [exact Hrun|].
  split; [|split; lia].
  unfold scheduled_timeout. rewrite Hrun, drop_app_length, Nat.eqb_refl.
  reflexivity.
Qed.

Lemma showNotification_timeout_bounded_witness :
  exists w',
    @showNotification plain_externals 0%nat 70000 created_world = Done tt w' /\
    exists msec,
      timers w' = timers created_world ++ [(msec, 0%nat)] /\
      scheduled_timeout 0%nat created_world w' = Some msec /\
      msec <= MAX_TIMEOUT /\
      (MAX_TIMEOUT < 70000 -> msec = MAX_TIMEOUT).
Proof.
  eexists. split; [vm_compute; reflexivity|].
  apply (@showNotification_timeout_bounded plain_externals 0%nat 70000 created_world).
  vm_compute. reflexivity.
Defined.

(** C9.  The clamp has one side: a timeout of at most [MAX_TIMEOUT],
    be it zero or negative, reaches the single shot as it is. *)
Theorem showNotification_timeout_not_raised `{Externals}
    (p : nat) (timeout : Z) (w w' : World) :
  timeout <= MAX_TIMEOUT ->
  showNotification p timeout w = Done tt w' ->
  timers w' = timers w ++ [(timeout, p)] /\
  scheduled_timeout p w w' = Some timeout.
Proof.
  intros Hle Hrun. apply showNotification_timers in Hrun.
  rewrite Z.min_l in Hrun by exact Hle. split; [exact Hrun|].
  unfold scheduled_timeout. rewrite Hrun, drop_app_length, Nat.eqb_refl.
  reflexivity.
Qed.

Lemma showNotification_timeout_not_raised_witness :
  -5 <= MAX_TIMEOUT /\
  exists w',
    @showNotification plain_externals 0%nat (-5) created_world = Done tt w' /\
    timers w' = timers created_world ++ [(-5, 0%nat)] /\
    scheduled_timeout 0%nat created_world w' = Some (-5).
Proof.
  split; [unfold MAX_TIMEOUT; lia|].
  eexists. split; [vm_compute; reflexivity|].
  apply (@showNotification_timeout_not_raised plain_externals 0%nat (-5) created_world).
  - unfold MAX_TIMEOUT. lia.
  - vm_compute. reflexivity.
Defined.

(** * The life of a shown popup *)

Section TornDown.
Context `{Externals}.

Lemma wrap_succ_pred (n : Z) :
  in_range counter_type n -> n < N_MAX_NOTIFICATIONS ->
  wrap counter_type (wrap counter_type (n + 1) - 1) = n.
Proof.
  intros Hr Hn.
  assert (Hs : in_range counter_type (n + 1)).
  { revert Hr Hn. unfold in_range, N_MAX_NOTIFICATIONS.
    destruct counter_type; cbn [type_min type_max]; lia. }
  rewrite (wrap_id _ (n + 1) Hs).
  replace (n + 1 - 1) with n by lia. apply wrap_id, Hr.
Qed.

(** The popup that a successful [createNotification] leaves in the
    heap and a returning [showNotification] has made visible. *)
Lemma created_then_shown (type : NotificationType) (timeout : Z)
    (w w1 w2 : World) (p : nat) :
  createNotification type w = Done (Some p) w1 ->
  showNotification p timeout w1 = Done tt w2 ->
  exists o,
    heap w2 !! p = Some o /\ window o = Some true /\
    visibleChanged_receivers o = 1%nat /\
    timers w2 = timers w1 ++ [(Z.min timeout MAX_TIMEOUT, p)] /\
    m_n_instances w2 = wrap counter_type (m_n_instances w + 1) /\
    m_n_instances w < N_MAX_NOTIFICATIONS.
Proof.
  intros Hc Hs.
  destruct (createNotification_offset_int type w w1 p Hc) as (_ & _ & Hn & Hp).
  destruct (createNotification_Some_inv type w w1 p Hc) as (_ & Hlt & _).
  set (o1 := with_properties _ _) in Hp.
  destruct (window o1) as [v|] eqn:Hw.
  - rewrite (showNotification_fresh_run p o1 v timeout w1 Hp Hw eq_refl) in Hs.
    injection Hs as <-. cbn. rewrite lookup_insert_eq.
    eexists. split; [reflexivity|]. repeat split; assumption.
  - destruct (showNotification_no_window p o1 timeout w1 Hp Hw) as [c Hc'].
    congruence.
Qed.

End TornDown.

(** ** Between [createNotification] and the end of a notify operation *)

Section Notify.
Context `{Externals}.

(** A popup returned by [createNotification], maybe connected to a call
    model since, then handed its data and shown. *)
Lemma shown_after_create (type : NotificationType) (data : gmap string QVariant)
    (timeout : Z) (w w1 w' : World) (p : nat) (l : list (address * nat)) :
  createNotification type w = Done (Some p) w1 ->
  (setProperty p NOTIFICATION_PROPERTY_DATA (QVariantMap data) ≫=
     fun _ => showNotification p timeout) (set_status_connections l w1)
    = Done tt w' ->
  shown type data (Z.min timeout MAX_TIMEOUT) w w' /\
  status_connections w' = l /\
  m_n_instances w' = wrap counter_type (m_n_instances w + 1) /\
  exists o, heap w' !! p = Some o /\ window o = Some true /\
            visibleChanged_receivers o = 1%nat.
Proof.
  intros Hc Hrun.
  destruct (createNotification_Some_inv type w w1 p Hc) as (-> & Hn & Hh & Hs).
  destruct (createNotification_success_run type w Hn Hh Hs)
    as (w1' & Hr & _ & Hcount & Hheap & _ & _ & Ht & Htr).
  rewrite Hr in Hc. injection Hc as ->.
  set (o1 := with_properties _ _) in Hheap.
  assert (Hp : heap (set_status_connections l w1) !! allocated w = Some o1)
    by (cbn; rewrite Hheap; apply lookup_insert_eq).
  destruct (forward_and_show_run (allocated w) o1 data timeout _ w' Hp eq_refl Hrun)
    as (o' & evs & Hp' & Hc' & Hw' & Hr' & _ & Hn' & Hs' & Ht' & Htr' & Hevs).
  cbn in Hn', Hs', Ht', Htr'. rewrite Htr, <- app_assoc in Htr'.
  split; [|split; [exact Hs' | split; [congruence | eauto]]].
  exists o'. eexists. split; [exact Hp'|].
  split; [rewrite Hc'; reflexivity|]. split; [exact Hw'|].
  split; [exact Htr'|]. split; [|split; [|congruence]].
  - cbn. rewrite !elem_of_cons. auto.
  - intros q v. cbn. rewrite !elem_of_cons. split.
    + intros [Hq|[Hq|[Hq|[Hq|[Hq|[Hq|[Hq|[Hq|[Hq|[Hq|[Hq|Hq]]]]]]]]]]];
        try discriminate Hq.
      * injection Hq as -> ->. auto.
      * destruct Hevs as [->|[msg ->]]; [by apply elem_of_nil in Hq|].
        apply list_elem_of_singleton in Hq. discriminate Hq.
    + intros [-> ->]. do 10 right. by left.
Qed.

Lemma on_statusChanged_ended_run (p : nat) (o : QObject) (w : World) :
  heap w !! p = Some o -> window o = Some true ->
  visibleChanged_receivers o = 1%nat ->
  exists w' o',
    on_statusChanged p CallStatusEnded w = Done tt w' /\
    m_n_instances w' = wrap counter_type (m_n_instances w - 1) /\
    heap w' !! p = Some o' /\ window o' = Some false.
Proof.
  intros Hp Hw Hr.
  destruct (dismiss_run p o w Hp Hw Hr) as (w' & Hrun & Hn & _ & Hh & _).
  exists w'. eexists. split; [|split; [exact Hn|]].
  - unfold on_statusChanged, findChild_QQuickWindow, deref. unfold_monad.
    rewrite Hp, Hw. exact Hrun.
  - rewrite Hh, lookup_insert_eq. split; reflexivity.
Qed.

End Notify.

Lemma set_status_connections_id (w : World) :
  set_status_connections (status_connections w) w = w.
Proof. destruct w. reflexivity. Qed.

Section TornDownProof.
Context `{Externals}.

(** A visible popup with one listening lambda and a pending single
    shot is torn down as [torn_down] says. *)
Lemma torn_down_intro (p k : nat) (msec : Z) (o : QObject) (w : World) :
  timers w !! k = Some (msec, p) -> heap w !! p = Some o ->
  window o = Some true -> visibleChanged_receivers o = 1%nat ->
  torn_down p k w.
Proof.
  intros Hk Hp Hw Hr. split.
  - destruct (QTimer_timeout_visible_run k p _ o w Hk Hp Hw Hr)
      as (w3 & Hrun & Hn3 & _ & Hh3 & Ht3).
    exists w3. split; [exact Hrun|].
    split; [rewrite Hh3; apply lookup_delete_eq|]. split; assumption.
  - destruct (dismiss_run p o w Hp Hw Hr) as (w3 & Hrun & Hn3 & _ & Hh3 & Ht3).
    assert (Hp3 : heap w3 !! p = Some (with_window o (Some false)))
      by (rewrite Hh3; apply lookup_insert_eq).
    assert (Hk3 : timers w3 !! k = Some (msec, p)) by (rewrite Ht3; exact Hk).
    destruct (QTimer_timeout_hidden_run k p _ _ w3 Hk3 Hp3 eq_refl)
      as (w4 & Hrun4 & Hn4 & _ & Hh4 & Ht4 & _).
    exists w3, w4. split; [exact Hrun|]. split; [exact Hn3|].
    split; [exact (setVisible_same p _ false w3 Hp3 eq_refl)|].
    split; [exact Hrun4|].
    split; [rewrite Hh4; apply lookup_delete_eq|].
    split; [congruence | exact Hn4].
Qed.

(** [showNotification] on a live popup that no lambda listens to yet. *)
Lemma shown_then_torn_down (p : nat) (o : QObject) (timeout : Z) (w1 w2 : World) :
  heap w1 !! p = Some o -> visibleChanged_receivers o = 0%nat ->
  showNotification p timeout w1 = Done tt w2 ->
  timers w2 = timers w1 ++ [(Z.min timeout MAX_TIMEOUT, p)] /\
  m_n_instances w2 = m_n_instances w1 /\
  torn_down p (length (timers w1)) w2.
Proof.
  intros Hp Hr Hs.
  destruct (window o) as [v|] eqn:Hw.
  - rewrite (showNotification_fresh_run p o v timeout w1 Hp Hw Hr) in Hs.
    injection Hs as <-. cbn. split; [reflexivity|]. split; [reflexivity|].
    eapply torn_down_intro.
    + cbn. apply list_lookup_middle. reflexivity.
    + cbn. apply lookup_insert_eq.
    + reflexivity.
    + reflexivity.
  - destruct (showNotification_no_window p o timeout w1 Hp Hw) as [c Hc].
    congruence.
Qed.

(** What each notify operation runs once [createNotification] has
    returned a popup: maybe a connection to a call model, the data,
    then [showNotification]. *)
Lemma notify_body_torn_down (type : NotificationType) (data : gmap string QVariant)
    (timeout : Z) (w w1 w' : World) (p : nat) (l : list (address * nat)) :
  createNotification type w = Done (Some p) w1 ->
  (setProperty p NOTIFICATION_PROPERTY_DATA (QVariantMap data) ≫=
     fun _ => showNotification p timeout) (set_status_connections l w1)
    = Done tt w' ->
  timers w' = timers w ++ [(Z.min timeout MAX_TIMEOUT, p)] /\
  m_n_instances w' = wrap counter_type (m_n_instances w + 1) /\
  torn_down p (length (timers w)) w' /\
  (in_range counter_type (m_n_instances w) ->
   wrap counter_type (m_n_instances w' - 1) = m_n_instances w).
Proof.
  intros Hc Hrun.
  destruct (shown_after_create type data timeout w w1 w' p l Hc Hrun)
    as ((o0 & evs & _ & _ & _ & _ & _ & _ & Ht) & _ & Hn & o & Hp & Hw & Hr).
  destruct (createNotification_Some_inv type w w1 p Hc) as (-> & Hlt & _).
  split; [exact Ht|]. split; [exact Hn|]. split.
  - apply (torn_down_intro _ _ (Z.min timeout MAX_TIMEOUT) o); try assumption.
    rewrite Ht. apply list_lookup_middle. reflexivity.
  - intros Hin. rewrite Hn. by apply wrap_succ_pred.
Qed.

End TornDownProof.

(** C5.  [showNotification], run on a live popup that no lambda listens
    to yet, leaves one single shot pending, with the clamped timeout,
    and a popup that is torn down as [torn_down] says: when the single
    shot expires the object is deleted, and the counter has gone down
    once, whether the popup was still visible or the user had dismissed
    it before; a dismissal decrements the counter once, and a second
    click does nothing.  So it is for the popup of each of the three
    notify operations, which hand the popup its data (and, for a call,
    connect it to the call model) between [createNotification] and
    [showNotification]: the single shot is set to ten seconds, and the
    decrement brings the counter back to where it was before the
    operation. *)
Theorem notification_torn_down `{Externals} :
  (forall (p : nat) (o : QObject) (timeout : Z) (w1 w2 : World),
     heap w1 !! p = Some o -> visibleChanged_receivers o = 0%nat ->
     showNotification p timeout w1 = Done tt w2 ->
     timers w2 = timers w1 ++ [(Z.min timeout MAX_TIMEOUT, p)] /\
     Z.min timeout MAX_TIMEOUT <= MAX_TIMEOUT /\
     m_n_instances w2 = m_n_instances w1 /\
     torn_down p (length (timers w1)) w2) /\
  (forall (s : Stimulus) (type : NotificationType) (p : nat) (w w1 w' : World),
     notify_kind s = Some type ->
     createNotification type w = Done (Some p) w1 ->
     react s w = Done tt w' ->
     timers w' = timers w ++ [(10000, p)] /\
     m_n_instances w' = wrap counter_type (m_n_instances w + 1) /\
     torn_down p (length (timers w)) w' /\
     (in_range counter_type (m_n_instances w) ->
      wrap counter_type (m_n_instances w' - 1) = m_n_instances w)).
Proof.
  split.
  - intros p o timeout w1 w2 Hp Hr Hs.
    destruct (shown_then_torn_down p o timeout w1 w2 Hp Hr Hs) as (Ht & Hn & Htd).
    split; [exact Ht|]. split; [lia|]. split; assumption.
  - intros s type p w w1 w' Hkind Hc Hrun.
    destruct s as [message|message|call|q|k|model status];
      cbn in Hkind; try discriminate Hkind; injection Hkind as <-;
      cbn [react] in Hrun.
    + unfold notifyReceivedMessage in Hrun.
      rewrite (bind_done _ _ _ _ _ Hc) in Hrun.
      rewrite <- (set_status_connections_id w1) in Hrun.
      exact (notify_body_torn_down _ _ _ _ _ _ _ _ Hc Hrun).
    + unfold notifyReceivedFileMessage in Hrun.
      rewrite (bind_done _ _ _ _ _ Hc) in Hrun.
      destruct (getFileTransferInformation_getSize message); [|discriminate].
      rewrite <- (set_status_connections_id w1) in Hrun.
      exact (notify_body_torn_down _ _ _ _ _ _ _ _ Hc Hrun).
    + unfold notifyReceivedCall in Hrun.
      rewrite (bind_done _ _ _ _ _ Hc) in Hrun.
      apply bind_inv in Hrun as ([] & w2 & Hcon & Hrun). injection Hcon as <-.
      exact (notify_body_torn_down _ _ _ _ _ _ _ _ Hc Hrun).
Qed.

Lemma notification_torn_down_witness :
  exists w1 w3 w4,
    notify_kind (ReceivedMessage sample_message) = Some MessageReceived /\
    @createNotification plain_externals MessageReceived fresh_world
      = Done (Some 0%nat) w1 /\
    @react plain_externals (ReceivedMessage sample_message) fresh_world
      = Done tt (world_after [ReceivedMessage sample_message]) /\
    timers (world_after [ReceivedMessage sample_message]) = [(10000, 0%nat)] /\
    m_n_instances (world_after [ReceivedMessage sample_message]) = 1 /\
    @QTimer_timeout plain_externals 0%nat (world_after [ReceivedMessage sample_message]) = Done tt w3 /\
    heap w3 !! 0%nat = None /\ timers w3 = [] /\ m_n_instances w3 = 0 /\
    @dismiss plain_externals 0%nat (world_after [ReceivedMessage sample_message]) = Done tt w4 /\
    m_n_instances w4 = 0 /\
    @dismiss plain_externals 0%nat w4 = Done tt w4.
Proof.
  assert (Hc : @createNotification plain_externals MessageReceived fresh_world
               = Done (Some 0%nat) created_world) by (vm_compute; reflexivity).
  assert (Hs : @react plain_externals (ReceivedMessage sample_message) fresh_world
               = Done tt (world_after [ReceivedMessage sample_message])) by (vm_compute; reflexivity).
  destruct (proj2 (@notification_torn_down plain_externals)
              (ReceivedMessage sample_message) MessageReceived 0%nat
              fresh_world created_world _ eq_refl Hc Hs)
    as (Ht & Hn & ((w3 & Hr3 & Hh3 & Ht3 & Hn3) &
                   (w4 & w5 & Hr4 & Hn4 & Hr4' & _)) & _).
  exists created_world, w3, w4.
  split; [reflexivity|]. split; [exact Hc|]. split; [exact Hs|].
  split; [exact Ht|]. split; [exact Hn|].
  split; [exact Hr3|]. split; [exact Hh3|].
  split; [rewrite Ht3; vm_compute; reflexivity|].
  split; [rewrite Hn3; vm_compute; reflexivity|].
  split; [exact Hr4|].
  split; [rewrite Hn4; vm_compute; reflexivity | exact Hr4'].
Defined.

(** * The three notify operations *)

Section NotifyData.
Context `{Externals}.

Lemma message_data_entries (message : ChatMessage) :
  dom (message_data message) = {[ "message"; "sipAddress"; "window" ]} /\
  message_data message !! "message"
    = Some (QString (linphoneStringToQString (getText message))) /\
  message_data message !! "sipAddress"
    = Some (QString (linphoneStringToQString
                       (getFromAddress_asStringUriOnly message))) /\
  message_data message !! "window" = Some (QObjectStar getMainWindow).
Proof.
  unfold message_data. split; [|repeat split; reflexivity].
  rewrite !dom_insert_L, dom_empty_L. set_solver.
Qed.

Lemma file_message_data_entries (message : ChatMessage) (size : Z) :
  dom (file_message_data message size) = {[ "fileUri"; "fileSize" ]} /\
  file_message_data message size !! "fileUri"
    = Some (QString (linphoneStringToQString (getFileTransferFilepath message))) /\
  file_message_data message size !! "fileSize"
    = Some (QULongLong (size mod 2 ^ 64)).
Proof.
  unfold file_message_data. split; [|repeat split; reflexivity].
  rewrite !dom_insert_L, dom_empty_L. set_solver.
Qed.

Lemma call_data_entries (model : address) :
  dom (call_data model) = {[ "call" ]} /\
  call_data model !! "call" = Some (QObjectStar model).
Proof.
  unfold call_data. split; [|reflexivity].
  rewrite dom_insert_L, dom_empty_L. set_solver.
Qed.

Lemma createNotification_None_nothing_shown (type : NotificationType) (w w' : World) :
  createNotification type w = Done None w' -> nothing_shown w w'.
Proof.
  intros Hc. destruct (createNotification_None_inv type w w' Hc) as (Ho & Hn & Ht & He).
  repeat split; assumption.
Qed.

End NotifyData.

(** C6, as amended.  A notify operation that returns has either
    returned at once because [createNotification] returned null (the
    cap was reached or the popup could not be set up), and then nothing
    is shown; or [createNotification] returned the object at the next
    free address, and then the operation has instantiated the component
    of its own kind and handed it one data map: text, sender address
    and the main window for a message; file path and file size for a
    file transfer; the call model for a call, whose end hides the
    popup. *)
Theorem notify_forwards `{Externals} (w w' : World) :
  (forall message,
     notifyReceivedMessage message w = Done tt w' ->
     (createNotification MessageReceived w = Done None w' /\
      nothing_shown w w') \/
     (exists w1,
        createNotification MessageReceived w = Done (Some (allocated w)) w1 /\
        shown MessageReceived (message_data message)
          NOTIFICATION_TIMEOUT_RECEIVED_MESSAGE w w')) /\
  (forall message,
     notifyReceivedFileMessage message w = Done tt w' ->
     (createNotification FileMessageReceived w = Done None w' /\
      nothing_shown w w') \/
     (exists w1 size,
        createNotification FileMessageReceived w = Done (Some (allocated w)) w1 /\
        getFileTransferInformation_getSize message = Some size /\
        shown FileMessageReceived (file_message_data message size)
          NOTIFICATION_TIMEOUT_RECEIVED_FILE_MESSAGE w w')) /\
  (forall call,
     notifyReceivedCall call w = Done tt w' ->
     (createNotification CallReceived w = Done None w' /\
      nothing_shown w w') \/
     (exists w1,
        createNotification CallReceived w = Done (Some (allocated w)) w1 /\
        shown CallReceived (call_data (getCall call))
          NOTIFICATION_TIMEOUT_RECEIVED_CALL w w' /\
        status_connections w' = status_connections w ++ [(getCall call, allocated w)] /\
        (forall status, status <> CallStatusEnded ->
           on_statusChanged (allocated w) status w' = Done tt w') /\
        exists w'' o'',
          on_statusChanged (allocated w) CallStatusEnded w' = Done tt w'' /\
          m_n_instances w'' = wrap counter_type (m_n_instances w' - 1) /\
          heap w'' !! allocated w = Some o'' /\ window o'' = Some false)) /\
  (forall message,
     dom (message_data message) = {[ "message"; "sipAddress"; "window" ]} /\
     message_data message !! "message"
       = Some (QString (linphoneStringToQString (getText message))) /\
     message_data message !! "sipAddress"
       = Some (QString (linphoneStringToQString
                          (getFromAddress_asStringUriOnly message))) /\
     message_data message !! "window" = Some (QObjectStar getMainWindow)) /\
  (forall message size,
     dom (file_message_data message size) = {[ "fileUri"; "fileSize" ]} /\
     file_message_data message size !! "fileUri"
       = Some (QString (linphoneStringToQString (getFileTransferFilepath message))) /\
     file_message_data message size !! "fileSize"
       = Some (QULongLong (size mod 2 ^ 64))) /\
  (forall model,
     dom (call_data model) = {[ "call" ]} /\
     call_data model !! "call" = Some (QObjectStar model)).
Proof.
  split; [|split; [|split; [|split; [|split]]]].
  - intros message Hrun. unfold notifyReceivedMessage in Hrun.
    apply bind_inv in Hrun as ([p|] & w1 & Hc & Hrun).
    + right. exists w1.
      pose proof (createNotification_Some_inv _ _ _ _ Hc) as (Hp & _).
      split; [rewrite <- Hp; exact Hc|].
      rewrite <- (set_status_connections_id w1) in Hrun.
      apply (shown_after_create _ _ _ _ _ _ _ _ Hc Hrun).
    + left. injection Hrun as <-.
      split; [exact Hc | exact (createNotification_None_nothing_shown _ _ _ Hc)].
  - intros message Hrun. unfold notifyReceivedFileMessage in Hrun.
    apply bind_inv in Hrun as ([p|] & w1 & Hc & Hrun).
    + right. destruct (getFileTransferInformation_getSize message) as [size|];
        [|discriminate].
      exists w1, size.
      pose proof (createNotification_Some_inv _ _ _ _ Hc) as (Hp & _).
      split; [rewrite <- Hp; exact Hc|]. split; [reflexivity|].
      rewrite <- (set_status_connections_id w1) in Hrun.
      apply (shown_after_create _ _ _ _ _ _ _ _ Hc Hrun).
    + left. injection Hrun as <-.
      split; [exact Hc | exact (createNotification_None_nothing_shown _ _ _ Hc)].
  - intros call Hrun. unfold notifyReceivedCall in Hrun.
    apply bind_inv in Hrun as ([p|] & w1 & Hc & Hrun).
    + right. exists w1. apply bind_inv in Hrun as ([] & w2 & Hcon & Hrun).
      injection Hcon as <-.
      destruct (shown_after_create _ _ _ _ _ _ _ _ Hc Hrun)
        as (Hshown & Hs & _ & o & Hp & Hw & Hr).
      destruct (createNotification_Some_inv _ _ _ _ Hc) as (-> & Hn & Hh & Hset).
      split; [exact Hc|].
      destruct (createNotification_success_run _ _ Hn Hh Hset)
        as (w1' & Hr1 & _ & _ & _ & _ & Hs1 & _).
      rewrite Hr1 in Hc. injection Hc as ->.
      split; [exact Hshown|]. split; [rewrite Hs, Hs1; reflexivity|].
      split; [intros status Hne; destruct status; [reflexivity | congruence | reflexivity ..]|].
      destruct (on_statusChanged_ended_run _ o w' Hp Hw Hr)
        as (w'' & o'' & Hrun' & Hn' & Hp'' & Hw'').
      exists w'', o''. auto.
    + left. injection Hrun as <-.
      split; [exact Hc | exact (createNotification_None_nothing_shown _ _ _ Hc)].
  - apply message_data_entries.
  - apply file_message_data_entries.
  - apply call_data_entries.
Qed.

Lemma notify_forwards_witness :
  (exists w1,
     @notifyReceivedMessage plain_externals sample_message fresh_world
       = Done tt (world_after [ReceivedMessage sample_message]) /\
     @createNotification plain_externals MessageReceived fresh_world
       = Done (Some 0%nat) w1 /\
     shown MessageReceived
       (@message_data plain_externals sample_message)
       NOTIFICATION_TIMEOUT_RECEIVED_MESSAGE fresh_world
       (world_after [ReceivedMessage sample_message])) /\
  @notifyReceivedMessage plain_externals sample_message full_world
    = Done tt (world_after (full_run ++ [ReceivedMessage sample_message])) /\
  @createNotification plain_externals MessageReceived full_world
    = Done None (world_after (full_run ++ [ReceivedMessage sample_message])) /\
  nothing_shown full_world (world_after (full_run ++ [ReceivedMessage sample_message])).
Proof.
  assert (Ha : @notifyReceivedMessage plain_externals sample_message fresh_world
               = Done tt (world_after [ReceivedMessage sample_message]))
    by (vm_compute; reflexivity).
  assert (Hb : @notifyReceivedMessage plain_externals sample_message full_world
               = Done tt (world_after (full_run ++ [ReceivedMessage sample_message])))
    by (vm_compute; reflexivity).
  split.
  - destruct (proj1 (@notify_forwards plain_externals fresh_world _) sample_message Ha)
      as [(Hn & _)|(w1 & Hc & Hshown)].
    + vm_compute in Hn. discriminate Hn.
    + exists w1. split; [exact Ha|]. split; [exact Hc | exact Hshown].
  - split; [exact Hb|].
    destruct (proj1 (@notify_forwards plain_externals full_world _) sample_message Hb)
      as [(Hn & Hnone)|(w1 & Hc & _)].
    + split; [exact Hn | exact Hnone].
    + vm_compute in Hc. discriminate Hc.
Defined.

(** C6 as stated fails for a chat message: the data handed to the
    popup holds the application's main window besides the text and the
    sender address.  And with fifteen popups alive the operation
    returns without an object, a timer or a trace of data. *)
Lemma message_popup_receives_main_window :
  (exists w' o m,
     @notifyReceivedMessage plain_externals sample_message fresh_world = Done tt w' /\
     heap w' !! 0%nat = Some o /\
     QObject_property o NOTIFICATION_PROPERTY_DATA = QVariantMap m /\
     m !! "window" = Some (QObjectStar (@getMainWindow plain_externals)) /\
     m <> <["sipAddress" := QString "sip:alice@example.org"]>
            (<["message" := QString "hello"]> ∅)) /\
  (exists w',
     @notifyReceivedMessage plain_externals sample_message crowded_world = Done tt w' /\
     heap w' = ∅ /\ allocated w' = 0%nat /\ timers w' = [] /\
     trace w' = [EvLock; EvRead f_n_instances;
                 EvWarning "Unable to create another notification"; EvUnlock]).
Proof.
  split.
  - eexists. eexists. eexists.
    split; [vm_compute; reflexivity|].
    split; [vm_compute; reflexivity|].
    split; [vm_compute; reflexivity|].
    split; [vm_compute; reflexivity|].
    intros Heq. apply (f_equal (fun m => m !! "window")) in Heq.
    vm_compute in Heq. discriminate Heq.
  - eexists. split; [vm_compute; reflexivity|].
    repeat split; vm_compute; reflexivity.
Qed.

(** * The mutex *)

(** C7.  The events of a [createNotification] and of a run of the
    visibility lambda obey the lock discipline: the counter and the
    offset are read and written between the lock and the unlock of the
    one mutex, which is free again at the end.  The increment and the
    advance of a success, the decrement and the reset of the lambda are
    among these events.  So it is for every notify operation and every
    signal of the toolkit. *)
Theorem fields_accessed_under_mutex `{Externals} (w : World) :
  (forall type, exists r w' evs,
     createNotification type w = Done r w' /\
     trace w' = trace w ++ evs /\ guarded evs /\
     (r <> None -> EvWrite f_offset ∈ evs /\ EvWrite f_n_instances ∈ evs) /\
     (forall f, r = None -> EvWrite f ∉ evs)) /\
  (forall visible, exists w' evs,
     on_visibleChanged visible w = Done tt w' /\
     trace w' = trace w ++ evs /\ guarded evs /\
     EvWrite f_n_instances ∈ evs /\
     (EvWrite f_offset ∈ evs <-> m_n_instances w' = 0)) /\
  (forall s w',
     react s w = Done tt w' ->
     exists evs, trace w' = trace w ++ evs /\ guarded evs).
Proof.
  split; [|split].
  - intros type.
    destruct (createNotification_cases type w) as [Hc|[[Hn Hf]|(Hn & Hh & Hs)]].
    + destruct (createNotification_capacity_run type w Hc)
        as (w' & Hrun & _ & _ & _ & _ & _ & _ & Htr).
      exists None, w'. eexists. split; [exact Hrun|]. split; [exact Htr|].
      split; [reflexivity|]. split; [congruence|].
      intros f _. rewrite !not_elem_of_cons. repeat split; try discriminate.
      apply not_elem_of_nil.
    + pose proof (createNotification_guarded type w) as Hg.
      destruct (createNotification_failure_run type w Hn Hf) as (w' & Hrun & _).
      rewrite Hrun in Hg. destruct Hg as (evs & Htr & Hg).
      exists None, w', evs. split; [exact Hrun|]. split; [exact Htr|].
      split; [exact Hg|]. split; [congruence|].
      intros f _.
      revert Hrun Htr. clear.
      unfold createNotification, QQmlComponent_create, getNotificationSize,
        setProperty, QObject_setProperty, delete_QObject, QQuickWindow_setVisible,
        m_mutex_lock, m_mutex_unlock, read_n_instances, write_n_instances,
        read_offset, write_offset, qWarning, deref, store.
      unfold_monad. cbn.
      destruct (N_MAX_NOTIFICATIONS <=? m_n_instances w); cbn.
      * intros [= <-]. cbn. rewrite <- !app_assoc. intros Hevs.
        apply app_inv_head in Hevs as <-. cbn.
        rewrite !not_elem_of_cons. repeat split; try discriminate.
        apply not_elem_of_nil.
      * rewrite lookup_insert_eq.
        destruct (QVariant_toInt _) as [size ok].
        destruct (negb ok || (size <? 0)); cbn;
          [|destruct (size =? -1); cbn];
          repeat (rewrite ?lookup_insert_eq; cbn;
                  try match goal with
                      | |- context [match ?x with _ => _ end] =>
                          lazymatch x with
                          | context [match _ with _ => _ end] => fail
                          | _ => destruct x eqn:?
                          end
                      end; cbn);
          try discriminate;
          intros [= <-]; cbn; rewrite <- ?app_assoc; intros Hevs;
          apply app_inv_head in Hevs as <-; cbn;
          rewrite !not_elem_of_cons; repeat split;
          try discriminate; apply not_elem_of_nil.
    + destruct (createNotification_success_run type w Hn Hh Hs)
        as (w' & Hrun & _ & _ & _ & _ & _ & _ & Htr).
      exists (Some (allocated w)), w'. eexists.
      split; [exact Hrun|]. split; [exact Htr|]. split; [reflexivity|].
      split; [|discriminate].
      intros _. rewrite !elem_of_cons.
      split; repeat first [left; reflexivity | right].
  - intros visible.
    destruct (on_visibleChanged_run visible w)
      as (w' & Hrun & _ & _ & _ & _ & _ & _ & Htr).
    exists w'. eexists. split; [exact Hrun|]. split; [exact Htr|].
    destruct visible; destruct (Z.eqb_spec (m_n_instances w') 0) as [Hz|Hz];
      cbn; (split; [reflexivity|]); rewrite !elem_of_cons, !elem_of_nil;
      (split; [repeat first [left; reflexivity | right]|]);
      (split; [intros Hin | intros Hz']);
      try exact Hz; try contradiction;
      try (repeat first [left; reflexivity | right]);
      repeat (destruct Hin as [Hin|Hin]; [discriminate Hin|]); contradiction.
  - intros s w' Hrun. pose proof (react_guarded s w) as Hg.
    rewrite Hrun in Hg. exact Hg.
Qed.

Lemma fields_accessed_under_mutex_witness :
  exists w' evs,
    @react plain_externals (Click 0%nat) shown_world = Done tt w' /\
    trace w' = trace shown_world ++ evs /\ guarded evs /\
    evs = [EvInfo "Update notifications counter, hidden notification detected.";
           EvLock; EvRead f_n_instances; EvWrite f_n_instances;
           EvRead f_n_instances; EvWrite f_offset; EvUnlock].
Proof.
  eexists.
  match goal with
  | |- exists evs, ?run = Done tt ?w' /\ _ =>
      assert (Hrun : run = Done tt w') by (vm_compute; reflexivity);
      destruct (proj2 (proj2 (@fields_accessed_under_mutex plain_externals shown_world))
                  (Click 0%nat) w' Hrun) as (evs & Htr & Hg)
  end.
  exists evs. split; [exact Hrun|]. split; [exact Htr|]. split; [exact Hg|].
  vm_compute in Htr. injection Htr as ->. reflexivity.
Defined.

(** * Beyond the stated claims *)

(** ** Full runs of the signals *)

Section SignalRuns.
Context `{Externals}.

Lemma with_window_id (o : QObject) (v : bool) :
  window o = Some v -> with_window o (Some v) = o.
Proof. destruct o. cbn. intros ->. reflexivity. Qed.

(** An emission of [visibleChanged] always returns, and touches the
    two fields and the trace only. *)
Lemma emit_visibleChanged_returns (receivers : nat) (visible : bool) (w : World) :
  exists w',
    emit_visibleChanged receivers visible w = Done tt w' /\
    heap w' = heap w /\ allocated w' = allocated w /\
    status_connections w' = status_connections w /\ timers w' = timers w.
Proof.
  revert w. induction receivers as [|k IH]; intros w.
  - exists w. repeat split.
  - cbn [emit_visibleChanged].
    destruct (on_visibleChanged_run visible w)
      as (w1 & Hrun & _ & _ & Hh & Ha & Hs & Ht & _).
    destruct (IH w1) as (w2 & Hrun2 & Hh2 & Ha2 & Hs2 & Ht2).
    exists w2. rewrite (bind_done _ _ _ _ _ Hrun).
    split; [exact Hrun2|]. repeat split; congruence.
Qed.

Lemma setVisible_returns (p : nat) (o : QObject) (v0 visible : bool) (w : World) :
  heap w !! p = Some o -> window o = Some v0 ->
  exists w',
    QQuickWindow_setVisible p visible w = Done tt w' /\
    heap w' = <[p := with_window o (Some visible)]> (heap w) /\
    allocated w' = allocated w /\
    status_connections w' = status_connections w /\ timers w' = timers w.
Proof.
  intros Hp Hw. destruct (Bool.eqb v0 visible) eqn:E.
  - apply Bool.eqb_prop in E as ->.
    rewrite (setVisible_same p o visible w Hp Hw). exists w.
    rewrite (with_window_id o visible Hw), insert_id by exact Hp. repeat split.
  - assert (v0 = negb visible) as -> by (destruct v0, visible; done).
    rewrite (setVisible_change p o visible w Hp Hw).
    destruct (emit_visibleChanged_returns (visibleChanged_receivers o) visible
                (set_heap (<[p := with_window o (Some visible)]> (heap w)) w))
      as (w' & Hrun & Hh & Ha & Hs & Ht).
    exists w'. split; [exact Hrun|]. repeat split; assumption.
Qed.

(** Hiding a visible popup that one lambda listens to. *)
Lemma hide_run (p : nat) (o : QObject) (w : World) :
  heap w !! p = Some o -> window o = Some true ->
  visibleChanged_receivers o = 1%nat ->
  exists w',
    dismiss p w = Done tt w' /\
    m_n_instances w' = wrap counter_type (m_n_instances w - 1) /\
    m_offset w' = (if m_n_instances w' =? 0 then 0 else m_offset w) /\
    heap w' = <[p := with_window o (Some false)]> (heap w) /\
    allocated w' = allocated w /\
    status_connections w' = status_connections w /\ timers w' = timers w.
Proof.
  intros Hp Hw Hr. unfold dismiss.
  rewrite (setVisible_change p o false w Hp Hw), Hr, emit_visibleChanged_one.
  destruct (on_visibleChanged_run false
              (set_heap (<[p := with_window o (Some false)]> (heap w)) w))
    as (w' & Hrun & Hn & Ho & Hh & Ha & Hs & Ht & _).
  exists w'. repeat split; assumption.
Qed.

(** The expiry of a pending single shot whose popup is live, has a
    window and one listening lambda. *)
Lemma expire_run (k p : nat) (msec : Z) (o : QObject) (v : bool) (w : World) :
  timers w !! k = Some (msec, p) ->
  heap w !! p = Some o -> window o = Some v ->
  visibleChanged_receivers o = 1%nat ->
  exists w',
    QTimer_timeout k w = Done tt w' /\
    m_n_instances w' =
      (if v then wrap counter_type (m_n_instances w - 1) else m_n_instances w) /\
    m_offset w' =
      (if v then (if m_n_instances w' =? 0 then 0 else m_offset w) else m_offset w) /\
    heap w' = delete p (heap w) /\
    allocated w' = allocated w /\
    status_connections w' = filter (fun c => c.2 ≠ p) (status_connections w) /\
    timers w' = delete k (timers w).
Proof.
  intros Hk Hp Hw Hr. destruct v.
  - unfold QTimer_timeout, delete_QObject, deref. unfold_monad. rewrite Hk. cbn.
    rewrite Hp, Hw.
    pose (w0 := set_timers (delete k (timers w)) w).
    assert (Hp0 : heap w0 !! p = Some o) by exact Hp.
    fold w0. rewrite (setVisible_change p o false w0 Hp0 Hw), Hr, emit_visibleChanged_one.
    destruct (on_visibleChanged_run false
                (set_heap (<[p := with_window o (Some false)]> (heap w0)) w0))
      as (w' & Hrun & Hn & Ho & Hh & Ha & Hs & Ht & _).
    rewrite Hrun. eexists. split; [reflexivity|]. cbn.
    rewrite Hh, Hs, Ht. cbn. rewrite delete_insert_eq. repeat split; assumption.
  - unfold QTimer_timeout, delete_QObject, deref. unfold_monad. rewrite Hk. cbn.
    rewrite Hp, Hw. eexists. split; [reflexivity|]. cbn. repeat split.
Qed.

End SignalRuns.

(** ** Full runs of the notify operations *)

Section NotifyRuns.
Context `{Externals}.

(** A popup was created, maybe connected to a call model, handed its
    data and shown. *)
Lemma notify_body_run (type : NotificationType) (data : gmap string QVariant)
    (timeout : Z) (w w1 w' : World) (p : nat) (l : list (address * nat)) :
  createNotification type w = Done (Some p) w1 ->
  (setProperty p NOTIFICATION_PROPERTY_DATA (QVariantMap data) ≫=
     fun _ => showNotification p timeout) (set_status_connections l w1)
    = Done tt w' ->
  p = allocated w /\ m_n_instances w < N_MAX_NOTIFICATIONS /\
  exists o',
    heap w' = <[p := o']> (heap w) /\
    window o' = Some true /\ visibleChanged_receivers o' = 1%nat /\
    allocated w' = S (allocated w) /\ status_connections w' = l /\
    timers w' = timers w ++ [(Z.min timeout MAX_TIMEOUT, p)] /\
    m_n_instances w' = wrap counter_type (m_n_instances w + 1) /\
    in_range c_int (m_offset w').
Proof.
  intros Hc Hrun.
  destruct (createNotification_Some_inv type w w1 p Hc) as (-> & Hn & Hh & Hs).
  destruct (createNotification_success_run type w Hn Hh Hs)
    as (w1' & Hr & Hoff & Hcount & Hheap & Ha & _ & Ht & _).
  rewrite Hr in Hc. injection Hc as ->.
  set (o1 := with_properties _ _) in Hheap.
  assert (Hp : heap (set_status_connections l w1) !! allocated w = Some o1)
    by (cbn; rewrite Hheap; apply lookup_insert_eq).
  destruct (setProperty_run (allocated w) o1 NOTIFICATION_PROPERTY_DATA
              (QVariantMap data) _ Hp)
    as (ok & w2 & o2 & evs & Hset & Hh2 & _ & Hw2 & Hr2 & Ho2 & Hn2 & Ha2 & Hs2 & Ht2 & _).
  rewrite (bind_done _ _ _ _ _ Hset) in Hrun.
  assert (Hp2 : heap w2 !! allocated w = Some o2) by (rewrite Hh2; apply lookup_insert_eq).
  cbn in Hh2, Ho2, Hn2, Ha2, Hs2, Ht2.
  split; [reflexivity|]. split; [exact Hn|].
  destruct (window o2) as [v|] eqn:Hwin.
  - rewrite (showNotification_fresh_run _ o2 v timeout w2 Hp2 Hwin) in Hrun
      by (rewrite Hr2; reflexivity).
    injection Hrun as <-. cbn.
    assert (Hin : in_range c_int (m_offset w2))
      by (rewrite Ho2, Hoff; apply wrap_in_range).
    eexists. split.
    { rewrite Hh2, Hheap, !insert_insert_eq. reflexivity. }
    repeat split; try congruence; apply Hin.
  - destruct (showNotification_no_window _ o2 timeout w2 Hp2 Hwin) as [c Hc'].
    congruence.
Qed.

(** A [createNotification] that returns null, seen from a world whose
    popups sit below the next free address. *)
Lemma createNotification_None_frame (type : NotificationType) (w w' : World) :
  (forall p, is_Some (heap w !! p) -> (p < allocated w)%nat) ->
  createNotification type w = Done None w' ->
  heap w' = heap w /\ (allocated w <= allocated w')%nat /\
  timers w' = timers w /\
  m_n_instances w' = m_n_instances w /\ m_offset w' = m_offset w /\
  (forall c, c ∈ status_connections w' -> c ∈ status_connections w).
Proof.
  intros Hfresh Hrun.
  destruct (createNotification_cases type w) as [Hc|[[Hn Hf]|(Hn & Hh & Hs)]].
  - destruct (createNotification_capacity_run type w Hc)
      as (w1 & Hr & Ho & Hcount & Hheap & Ha & Hst & Ht & _).
    rewrite Hr in Hrun. injection Hrun as <-.
    repeat split; try assumption; [lia | by rewrite Hst].
  - destruct (createNotification_failure_run type w Hn Hf)
      as (w1 & Hr & Ho & Hcount & Hheap & Ha & Hst & Ht & _).
    rewrite Hr in Hrun. injection Hrun as <-.
    repeat split; try assumption; [| lia |].
    + rewrite Hheap. apply delete_id.
      destruct (heap w !! allocated w) eqn:E; [|reflexivity].
      specialize (Hfresh (allocated w) ltac:(rewrite E; eauto)). lia.
    + intros c. rewrite Hst. intros Hc%list_elem_of_filter. apply Hc.
  - destruct (createNotification_success_run type w Hn Hh Hs) as (w1 & Hr & _).
    congruence.
Qed.

End NotifyRuns.

(** ** Counting the visible popups *)

Lemma visible_popups_insert_visible (h : gmap nat QObject) (p : nat) (o : QObject) :
  h !! p = None -> window o = Some true ->
  size (visible_popups (<[p := o]> h)) = S (size (visible_popups h)).
Proof.
  intros Hp Hw. unfold visible_popups.
  rewrite map_filter_insert_True by exact Hw.
  apply map_size_insert_None, map_lookup_filter_None_2. by left.
Qed.

Lemma visible_popups_delete_visible (h : gmap nat QObject) (p : nat) (o : QObject) :
  h !! p = Some o -> window o = Some true ->
  size (visible_popups h) = S (size (visible_popups (delete p h))).
Proof.
  intros Hp Hw. unfold visible_popups. rewrite map_filter_delete.
  assert (Hf : filter (fun po : nat * QObject => window po.2 = Some true) h !! p = Some o)
    by (apply map_lookup_filter_Some_2; assumption).
  rewrite <- (insert_delete_id _ p o Hf) at 1.
  apply map_size_insert_None, lookup_delete_eq.
Qed.

Lemma visible_popups_delete_hidden (h : gmap nat QObject) (p : nat) (o : QObject) :
  h !! p = Some o -> window o <> Some true ->
  visible_popups (delete p h) = visible_popups h.
Proof.
  intros Hp Hw. unfold visible_popups. rewrite map_filter_delete.
  apply delete_id, map_lookup_filter_None_2. right. intros o' Ho'.
  rewrite Hp in Ho'. injection Ho' as <-. exact Hw.
Qed.

Lemma visible_popups_hide (h : gmap nat QObject) (p : nat) (o o' : QObject) :
  h !! p = Some o -> window o = Some true -> window o' <> Some true ->
  size (visible_popups h) = S (size (visible_popups (<[p := o']> h))).
Proof.
  intros Hp Hw Hw'.
  rewrite (visible_popups_delete_visible h p o Hp Hw). f_equal. f_equal.
  unfold visible_popups. rewrite map_filter_insert_False by exact Hw'.
  reflexivity.
Qed.

(** ** The state kept between two stimuli *)

Lemma consistent_fresh_world : consistent fresh_world.
Proof.
  split; cbn.
  - intros p [o Ho]. by rewrite lookup_empty in Ho.
  - intros p o Ho. by rewrite lookup_empty in Ho.
  - reflexivity.
  - unfold N_MAX_NOTIFICATIONS. lia.
  - reflexivity.
  - unfold in_range. cbn. lia.
  - intros p. rewrite lookup_empty. split; [intros Hin; by apply elem_of_nil in Hin|].
    intros [o Ho]. discriminate Ho.
  - constructor.
  - intros msec p Hin. by apply elem_of_nil in Hin.
  - intros model p Hin. by apply elem_of_nil in Hin.
Qed.

Section Consistency.
Context `{Externals}.

Lemma wrap_counter_small (n : Z) :
  0 <= n <= N_MAX_NOTIFICATIONS -> wrap counter_type n = n.
Proof.
  intros Hn. apply wrap_id. revert Hn. unfold in_range, N_MAX_NOTIFICATIONS.
  destruct counter_type; cbn [type_min type_max]; lia.
Qed.

Lemma consistent_after_show (w w' : World) (p : nat) (o' : QObject) (msec : Z) :
  consistent w -> p = allocated w ->
  m_n_instances w < N_MAX_NOTIFICATIONS ->
  heap w' = <[p := o']> (heap w) ->
  window o' = Some true -> visibleChanged_receivers o' = 1%nat ->
  allocated w' = S (allocated w) ->
  (forall c, c ∈ status_connections w' -> c ∈ status_connections w \/ c.2 = p) ->
  timers w' = timers w ++ [(msec, p)] -> msec <= MAX_TIMEOUT ->
  m_n_instances w' = wrap counter_type (m_n_instances w + 1) ->
  in_range c_int (m_offset w') ->
  consistent w'.
Proof.
  intros [Hfresh Hwatch Hcount Hcap Hreset Hint Hlive Honce Hbound Hconn]
    -> Hlt Hheap Hw Hr Ha Hst Ht Hmsec Hn Hin.
  assert (Hnew : heap w !! allocated w = None).
  { destruct (heap w !! allocated w) eqn:E; [|reflexivity].
    specialize (Hfresh (allocated w) ltac:(rewrite E; eauto)). lia. }
  assert (Hn' : m_n_instances w' = m_n_instances w + 1).
  { rewrite Hn. apply wrap_counter_small. lia. }
  split.
  - intros p. rewrite Hheap, Ha, lookup_insert_is_Some.
    intros [<-|[_ Hp]]; [lia | specialize (Hfresh p Hp); lia].
  - intros p o. rewrite Hheap, lookup_insert_Some.
    intros [[_ <-]|[_ Hp]]; [eauto | exact (Hwatch p o Hp)].
  - rewrite Hn', Hheap, (visible_popups_insert_visible _ _ _ Hnew Hw), Hcount. lia.
  - lia.
  - lia.
  - exact Hin.
  - intros p. rewrite Ht, fmap_app, elem_of_app, Hheap, lookup_insert_is_Some, Hlive.
    cbn. rewrite list_elem_of_singleton.
    destruct (decide (allocated w = p)) as [<-|Hne]; [intuition|].
    intuition congruence.
  - rewrite Ht, fmap_app. apply NoDup_app. split; [exact Honce|]. split.
    + intros p Hp%Hlive. cbn. rewrite list_elem_of_singleton. intros ->.
      rewrite Hnew in Hp. by destruct Hp.
    + cbn. apply NoDup_singleton.
  - intros m p. rewrite Ht, elem_of_app, list_elem_of_singleton.
    intros [Hin'|[= -> ->]]; [exact (Hbound m p Hin') | exact Hmsec].
  - intros model p Hin'. rewrite Hheap, lookup_insert_is_Some.
    destruct (Hst _ Hin') as [Hold|Hp]; [|left; symmetry; exact Hp].
    destruct (decide (allocated w = p)); [by left | right].
    split; [assumption | exact (Hconn model p Hold)].
Qed.

Lemma consistent_after_nothing (w w' : World) :
  consistent w ->
  heap w' = heap w -> (allocated w <= allocated w')%nat ->
  timers w' = timers w ->
  m_n_instances w' = m_n_instances w -> m_offset w' = m_offset w ->
  (forall c, c ∈ status_connections w' -> c ∈ status_connections w) ->
  consistent w'.
Proof.
  intros [Hfresh Hwatch Hcount Hcap Hreset Hint Hlive Honce Hbound Hconn]
    Hheap Ha Ht Hn Ho Hst.
  split; rewrite ?Hheap, ?Ht, ?Hn, ?Ho; try assumption.
  - intros p Hp. specialize (Hfresh p Hp). lia.
  - intros model p Hin. exact (Hconn model p (Hst _ Hin)).
Qed.

Lemma dismiss_consistent (p : nat) (w w' : World) :
  consistent w -> dismiss p w = Done tt w' -> consistent w'.
Proof.
  intros Hw Hrun.
  destruct (heap w !! p) as [o|] eqn:Hp.
  2:{ unfold dismiss, QQuickWindow_setVisible, deref in Hrun. unfold_monad.
      rewrite Hp in Hrun. discriminate. }
  destruct (popups_watched w Hw p o Hp) as [Hr [v Hv]].
  destruct v.
  - destruct (hide_run p o w Hp Hv Hr)
      as (w1 & Hrun1 & Hn & Ho & Hheap & Ha & Hst & Ht).
    rewrite Hrun1 in Hrun. injection Hrun as <-.
    destruct Hw as [Hfresh Hwatch Hcount Hcap Hreset Hint Hlive Honce Hbound Hconn].
    pose proof (visible_popups_hide (heap w) p o (with_window o (Some false)) Hp Hv
                  ltac:(discriminate)) as Hsize.
    assert (Hn' : m_n_instances w1 = m_n_instances w - 1).
    { rewrite Hn. apply wrap_counter_small. lia. }
    assert (Hsome : forall q, is_Some (heap w1 !! q) <-> is_Some (heap w !! q)).
    { intros q. rewrite Hheap, lookup_insert_is_Some.
      destruct (decide (p = q)) as [<-|]; [rewrite Hp|]; intuition eauto. }
    split.
    + intros q Hq%Hsome. rewrite Ha. exact (Hfresh q Hq).
    + intros q oq. rewrite Hheap, lookup_insert_Some.
      intros [[_ <-]|[_ Hq]]; [cbn; eauto | exact (Hwatch q oq Hq)].
    + rewrite Hn', Hheap, Hcount, Hsize. lia.
    + lia.
    + intros Hz. rewrite Ho. apply Z.eqb_eq in Hz. rewrite Hz. reflexivity.
    + rewrite Ho. destruct (m_n_instances w1 =? 0); [|exact Hint].
      unfold in_range. cbn. lia.
    + intros q. rewrite Ht, Hsome. apply Hlive.
    + rewrite Ht. exact Honce.
    + rewrite Ht. exact Hbound.
    + intros model q. rewrite Hst, Hsome. apply Hconn.
  - unfold dismiss in Hrun. rewrite (setVisible_same p o false w Hp Hv) in Hrun.
    injection Hrun as <-. exact Hw.
Qed.

Lemma list_delete_middle {A} (l : list A) (k : nat) (x : A) :
  l !! k = Some x ->
  exists l1 l2, l = l1 ++ x :: l2 /\ delete k l = l1 ++ l2.
Proof.
  intros Hk. exists (take k l), (drop (S k) l).
  split; [symmetry; by apply take_drop_middle | apply delete_take_drop].
Qed.

Lemma QTimer_timeout_consistent (k : nat) (w w' : World) :
  consistent w -> QTimer_timeout k w = Done tt w' -> consistent w'.
Proof.
  intros Hw Hrun.
  destruct (timers w !! k) as [[msec p]|] eqn:Hk.
  2:{ unfold QTimer_timeout in Hrun. unfold_monad. rewrite Hk in Hrun.
      injection Hrun as <-. exact Hw. }
  assert (Hin : p ∈ (timers w).*2).
  { apply list_elem_of_fmap. exists (msec, p). split; [reflexivity|].
    eapply list_elem_of_lookup_2, Hk. }
  apply (timers_live w Hw) in Hin as [o Hp].
  destruct (popups_watched w Hw p o Hp) as [Hr [v Hv]].
  destruct (expire_run k p msec o v w Hk Hp Hv Hr)
    as (w1 & Hrun1 & Hn & Ho & Hheap & Ha & Hst & Ht).
  rewrite Hrun1 in Hrun. injection Hrun as <-.
  destruct Hw as [Hfresh Hwatch Hcount Hcap Hreset Hint Hlive Honce Hbound Hconn].
  destruct (list_delete_middle _ _ _ Hk) as (l1 & l2 & Hl & Hdel).
  rewrite Hl, fmap_app, fmap_cons in Honce. cbn in Honce.
  apply NoDup_app in Honce as (Hn1 & Hdisj & [Hp2 Hn2]%NoDup_cons).
  assert (Hp1 : p ∉ l1.*2).
  { intros Hp1. apply (Hdisj p Hp1). by left. }
  assert (Htargets : forall q, q ∈ (timers w1).*2 <-> q ∈ (timers w).*2 /\ q <> p).
  { intros q. rewrite Ht, Hdel, Hl, !fmap_app, fmap_cons, !elem_of_app, elem_of_cons.
    cbn. split.
    - intros [Hq|Hq]; (split; [tauto|]); intros ->; contradiction.
    - intros [[Hq|[->|Hq]] Hne]; [by left | contradiction | by right]. }
  assert (Hsome : forall q, is_Some (heap w1 !! q) <-> is_Some (heap w !! q) /\ q <> p).
  { intros q. rewrite Hheap, lookup_delete_is_Some. intuition. }
  split.
  - intros q [Hq _]%Hsome. rewrite Ha. exact (Hfresh q Hq).
  - intros q oq. rewrite Hheap, lookup_delete_Some. intros [_ Hq].
    exact (Hwatch q oq Hq).
  - rewrite Hheap. destruct v.
    + pose proof (visible_popups_delete_visible (heap w) p o Hp Hv) as Hsize.
      rewrite Hn, wrap_counter_small by lia. lia.
    + rewrite (visible_popups_delete_hidden (heap w) p o Hp) by (rewrite Hv; discriminate).
      rewrite Hn. exact Hcount.
  - destruct v; [|by rewrite Hn].
    pose proof (visible_popups_delete_visible (heap w) p o Hp Hv) as Hsize.
    rewrite Hn, wrap_counter_small by lia. lia.
  - intros Hz. rewrite Ho. destruct v.
    + apply Z.eqb_eq in Hz. rewrite Hz. reflexivity.
    + apply Hreset. by rewrite <- Hn.
  - rewrite Ho. destruct v; [|exact Hint].
    destruct (m_n_instances w1 =? 0); [|exact Hint]. unfold in_range. cbn. lia.
  - intros q. rewrite Htargets, Hsome, Hlive. reflexivity.
  - rewrite Ht, Hdel, fmap_app. apply NoDup_app. split; [exact Hn1|].
    split; [|exact Hn2]. intros q Hq1 Hq2. apply (Hdisj q Hq1). by right.
  - intros m q. rewrite Ht, Hdel. intros Hq. apply (Hbound m q).
    rewrite Hl. apply elem_of_app in Hq as [Hq|Hq]; apply elem_of_app;
      [by left | right; by right].
  - intros model q. rewrite Hst. intros [Hne Hq]%list_elem_of_filter.
    apply Hsome. split; [exact (Hconn model q Hq) | exact Hne].
Qed.

Lemma on_statusChanged_consistent (p : nat) (status : CallStatus) (w w' : World) :
  consistent w -> on_statusChanged p status w = Done tt w' -> consistent w'.
Proof.
  intros Hw Hrun.
  destruct status; try (injection Hrun as <-; exact Hw).
  unfold on_statusChanged, findChild_QQuickWindow, deref in Hrun. unfold_monad.
  destruct (heap w !! p) as [o|] eqn:Hp; [|discriminate].
  destruct (window o); [|discriminate].
  exact (dismiss_consistent p w w' Hw Hrun).
Qed.

Lemma emit_statusChanged_consistent (cs : list (address * nat)) (model : address)
    (status : CallStatus) (w w' : World) :
  consistent w -> emit_statusChanged cs model status w = Done tt w' -> consistent w'.
Proof.
  revert w. induction cs as [|[sender p] cs IH]; intros w Hw Hrun.
  - injection Hrun as <-. exact Hw.
  - cbn [emit_statusChanged] in Hrun.
    apply bind_inv in Hrun as ([] & w1 & Hstep & Hrun).
    apply (IH w1); [|exact Hrun].
    destruct (Nat.eqb sender model).
    + exact (on_statusChanged_consistent p status w w1 Hw Hstep).
    + injection Hstep as <-. exact Hw.
Qed.

Lemma notify_consistent (type : NotificationType) (data : gmap string QVariant)
    (timeout : Z) (w w1 w' : World) (p : nat) (l : list (address * nat)) :
  consistent w ->
  createNotification type w = Done (Some p) w1 ->
  (forall c, c ∈ l -> c ∈ status_connections w \/ c.2 = p) ->
  (setProperty p NOTIFICATION_PROPERTY_DATA (QVariantMap data) ≫=
     fun _ => showNotification p timeout) (set_status_connections l w1)
    = Done tt w' ->
  consistent w'.
Proof.
  intros Hw Hc Hl Hrun.
  destruct (notify_body_run type data timeout w w1 w' p l Hc Hrun)
    as (Hp & Hlt & o' & Hheap & Hwin & Hr & Ha & Hst & Ht & Hn & Hin).
  apply (consistent_after_show w w' p o' (Z.min timeout MAX_TIMEOUT));
    try assumption; [|lia].
  intros c. rewrite Hst. apply Hl.
Qed.

Lemma createNotification_Some_status (type : NotificationType) (w w1 : World) (p : nat) :
  createNotification type w = Done (Some p) w1 ->
  status_connections w1 = status_connections w.
Proof.
  intros Hc.
  destruct (createNotification_Some_inv type w w1 p Hc) as (-> & Hn & Hh & Hs).
  destruct (createNotification_success_run type w Hn Hh Hs)
    as (w1' & Hr & _ & _ & _ & _ & Hst & _).
  rewrite Hr in Hc. injection Hc as ->. exact Hst.
Qed.

Lemma createNotification_None_consistent (type : NotificationType) (w w' : World) :
  consistent w -> createNotification type w = Done None w' -> consistent w'.
Proof.
  intros Hw Hc.
  destruct (createNotification_None_frame type w w' (popups_fresh w Hw) Hc)
    as (Hheap & Ha & Ht & Hn & Ho & Hst).
  by apply (consistent_after_nothing w w').
Qed.

Lemma react_consistent (s : Stimulus) (w w' : World) :
  consistent w -> react s w = Done tt w' -> consistent w'.
Proof.
  intros Hw Hrun.
  destruct s as [message|message|call|p|k|model status]; cbn [react] in Hrun.
  - unfold notifyReceivedMessage in Hrun.
    apply bind_inv in Hrun as ([p|] & w1 & Hc & Hrun).
    + rewrite <- (set_status_connections_id w1) in Hrun.
      apply (notify_consistent _ _ _ _ _ _ _ _ Hw Hc) in Hrun; [exact Hrun|].
      intros c. rewrite (createNotification_Some_status _ _ _ _ Hc). by left.
    + injection Hrun as <-. exact (createNotification_None_consistent _ _ _ Hw Hc).
  - unfold notifyReceivedFileMessage in Hrun.
    apply bind_inv in Hrun as ([p|] & w1 & Hc & Hrun).
    + destruct (getFileTransferInformation_getSize message); [|discriminate].
      rewrite <- (set_status_connections_id w1) in Hrun.
      apply (notify_consistent _ _ _ _ _ _ _ _ Hw Hc) in Hrun; [exact Hrun|].
      intros c. rewrite (createNotification_Some_status _ _ _ _ Hc). by left.
    + injection Hrun as <-. exact (createNotification_None_consistent _ _ _ Hw Hc).
  - unfold notifyReceivedCall in Hrun.
    apply bind_inv in Hrun as ([p|] & w1 & Hc & Hrun).
    + apply bind_inv in Hrun as ([] & w2 & Hcon & Hrun). injection Hcon as <-.
      apply (notify_consistent _ _ _ _ _ _ _ _ Hw Hc) in Hrun; [exact Hrun|].
      intros c. rewrite (createNotification_Some_status _ _ _ _ Hc), elem_of_app,
        list_elem_of_singleton.
      intros [Hold| ->]; [by left | by right].
    + injection Hrun as <-. exact (createNotification_None_consistent _ _ _ Hw Hc).
  - exact (dismiss_consistent p w w' Hw Hrun).
  - exact (QTimer_timeout_consistent k w w' Hw Hrun).
  - unfold CallModel_statusChanged in Hrun. unfold_monad.
    exact (emit_statusChanged_consistent _ model status w w' Hw Hrun).
Qed.

Lemma run_consistent (ss : list Stimulus) (w w' : World) :
  consistent w -> run ss w = Done tt w' -> consistent w'.
Proof.
  revert w. induction ss as [|s ss IH]; intros w Hw Hrun.
  - injection Hrun as <-. exact Hw.
  - cbn [run] in Hrun. apply bind_inv in Hrun as ([] & w1 & Hstep & Hrun).
    exact (IH w1 (react_consistent s w w1 Hw Hstep) Hrun).
Qed.

End Consistency.

(** ** What every run keeps *)

(** X1.  From a consistent world, every sequence of the three notify
    operations, of clicks that hide a popup, of expiries of single
    shots and of status changes of call models that returns ends in a
    consistent world: the counter is the number of visible popups,
    which is never above the cap of fifteen.  A hidden window that is
    made visible again is not among these stimuli; what it does to the
    counter is the matter of X13. *)
Theorem notifier_invariant `{Externals} (ss : list Stimulus) (w w' : World) :
  consistent w -> run ss w = Done tt w' ->
  consistent w' /\
  m_n_instances w' = Z.of_nat (size (visible_popups (heap w'))) /\
  (size (visible_popups (heap w')) <= 15)%nat.
Proof.
  intros Hw Hrun. pose proof (run_consistent ss w w' Hw Hrun) as Hw'.
  split; [exact Hw'|]. split; [exact (counter_counts w' Hw')|].
  pose proof (counter_counts w' Hw'). pose proof (counter_capped w' Hw').
  unfold N_MAX_NOTIFICATIONS in *. lia.
Qed.

Lemma notifier_invariant_witness :
  consistent fresh_world /\
  @run plain_externals sample_run fresh_world = Done tt busy_world /\
  m_n_instances busy_world = 1 /\
  timers busy_world = [(10000, 1%nat); (10000, 2%nat)] /\
  consistent busy_world /\
  m_n_instances busy_world = Z.of_nat (size (visible_popups (heap busy_world))) /\
  (size (visible_popups (heap busy_world)) <= 15)%nat.
Proof.
  assert (Ha : @run plain_externals sample_run fresh_world = Done tt busy_world)
    by (vm_compute; reflexivity).
  split; [exact consistent_fresh_world|]. split; [exact Ha|].
  split; [vm_compute; reflexivity|]. split; [vm_compute; reflexivity|].
  exact (@notifier_invariant plain_externals sample_run fresh_world busy_world
           consistent_fresh_world Ha).
Defined.

(** X2.  After a sequence of the same stimuli (notify operations,
    hiding clicks, expiries of single shots, status changes of call
    models; no window is made visible again), started in a consistent
    world and leaving no popup visible, the counter and the offset are
    back at zero: the next popup that is created carries position 0. *)
Theorem next_popup_at_top `{Externals}
    (ss : list Stimulus) (type : NotificationType) (w0 w w' : World) (p : nat) :
  consistent w0 -> run ss w0 = Done tt w ->
  visible_popups (heap w) = ∅ ->
  createNotification type w = Done (Some p) w' ->
  m_n_instances w = 0 /\ m_offset w = 0 /\
  exists o, heap w' !! p = Some o /\
    QObject_property o NOTIFICATION_PROPERTY_OFFSET = QInt 0.
Proof.
  intros Hw0 Hrun Hnone Hc.
  pose proof (run_consistent ss w0 w Hw0 Hrun) as Hw.
  assert (Hn : m_n_instances w = 0)
    by (rewrite (counter_counts w Hw), Hnone, map_size_empty; reflexivity).
  pose proof (offset_reset w Hw Hn) as Ho.
  split; [exact Hn|]. split; [exact Ho|].
  destruct (createNotification_offset_int type w w' p Hc) as (_ & _ & _ & Hp).
  eexists. split; [exact Hp|].
  unfold QObject_property. cbn. rewrite lookup_insert_eq, Ho. reflexivity.
Qed.

Lemma next_popup_at_top_witness :
  @run plain_externals quiet_run fresh_world = Done tt quiet_world /\
  visible_popups (heap quiet_world) = ∅ /\
  exists w',
    @createNotification plain_externals CallReceived quiet_world
      = Done (Some 2%nat) w' /\
    m_n_instances quiet_world = 0 /\ m_offset quiet_world = 0 /\
    exists o, heap w' !! 2%nat = Some o /\
      QObject_property o NOTIFICATION_PROPERTY_OFFSET = QInt 0.
Proof.
  assert (Ha : @run plain_externals quiet_run fresh_world = Done tt quiet_world)
    by (vm_compute; reflexivity).
  assert (Hb : visible_popups (heap quiet_world) = ∅) by (vm_compute; reflexivity).
  split; [exact Ha|]. split; [exact Hb|].
  eexists.
  match goal with
  | |- ?C /\ _ => assert (Hc : C) by (vm_compute; reflexivity)
  end.
  split; [exact Hc|].
  exact (@next_popup_at_top plain_externals quiet_run CallReceived fresh_world
           quiet_world _ 2%nat consistent_fresh_world Ha Hb Hc).
Defined.

(** ** Signals on a consistent world *)

Section Safety.
Context `{Externals}.

Lemma QTimer_timeout_pending (k p : nat) (msec : Z) (w : World) :
  consistent w -> timers w !! k = Some (msec, p) ->
  exists w',
    QTimer_timeout k w = Done tt w' /\ consistent w' /\
    heap w' = delete p (heap w) /\ timers w' = delete k (timers w) /\
    is_Some (heap w !! p).
Proof.
  intros Hw Hk.
  assert (Hin : p ∈ (timers w).*2).
  { apply list_elem_of_fmap. exists (msec, p). split; [reflexivity|].
    eapply list_elem_of_lookup_2, Hk. }
  apply (timers_live w Hw) in Hin as [o Hp].
  destruct (popups_watched w Hw p o Hp) as [Hr [v Hv]].
  destruct (expire_run k p msec o v w Hk Hp Hv Hr)
    as (w' & Hrun & _ & _ & Hheap & _ & _ & Ht).
  exists w'. split; [exact Hrun|].
  split; [exact (QTimer_timeout_consistent k w w' Hw Hrun)|]. eauto.
Qed.

Lemma dismiss_live (p : nat) (w : World) :
  consistent w -> is_Some (heap w !! p) ->
  exists w',
    dismiss p w = Done tt w' /\ consistent w' /\
    forall q, is_Some (heap w' !! q) <-> is_Some (heap w !! q).
Proof.
  intros Hw [o Hp].
  destruct (popups_watched w Hw p o Hp) as [_ [v Hv]].
  destruct (setVisible_returns p o v false w Hp Hv) as (w' & Hrun & Hheap & _).
  exists w'. split; [exact Hrun|].
  split; [exact (dismiss_consistent p w w' Hw Hrun)|].
  intros q. rewrite Hheap, lookup_insert_is_Some.
  destruct (decide (p = q)) as [<-|]; [rewrite Hp|]; intuition eauto.
Qed.

Lemma on_statusChanged_live (p : nat) (status : CallStatus) (w : World) :
  consistent w -> is_Some (heap w !! p) ->
  exists w',
    on_statusChanged p status w = Done tt w' /\ consistent w' /\
    forall q, is_Some (heap w' !! q) <-> is_Some (heap w !! q).
Proof.
  intros Hw Hlive.
  destruct status; try (exists w; split; [reflexivity | split; [exact Hw | reflexivity]]).
  destruct (dismiss_live p w Hw Hlive) as (w' & Hrun & Hw' & Hdom).
  exists w'. split; [|split; assumption].
  destruct Hlive as [o Hp]. destruct (popups_watched w Hw p o Hp) as [_ [v Hv]].
  unfold on_statusChanged, findChild_QQuickWindow, deref. unfold_monad.
  rewrite Hp, Hv. exact Hrun.
Qed.

Lemma emit_statusChanged_live (cs : list (address * nat)) (model : address)
    (status : CallStatus) (w : World) :
  consistent w -> (forall c, c ∈ cs -> is_Some (heap w !! c.2)) ->
  exists w', emit_statusChanged cs model status w = Done tt w' /\ consistent w'.
Proof.
  revert w. induction cs as [|[sender p] cs IH]; intros w Hw Hcs.
  - exists w. split; [reflexivity | exact Hw].
  - cbn [emit_statusChanged].
    assert (Hstep : exists w1,
      (if Nat.eqb sender model then on_statusChanged p status else mret tt) w
        = Done tt w1 /\ consistent w1 /\
      forall q, is_Some (heap w1 !! q) <-> is_Some (heap w !! q)).
    { destruct (Nat.eqb sender model).
      - apply on_statusChanged_live; [exact Hw|]. apply (Hcs (sender, p)). by left.
      - exists w. split; [reflexivity | split; [exact Hw | reflexivity]]. }
    destruct Hstep as (w1 & Hrun1 & Hw1 & Hdom).
    destruct (IH w1 Hw1) as (w' & Hrun & Hw').
    { intros c Hc. apply Hdom, Hcs. by right. }
    exists w'. rewrite (bind_done _ _ _ _ _ Hrun1). split; assumption.
Qed.

End Safety.

(** X3.  On a consistent world no signal of the toolkit makes the
    notifier crash: a click on a live popup, the expiry of a single
    shot (pending or not) and a status change of a call model all
    return, and leave a consistent world.  No single shot deletes a
    popup twice and no call model reaches a deleted popup. *)
Theorem signals_never_abort `{Externals} (s : Stimulus) (w : World) :
  consistent w -> deliverable s w ->
  exists w', react s w = Done tt w' /\ consistent w'.
Proof.
  intros Hw Hs. destruct s as [m|m|c|p|k|model status]; try contradiction;
    cbn [react].
  - destruct (dismiss_live p w Hw Hs) as (w' & Hrun & Hw' & _). eauto.
  - destruct (timers w !! k) as [[msec p]|] eqn:Hk.
    + destruct (QTimer_timeout_pending k p msec w Hw Hk) as (w' & Hrun & Hw' & _).
      eauto.
    + exists w. split; [|exact Hw].
      unfold QTimer_timeout. unfold_monad. rewrite Hk. reflexivity.
  - unfold CallModel_statusChanged. unfold_monad.
    apply emit_statusChanged_live; [exact Hw|].
    intros [m q] Hc. exact (connections_live w Hw m q Hc).
Qed.

Lemma signals_never_abort_witness :
  @run plain_externals sample_run fresh_world = Done tt busy_world /\
  consistent busy_world /\
  exists w',
    @react plain_externals (StatusChanged 2007%nat CallStatusEnded) busy_world
      = Done tt w' /\
    consistent w'.
Proof.
  assert (Ha : @run plain_externals sample_run fresh_world = Done tt busy_world)
    by (vm_compute; reflexivity).
  pose proof (@run_consistent plain_externals _ _ _ consistent_fresh_world Ha) as Hw.
  split; [exact Ha|]. split; [exact Hw|].
  exact (@signals_never_abort plain_externals
           (StatusChanged 2007%nat CallStatusEnded) busy_world Hw I).
Defined.

(** X4.  From a consistent world, when all pending single shots have
    expired no popup is left: the heap and the timer list are empty,
    the counter and the offset are zero. *)
Theorem expire_all_clears `{Externals} (w : World) :
  consistent w ->
  exists w',
    expire_all (length (timers w)) w = Done tt w' /\
    heap w' = ∅ /\ timers w' = [] /\
    m_n_instances w' = 0 /\ m_offset w' = 0.
Proof.
  remember (length (timers w)) as n eqn:Hn. revert w Hn.
  induction n as [|n IH]; intros w Hn Hw.
  - exists w. split; [reflexivity|].
    assert (Ht : timers w = []) by (by apply nil_length_inv).
    assert (Hheap : heap w = ∅).
    { apply map_empty. intros p. apply eq_None_not_Some.
      intros Hp%(timers_live w Hw). rewrite Ht in Hp. by apply elem_of_nil in Hp. }
    assert (Hc : m_n_instances w = 0).
    { rewrite (counter_counts w Hw), Hheap. reflexivity. }
    split; [exact Hheap|]. split; [exact Ht|]. split; [exact Hc|].
    exact (offset_reset w Hw Hc).
  - destruct (timers w) as [|[msec p] ts] eqn:Ht; [discriminate Hn|].
    assert (Hk : timers w !! 0%nat = Some (msec, p)) by (rewrite Ht; reflexivity).
    destruct (QTimer_timeout_pending 0 p msec w Hw Hk)
      as (w1 & Hrun1 & Hw1 & _ & Ht1 & _).
    rewrite Ht in Ht1. cbn in Ht1.
    destruct (IH w1) as (w' & Hrun & Hres); [rewrite Ht1; cbn in Hn; lia | exact Hw1|].
    exists w'. cbn [expire_all]. rewrite (bind_done _ _ _ _ _ Hrun1).
    split; assumption.
Qed.

Lemma expire_all_clears_witness :
  @run plain_externals sample_run fresh_world = Done tt busy_world /\
  length (timers busy_world) = 2%nat /\
  exists w',
    @expire_all plain_externals (length (timers busy_world)) busy_world
      = Done tt w' /\
    heap w' = ∅ /\ timers w' = [] /\
    m_n_instances w' = 0 /\ m_offset w' = 0.
Proof.
  assert (Ha : @run plain_externals sample_run fresh_world = Done tt busy_world)
    by (vm_compute; reflexivity).
  split; [exact Ha|]. split; [vm_compute; reflexivity|].
  exact (@expire_all_clears plain_externals busy_world
           (@run_consistent plain_externals _ _ _ consistent_fresh_world Ha)).
Defined.

(** ** Edges of the single operations *)

Section Edges.
Context `{Externals}.

Lemma emit_statusChanged_idle (cs : list (address * nat)) (model : address)
    (status : CallStatus) (w : World) :
  status <> CallStatusEnded \/ (forall c, c ∈ cs -> c.1 <> model) ->
  emit_statusChanged cs model status w = Done tt w.
Proof.
  intros Hidle. induction cs as [|[sender p] cs IH]; [reflexivity|].
  cbn [emit_statusChanged].
  assert (Hstep : (if Nat.eqb sender model then on_statusChanged p status
                   else mret tt) w = Done tt w).
  { destruct (Nat.eqb_spec sender model) as [->|Hne]; [|reflexivity].
    destruct Hidle as [Hs|Hcs].
    - destruct status; try reflexivity. contradiction.
    - exfalso. apply (Hcs (model, p)); [by left | reflexivity]. }
  rewrite (bind_done _ _ _ _ _ Hstep). apply IH.
  destruct Hidle as [Hs|Hcs]; [by left | right].
  intros c Hc. apply Hcs. by right.
Qed.

Lemma delete_QObject_frame (p : nat) (w w' : World) :
  delete_QObject p w = Done tt w' ->
  is_Some (heap w !! p) /\
  heap w' = delete p (heap w) /\ timers w' = timers w /\
  allocated w' = allocated w /\
  status_connections w' = filter (fun c => c.2 ≠ p) (status_connections w).
Proof.
  unfold delete_QObject. intros Hrun.
  apply bind_inv in Hrun as (o0 & w0 & Hderef & Hrun).
  unfold deref in Hderef. destruct (heap w !! p) as [o|] eqn:Hp; [|discriminate].
  injection Hderef as <- <-.
  apply bind_inv in Hrun as ([] & w1 & Hhide & Hrun).
  unfold modify in Hrun. injection Hrun as <-. cbn.
  split; [eauto|].
  destruct (window o) as [[|]|] eqn:Hw.
  - destruct (setVisible_returns p o true false w Hp Hw)
      as (w2 & Hrun2 & Hheap & Ha & Hs & Ht).
    rewrite Hrun2 in Hhide. injection Hhide as <-.
    rewrite Hheap, delete_insert_eq, Ht, Ha, Hs. repeat split.
  - injection Hhide as <-. repeat split.
  - injection Hhide as <-. repeat split.
Qed.

End Edges.

(** X5.  A status change of a call model that is not the end of the
    call, or that comes from a model no popup is connected to, changes
    nothing at all. *)
Theorem statusChanged_idle `{Externals}
    (model : address) (status : CallStatus) (w : World) :
  status <> CallStatusEnded \/
  (forall c, c ∈ status_connections w -> c.1 <> model) ->
  CallModel_statusChanged model status w = Done tt w.
Proof.
  intros Hidle. unfold CallModel_statusChanged. unfold_monad.
  by apply emit_statusChanged_idle.
Qed.

Lemma statusChanged_idle_witness :
  status_connections busy_world = [(2007%nat, 2%nat)] /\
  @CallModel_statusChanged plain_externals 2007%nat CallStatusConnected busy_world
    = Done tt busy_world /\
  @CallModel_statusChanged plain_externals 2008%nat CallStatusEnded busy_world
    = Done tt busy_world.
Proof.
  assert (Hs : status_connections busy_world = [(2007%nat, 2%nat)])
    by (vm_compute; reflexivity).
  split; [exact Hs|]. split.
  - apply (@statusChanged_idle plain_externals). left. discriminate.
  - apply (@statusChanged_idle plain_externals). right.
    intros c Hc. rewrite Hs in Hc. apply list_elem_of_singleton in Hc as ->.
    cbn. lia.
Defined.

(** X6.  The expiry of a single shot removes its own popup and its own
    entry and nothing else: the other popups and the other entries are
    as before.  An expiry at an index where nothing is pending changes
    nothing. *)
Theorem QTimer_timeout_frame `{Externals} (k : nat) (w w' : World) :
  QTimer_timeout k w = Done tt w' ->
  (timers w !! k = None -> w' = w) /\
  (forall msec p, timers w !! k = Some (msec, p) ->
     is_Some (heap w !! p) /\ heap w' !! p = None /\
     (forall q, q <> p -> heap w' !! q = heap w !! q) /\
     timers w' = delete k (timers w) /\ allocated w' = allocated w).
Proof.
  unfold QTimer_timeout. intros Hrun.
  apply bind_inv in Hrun as (ts & w0 & Hts & Hrun).
  unfold gets in Hts. injection Hts as <- <-.
  destruct (timers w !! k) as [[msec p]|].
  - split; [discriminate|]. intros msec' p' [= <- <-].
    apply bind_inv in Hrun as ([] & w1 & Hmod & Hrun).
    unfold modify in Hmod. injection Hmod as <-.
    destruct (delete_QObject_frame p _ w' Hrun) as (Hlive & Hheap & Ht & Ha & _).
    cbn in Hlive, Hheap, Ht, Ha.
    split; [exact Hlive|]. split; [rewrite Hheap; apply lookup_delete_eq|].
    split; [|split; assumption].
    intros q Hq. rewrite Hheap. apply lookup_delete_ne. congruence.
  - split; [|discriminate]. intros _. injection Hrun as <-. reflexivity.
Qed.

Lemma QTimer_timeout_frame_witness :
  exists w',
    @QTimer_timeout plain_externals 0%nat shown_world = Done tt w' /\
    timers shown_world !! 0%nat = Some (10000, 0%nat) /\
    heap w' !! 0%nat = None /\ timers w' = delete 0%nat (timers shown_world).
Proof.
  eexists.
  match goal with
  | |- ?A /\ ?B /\ _ =>
      assert (Ha : A) by (vm_compute; reflexivity);
      assert (Hb : B) by (vm_compute; reflexivity)
  end.
  split; [exact Ha|]. split; [exact Hb|].
  destruct (proj2 (@QTimer_timeout_frame plain_externals 0%nat shown_world _ Ha)
              10000 0%nat Hb) as (_ & Hgone & _ & Ht & _).
  split; [exact Hgone | exact Ht].
Defined.

(** X7.  [showNotification] returns exactly for a live popup that has a
    [QQuickWindow] child; for a live popup without one it ends in
    [qFatal].  When it returns, the popup is visible, has one more
    listening lambda, and the other popups are as before. *)
Theorem showNotification_needs_window `{Externals}
    (p : nat) (timeout : Z) (w : World) :
  ((exists w', showNotification p timeout w = Done tt w') <->
   (exists o, heap w !! p = Some o /\ is_Some (window o))) /\
  (forall o, heap w !! p = Some o -> window o = None ->
     showNotification p timeout w =
     Abort (QFatal "Cannot found a `QQuickWindow` instance in `notification`.")) /\
  (forall w' o, showNotification p timeout w = Done tt w' ->
     heap w !! p = Some o ->
     heap w' =
       <[p := with_receivers (with_window o (Some true))
                (S (visibleChanged_receivers o))]> (heap w)).
Proof.
  assert (Hshow : forall o v, heap w !! p = Some o -> window o = Some v ->
    exists w', showNotification p timeout w = Done tt w' /\
      heap w' =
        <[p := with_receivers (with_window o (Some true))
                 (S (visibleChanged_receivers o))]> (heap w)).
  { intros o v Hp Hw.
    destruct (setVisible_returns p o v true w Hp Hw) as (w1 & Hrun1 & Hheap & _).
    unfold showNotification, invokeMethod_show, findChild_QQuickWindow,
      connect_visibleChanged, QTimer_singleShot, deref, store.
    unfold_monad. rewrite Hp, Hw, Hrun1, Hheap, lookup_insert_eq. cbn.
    rewrite Hheap, lookup_insert_eq. cbn.
    eexists. split; [reflexivity|]. cbn. rewrite Hheap, insert_insert_eq.
    reflexivity. }
  assert (Hfatal : forall o, heap w !! p = Some o -> window o = None ->
    showNotification p timeout w =
    Abort (QFatal "Cannot found a `QQuickWindow` instance in `notification`.")).
  { intros o Hp Hw.
    unfold showNotification, invokeMethod_show, findChild_QQuickWindow, deref.
    unfold_monad. rewrite Hp, Hw. cbn. rewrite Hp, Hw. reflexivity. }
  split; [split|split].
  - intros [w' Hrun]. destruct (heap w !! p) as [o|] eqn:Hp.
    + destruct (window o) as [v|] eqn:Hw; [eauto|].
      rewrite (Hfatal o eq_refl Hw) in Hrun. discriminate.
    + revert Hrun.
      unfold showNotification, invokeMethod_show, findChild_QQuickWindow, deref.
      unfold_monad. rewrite Hp. discriminate.
  - intros (o & Hp & [v Hw]). destruct (Hshow o v Hp Hw) as (w' & Hrun & _). eauto.
  - exact Hfatal.
  - intros w' o Hrun Hp. destruct (window o) as [v|] eqn:Hw.
    + destruct (Hshow o v Hp Hw) as (w1 & Hrun1 & Hheap). congruence.
    + rewrite (Hfatal o Hp Hw) in Hrun. discriminate.
Qed.

(** X8.  On a live object [getNotificationSize] answers -1 or a
    non-negative size, never another negative number: -1 exactly when
    the property does not convert or converts to a negative value,
    with one warning; otherwise the converted value, silently.  The
    world is otherwise untouched. *)
Theorem getNotificationSize_sentinel `{Externals}
    (p : nat) (o : QObject) (property : string) (w : World) :
  heap w !! p = Some o ->
  let '(size, ok) := QVariant_toInt (QObject_property o property) in
  (ok = true /\ 0 <= size /\ getNotificationSize p property w = Done size w) \/
  ((ok = false \/ size < 0) /\
   getNotificationSize p property w =
   Done (-1) (emit (EvWarning "Unable to get notification size.") w)).
Proof.
  intros Hp. unfold getNotificationSize, qWarning, deref. unfold_monad.
  rewrite Hp. destruct (QVariant_toInt _) as [size ok].
  destruct ok; cbn.
  - destruct (Z.ltb_spec size 0); [right | left]; auto.
  - right. auto.
Qed.

Lemma getNotificationSize_sentinel_witness :
  (exists o, heap created_world !! 0%nat = Some o) /\
  @getNotificationSize plain_externals 0%nat NOTIFICATION_PROPERTY_HEIGHT created_world
    = Done 120 created_world /\
  @getNotificationSize plain_externals 0%nat NOTIFICATION_PROPERTY_DATA created_world
    = Done (-1) (emit (EvWarning "Unable to get notification size.") created_world).
Proof.
  split; [eexists; vm_compute; reflexivity|].
  pose proof (@getNotificationSize_sentinel plain_externals 0%nat
    (with_properties (@next_popup plain_externals MessageReceived fresh_world)
       (<[NOTIFICATION_PROPERTY_OFFSET := QInt 0]>
          (properties (@next_popup plain_externals MessageReceived fresh_world)))))
    as Hs.
  split.
  - destruct (Hs NOTIFICATION_PROPERTY_HEIGHT created_world eq_refl)
      as [(_ & _ & Hrun)|([Hf|Hf] & _)]; [exact Hrun | discriminate Hf |].
    vm_compute in Hf. discriminate Hf.
  - destruct (Hs NOTIFICATION_PROPERTY_DATA created_world eq_refl)
      as [(Hok & _)|(_ & Hrun)]; [discriminate Hok | exact Hrun].
Defined.

(** X9.  The constructor completes exactly when none of the three
    components has errors; when it aborts, the component it reports is
    one of the three and has errors. *)
Theorem Notifier_constructor_checks (isError : string -> bool) :
  (Notifier_constructor isError = Constructed <->
   forall type, isError (m_components type) = false) /\
  (forall i url,
     Notifier_constructor isError = Aborted i url ->
     isError url = true /\ exists type, url = m_components type).
Proof.
  unfold Notifier_constructor. cbn.
  destruct (isError QML_NOTIFICATION_PATH_RECEIVED_MESSAGE) eqn:E0;
    [|destruct (isError QML_NOTIFICATION_PATH_RECEIVED_FILE_MESSAGE) eqn:E1;
      [|destruct (isError QML_NOTIFICATION_PATH_RECEIVED_CALL) eqn:E2]].
  - split; [split; [discriminate | intros Hall; specialize (Hall MessageReceived);
                                    cbn in Hall; congruence]|].
    intros i url [= <- <-]. split; [exact E0 | by exists MessageReceived].
  - split; [split; [discriminate | intros Hall; specialize (Hall FileMessageReceived);
                                    cbn in Hall; congruence]|].
    intros i url [= <- <-]. split; [exact E1 | by exists FileMessageReceived].
  - split; [split; [discriminate | intros Hall; specialize (Hall CallReceived);
                                    cbn in Hall; congruence]|].
    intros i url [= <- <-]. split; [exact E2 | by exists CallReceived].
  - split; [split; [intros _ []; assumption | reflexivity]|]. discriminate.
Qed.

Lemma showNotification_needs_window_witness :
  exists w1 w2 w',
    @createNotification windowless_externals MessageReceived fresh_world
      = Done (Some 0%nat) w1 /\
    @showNotification windowless_externals 0%nat 10000 w1 =
      Abort (QFatal "Cannot found a `QQuickWindow` instance in `notification`.") /\
    @createNotification dataless_externals MessageReceived fresh_world
      = Done (Some 0%nat) w2 /\
    @showNotification dataless_externals 0%nat 10000 w2 = Done tt w'.
Proof.
  eexists. eexists.
  assert (Hex : exists w',
    @showNotification dataless_externals 0%nat 10000
      match @createNotification dataless_externals MessageReceived fresh_world with
      | Done _ w => w
      | Abort _ => fresh_world
      end = Done tt w').
  { apply (proj1 (@showNotification_needs_window dataless_externals 0%nat 10000 _)).
    eexists. split; [vm_compute; reflexivity | cbn; eauto]. }
  destruct Hex as [w' Hrun]. exists w'.
  split; [vm_compute; reflexivity|]. split.
  - eapply (proj1 (proj2 (@showNotification_needs_window windowless_externals
                            0%nat 10000 _))); vm_compute; reflexivity.
  - split; [vm_compute; reflexivity | exact Hrun].
Defined.

(** ** Notifications that are dropped, data that is refused *)

Section Dropped.
Context `{Externals}.

Lemma setProperty_refused_run (p : nat) (o : QObject) (name : string)
    (v : QVariant) (w : World) :
  heap w !! p = Some o -> property_accepts o name v = false ->
  exists w' o',
    setProperty p name v w = Done false w' /\
    heap w' = <[p := o']> (heap w) /\
    window o' = window o /\
    visibleChanged_receivers o' = visibleChanged_receivers o /\
    m_offset w' = m_offset w /\ m_n_instances w' = m_n_instances w /\
    timers w' = timers w /\
    trace w' = trace w ++
      [EvSetProperty p name v;
       EvWarning ("Unable to set property: `" +:+ name +:+ "`.")].
Proof.
  intros Hp Hacc. unfold property_accepts in Hacc.
  unfold setProperty, QObject_setProperty, qWarning, deref, store.
  unfold_monad. cbn. rewrite Hp.
  destruct (meta o name) as [accepts|]; [rewrite Hacc|]; cbn.
  - eexists. exists o. split; [reflexivity|]. cbn.
    rewrite insert_id by exact Hp. rewrite <- app_assoc. repeat split.
  - eexists. eexists. split; [reflexivity|]. cbn. rewrite <- app_assoc.
    repeat split.
Qed.

End Dropped.

(** X10.  The answer of [setProperty] for the data is not looked at: a
    message popup that refuses its data property is shown all the same,
    with its single shot and the counter raised; one warning tells. *)
Theorem refused_data_is_shown `{Externals} (message : ChatMessage) (w : World) :
  m_n_instances w < N_MAX_NOTIFICATIONS ->
  height_readable (next_popup MessageReceived w) = true ->
  property_accepts (next_popup MessageReceived w) NOTIFICATION_PROPERTY_OFFSET
    (QInt (m_offset w)) = true ->
  property_accepts (next_popup MessageReceived w) NOTIFICATION_PROPERTY_DATA
    (QVariantMap (message_data message)) = false ->
  is_Some (window (next_popup MessageReceived w)) ->
  exists w' o',
    notifyReceivedMessage message w = Done tt w' /\
    heap w' !! allocated w = Some o' /\ window o' = Some true /\
    timers w' = timers w ++ [(NOTIFICATION_TIMEOUT_RECEIVED_MESSAGE, allocated w)] /\
    m_n_instances w' = wrap counter_type (m_n_instances w + 1) /\
    exists evs, trace w' = trace w ++ evs ++
      [EvSetProperty (allocated w) NOTIFICATION_PROPERTY_DATA
         (QVariantMap (message_data message));
       EvWarning "Unable to set property: `notificationData`."].
Proof.
  intros Hn Hh Hoff Hdata [v Hwin].
  destruct (createNotification_success_run MessageReceived w Hn Hh Hoff)
    as (w1 & Hc & _ & Hcount & Hheap & _ & _ & Ht & Htr).
  set (o1 := with_properties _ _) in Hheap.
  assert (Hp : heap w1 !! allocated w = Some o1)
    by (rewrite Hheap; apply lookup_insert_eq).
  destruct (setProperty_refused_run (allocated w) o1 NOTIFICATION_PROPERTY_DATA
              (QVariantMap (message_data message)) w1 Hp Hdata)
    as (w2 & o2 & Hset & Hh2 & Hw2 & Hr2 & _ & Hn2 & Ht2 & Htr2).
  assert (Hp2 : heap w2 !! allocated w = Some o2) by (rewrite Hh2; apply lookup_insert_eq).
  assert (Hwin2 : window o2 = Some v) by (rewrite Hw2; exact Hwin).
  pose proof (showNotification_fresh_run (allocated w) o2 v
                NOTIFICATION_TIMEOUT_RECEIVED_MESSAGE w2 Hp2 Hwin2
                ltac:(rewrite Hr2; reflexivity)) as Hshow.
  eexists. eexists. split.
  { unfold notifyReceivedMessage.
    rewrite (bind_done _ _ _ _ _ Hc), (bind_done _ _ _ _ _ Hset). exact Hshow. }
  cbn. rewrite lookup_insert_eq. split; [reflexivity|]. split; [reflexivity|].
  split; [rewrite Ht2, Ht; reflexivity|]. split; [congruence|].
  eexists. rewrite Htr2, Htr, <- app_assoc. reflexivity.
Qed.

Lemma refused_data_is_shown_witness :
  exists w' o',
    @notifyReceivedMessage dataless_externals sample_message fresh_world = Done tt w' /\
    heap w' !! 0%nat = Some o' /\ window o' = Some true /\
    timers w' = [(10000, 0%nat)] /\ m_n_instances w' = 1.
Proof.
  destruct (@refused_data_is_shown dataless_externals sample_message fresh_world)
    as (w' & o' & Hrun & Hp & Hw & Ht & Hn & _);
    [cbn; unfold N_MAX_NOTIFICATIONS; lia | reflexivity | reflexivity
    | reflexivity | cbn; eauto |].
  exists w', o'. split; [exact Hrun|]. split; [exact Hp|]. split; [exact Hw|].
  split; [exact Ht | exact Hn].
Defined.

(** X11.  With fifteen popups visible, a notification that arrives is
    dropped: each notify operation returns with the heap, the timers,
    the counter and the offset as they were, and nothing is kept to
    show it later. *)
Theorem notification_dropped_at_capacity `{Externals} (w : World) :
  consistent w -> size (visible_popups (heap w)) = 15%nat ->
  forall s, ~ is_signal s ->
  exists w',
    react s w = Done tt w' /\
    heap w' = heap w /\ timers w' = timers w /\
    status_connections w' = status_connections w /\
    m_n_instances w' = m_n_instances w /\ m_offset w' = m_offset w /\
    trace w' = trace w ++
      [EvLock; EvRead f_n_instances;
       EvWarning "Unable to create another notification"; EvUnlock].
Proof.
  intros Hw Hsize s Hs.
  assert (Hcap : N_MAX_NOTIFICATIONS <= m_n_instances w)
    by (rewrite (counter_counts w Hw), Hsize; unfold N_MAX_NOTIFICATIONS; lia).
  assert (Hdrop : forall type, exists w',
    createNotification type w = Done None w' /\
    heap w' = heap w /\ timers w' = timers w /\
    status_connections w' = status_connections w /\
    m_n_instances w' = m_n_instances w /\ m_offset w' = m_offset w /\
    trace w' = trace w ++
      [EvLock; EvRead f_n_instances;
       EvWarning "Unable to create another notification"; EvUnlock]).
  { intros type.
    destruct (createNotification_capacity_run type w Hcap)
      as (w' & Hrun & Ho & Hn & Hh & _ & Hst & Ht & Htr).
    exists w'. repeat split; assumption. }
  destruct s as [m|m|c|p|k|model status]; try (exfalso; apply Hs; exact I);
    cbn [react].
  - destruct (Hdrop MessageReceived) as (w' & Hrun & Hres). exists w'.
    split; [|exact Hres]. unfold notifyReceivedMessage.
    rewrite (bind_done _ _ _ _ _ Hrun). reflexivity.
  - destruct (Hdrop FileMessageReceived) as (w' & Hrun & Hres). exists w'.
    split; [|exact Hres]. unfold notifyReceivedFileMessage.
    rewrite (bind_done _ _ _ _ _ Hrun). reflexivity.
  - destruct (Hdrop CallReceived) as (w' & Hrun & Hres). exists w'.
    split; [|exact Hres]. unfold notifyReceivedCall.
    rewrite (bind_done _ _ _ _ _ Hrun). reflexivity.
Qed.

Lemma notification_dropped_at_capacity_witness :
  @run plain_externals full_run fresh_world = Done tt full_world /\
  size (visible_popups (heap full_world)) = 15%nat /\
  exists w',
    @react plain_externals (ReceivedCall {| call_id := 7 |}) full_world
      = Done tt w' /\
    heap w' = heap full_world /\ timers w' = timers full_world /\
    status_connections w' = status_connections full_world /\
    m_n_instances w' = m_n_instances full_world /\
    m_offset w' = m_offset full_world /\
    trace w' = trace full_world ++
      [EvLock; EvRead f_n_instances;
       EvWarning "Unable to create another notification"; EvUnlock].
Proof.
  assert (Ha : @run plain_externals full_run fresh_world = Done tt full_world)
    by (vm_compute; reflexivity).
  assert (Hb : size (visible_popups (heap full_world)) = 15%nat)
    by (vm_compute; reflexivity).
  split; [exact Ha|]. split; [exact Hb|].
  exact (@notification_dropped_at_capacity plain_externals full_world
           (@run_consistent plain_externals _ _ _ consistent_fresh_world Ha) Hb
           (ReceivedCall {| call_id := 7 |}) (fun f => f)).
Defined.

(** ** The layout of the visible popups *)

Section Layout.
Context `{Externals}.

Lemma no_visible_when_zero (w : World) :
  consistent w -> m_n_instances w = 0 ->
  forall p o, heap w !! p = Some o -> window o <> Some true.
Proof.
  intros Hw Hz p o Hp Hv.
  pose proof (counter_counts w Hw) as Hc. rewrite Hz in Hc.
  assert (Hempty : visible_popups (heap w) = ∅)
    by (apply map_size_empty_inv; lia).
  assert (Hin : visible_popups (heap w) !! p = Some o)
    by (apply map_lookup_filter_Some_2; assumption).
  rewrite Hempty, lookup_empty in Hin. discriminate.
Qed.

Lemma shrinks_refl (w : World) : shrinks w w.
Proof. split; [auto | by left]. Qed.

Lemma shrinks_trans (w1 w2 w3 : World) :
  shrinks w1 w2 -> shrinks w2 w3 -> shrinks w1 w3.
Proof.
  intros [Hv1 Ho1] [Hv2 Ho2]. split.
  - intros p o Hp Hw. apply Hv1; [|exact Hw]. by apply Hv2.
  - destruct Ho2 as [Ho2|[Ho2 Hn2]]; [|right; auto].
    destruct Ho1 as [Ho1|[Ho1 Hn1]]; [left; congruence | right].
    split; [congruence|]. intros p o Hp Hw.
    apply (Hn1 p o); [by apply Hv2 | exact Hw].
Qed.

Lemma dismiss_shrinks (p : nat) (w w' : World) :
  consistent w -> dismiss p w = Done tt w' -> shrinks w w'.
Proof.
  intros Hw Hrun.
  pose proof (dismiss_consistent p w w' Hw Hrun) as Hw'.
  destruct (heap w !! p) as [o|] eqn:Hp.
  2:{ unfold dismiss, QQuickWindow_setVisible, deref in Hrun. unfold_monad.
      rewrite Hp in Hrun. discriminate. }
  destruct (popups_watched w Hw p o Hp) as [Hr [v Hv]].
  destruct v.
  - destruct (hide_run p o w Hp Hv Hr)
      as (w1 & Hrun1 & _ & Ho & Hheap & _).
    rewrite Hrun1 in Hrun. injection Hrun as <-. split.
    + intros q oq. rewrite Hheap, lookup_insert_Some.
      intros [[_ <-]|[_ Hq]] Hvis; [discriminate Hvis | exact Hq].
    + rewrite Ho. destruct (Z.eqb_spec (m_n_instances w1) 0) as [Hz|Hz];
        [right | by left].
      split; [reflexivity | exact (no_visible_when_zero w1 Hw' Hz)].
  - unfold dismiss in Hrun. rewrite (setVisible_same p o false w Hp Hv) in Hrun.
    injection Hrun as <-. apply shrinks_refl.
Qed.

Lemma QTimer_timeout_shrinks (k : nat) (w w' : World) :
  consistent w -> QTimer_timeout k w = Done tt w' -> shrinks w w'.
Proof.
  intros Hw Hrun.
  pose proof (QTimer_timeout_consistent k w w' Hw Hrun) as Hw'.
  destruct (timers w !! k) as [[msec p]|] eqn:Hk.
  2:{ unfold QTimer_timeout in Hrun. unfold_monad. rewrite Hk in Hrun.
      injection Hrun as <-. apply shrinks_refl. }
  assert (Hin : p ∈ (timers w).*2).
  { apply list_elem_of_fmap. exists (msec, p). split; [reflexivity|].
    eapply list_elem_of_lookup_2, Hk. }
  apply (timers_live w Hw) in Hin as [o Hp].
  destruct (popups_watched w Hw p o Hp) as [Hr [v Hv]].
  destruct (expire_run k p msec o v w Hk Hp Hv Hr)
    as (w1 & Hrun1 & _ & Ho & Hheap & _).
  rewrite Hrun1 in Hrun. injection Hrun as <-. split.
  - intros q oq. rewrite Hheap, lookup_delete_Some. intros [_ Hq] _. exact Hq.
  - rewrite Ho. destruct v; [|by left].
    destruct (Z.eqb_spec (m_n_instances w1) 0) as [Hz|Hz]; [right | by left].
    split; [reflexivity | exact (no_visible_when_zero w1 Hw' Hz)].
Qed.

Lemma emit_statusChanged_shrinks (cs : list (address * nat)) (model : address)
    (status : CallStatus) (w w' : World) :
  consistent w -> emit_statusChanged cs model status w = Done tt w' ->
  shrinks w w'.
Proof.
  revert w. induction cs as [|[sender p] cs IH]; intros w Hw Hrun.
  - injection Hrun as <-. apply shrinks_refl.
  - cbn [emit_statusChanged] in Hrun.
    apply bind_inv in Hrun as ([] & w1 & Hstep & Hrun).
    assert (Hone : consistent w1 /\ shrinks w w1).
    { destruct (Nat.eqb sender model).
      - split; [exact (on_statusChanged_consistent p status w w1 Hw Hstep)|].
        destruct status; try (injection Hstep as <-; apply shrinks_refl).
        unfold on_statusChanged, findChild_QQuickWindow, deref in Hstep.
        unfold_monad.
        destruct (heap w !! p) as [o|] eqn:Hp; [|discriminate].
        destruct (window o); [|discriminate].
        exact (dismiss_shrinks p w w1 Hw Hstep).
      - injection Hstep as <-. split; [exact Hw | apply shrinks_refl]. }
    destruct Hone as [Hw1 Hs1].
    exact (shrinks_trans w w1 w' Hs1 (IH w1 Hw1 Hrun)).
Qed.

Lemma stacked_shrinks (w w' : World) :
  stacked w -> shrinks w w' -> stacked w'.
Proof.
  intros [Hoff Hbelow Hapart] [Hvis [Ho|[Ho Hnone]]].
  - split.
    + by rewrite Ho.
    + intros p o Hp Hw. rewrite Ho. exact (Hbelow p o (Hvis p o Hp Hw) Hw).
    + intros p q o o' Hne Hp Hq Hw Hw'.
      exact (Hapart p q o o' Hne (Hvis p o Hp Hw) (Hvis q o' Hq Hw') Hw Hw').
  - split.
    + by rewrite Ho.
    + intros p o Hp Hw. destruct (Hnone p o Hp Hw).
    + intros p q o o' _ Hp _ Hw. destruct (Hnone p o Hp Hw).
Qed.

(** Setting one property leaves the others. *)
Lemma setProperty_other_properties (p : nat) (o : QObject) (name : string)
    (v : QVariant) (ok : bool) (w w' : World) :
  heap w !! p = Some o -> setProperty p name v w = Done ok w' ->
  exists o',
    heap w' = <[p := o']> (heap w) /\
    window o' = window o /\
    visibleChanged_receivers o' = visibleChanged_receivers o /\
    m_offset w' = m_offset w /\
    forall k, k <> name -> QObject_property o' k = QObject_property o k.
Proof.
  intros Hp. unfold setProperty, QObject_setProperty, qWarning, deref, store.
  unfold_monad. cbn. rewrite Hp.
  destruct (meta o name) as [accepts|]; [destruct (accepts v)|]; cbn;
    intros [= <- <-]; cbn.
  - eexists. split; [reflexivity|]. cbn. repeat split.
    intros k Hk. unfold QObject_property. cbn. by rewrite lookup_insert_ne.
  - exists o. rewrite insert_id by exact Hp. repeat split.
  - eexists. split; [reflexivity|]. cbn. repeat split.
    intros k Hk. unfold QObject_property. cbn. by rewrite lookup_insert_ne.
Qed.

(** Where the popup of a notify operation sits. *)
Lemma notify_body_layout (type : NotificationType) (data : gmap string QVariant)
    (timeout : Z) (w w1 w' : World) (p : nat) (l : list (address * nat)) :
  createNotification type w = Done (Some p) w1 ->
  (setProperty p NOTIFICATION_PROPERTY_DATA (QVariantMap data) ≫=
     fun _ => showNotification p timeout) (set_status_connections l w1)
    = Done tt w' ->
  exists o',
    heap w' = <[p := o']> (heap w) /\
    popup_top o' = m_offset w /\
    popup_height o' = popup_height (next_popup type w) /\
    0 <= (popup_height (next_popup type w)).1 /\
    m_offset w' =
      int_add (int_add (popup_height (next_popup type w)).1 (m_offset w))
        NOTIFICATION_SPACING.
Proof.
  intros Hc Hrun.
  destruct (createNotification_offset_int type w w1 p Hc) as (Hh0 & Hoff & _ & _).
  destruct (createNotification_Some_inv type w w1 p Hc) as (-> & Hn & Hh & Hs).
  destruct (createNotification_success_run type w Hn Hh Hs)
    as (w1' & Hr & _ & _ & Hheap & _).
  rewrite Hr in Hc. injection Hc as ->.
  set (o1 := with_properties _ _) in Hheap.
  assert (Hp : heap (set_status_connections l w1) !! allocated w = Some o1)
    by (cbn; rewrite Hheap; apply lookup_insert_eq).
  apply bind_inv in Hrun as (ok & w2 & Hset & Hrun).
  destruct (setProperty_other_properties _ o1 _ _ ok _ w2 Hp Hset)
    as (o2 & Hh2 & Hw2 & Hr2 & Ho2 & Hprops).
  cbn in Hh2, Ho2.
  assert (Hp2 : heap w2 !! allocated w = Some o2) by (rewrite Hh2; apply lookup_insert_eq).
  destruct (window o2) as [v|] eqn:Hwin.
  - rewrite (showNotification_fresh_run _ o2 v timeout w2 Hp2 Hwin) in Hrun
      by (rewrite Hr2; reflexivity).
    injection Hrun as <-. cbn.
    eexists. split.
    { rewrite Hh2, Hheap, !insert_insert_eq. reflexivity. }
    split; [|split; [|split; [exact Hh0 | rewrite Ho2; exact Hoff]]].
    + unfold popup_top. change (QObject_property (with_receivers _ 1) ?k)
        with (QObject_property o2 k).
      rewrite Hprops by discriminate. unfold QObject_property. cbn.
      rewrite lookup_insert_eq. reflexivity.
    + unfold popup_height. change (QObject_property (with_receivers _ 1) ?k)
        with (QObject_property o2 k).
      rewrite Hprops by discriminate. unfold QObject_property. cbn.
      rewrite lookup_insert_ne by discriminate. reflexivity.
  - destruct (showNotification_no_window _ o2 timeout w2 Hp2 Hwin) as [c Hc'].
    congruence.
Qed.

Lemma notify_stacked (type : NotificationType) (data : gmap string QVariant)
    (timeout : Z) (w w1 w' : World) (p : nat) (l : list (address * nat)) :
  consistent w -> stacked w -> roomy w ->
  createNotification type w = Done (Some p) w1 ->
  (setProperty p NOTIFICATION_PROPERTY_DATA (QVariantMap data) ≫=
     fun _ => showNotification p timeout) (set_status_connections l w1)
    = Done tt w' ->
  stacked w'.
Proof.
  intros Hw [Hoff Hbelow Hapart] Hroom Hc Hrun.
  destruct (notify_body_layout type data timeout w w1 w' p l Hc Hrun)
    as (o' & Hheap & Htop & Hheight & Hh0 & Ho').
  destruct (createNotification_Some_inv type w w1 p Hc) as (-> & _).
  rewrite int_sum_exact in Ho' by (try exact (offset_int w Hw); auto).
  assert (Hnew : heap w !! allocated w = None).
  { destruct (heap w !! allocated w) eqn:E; [|reflexivity].
    pose proof (popups_fresh w Hw (allocated w) ltac:(rewrite E; eauto)). (unfold NOTIFICATION_SPACING in *; lia). }
  assert (Hbot : popup_bottom o' = m_offset w + (popup_height (next_popup type w)).1)
    by (unfold popup_bottom; rewrite Htop, Hheight; reflexivity).
  unfold NOTIFICATION_SPACING in *.
  set (h := (popup_height (next_popup type w)).1) in *.
  clearbody h. clear Hroom.
  split.
  - (unfold NOTIFICATION_SPACING in *; lia).
  - intros q o. rewrite Hheap, lookup_insert_Some.
    intros [[_ <-]|[_ Hq]] Hvis.
    + rewrite Hbot, Htop. (unfold NOTIFICATION_SPACING in *; lia).
    + destruct (Hbelow q o Hq Hvis) as (H1 & H2 & H3). (unfold NOTIFICATION_SPACING in *; lia).
  - intros q r o o'' Hne. rewrite Hheap, !lookup_insert_Some.
    intros [[<- <-]|[Hq1 Hq]] [[<- <-]|[Hr1 Hr]] Hv Hv'.
    + contradiction.
    + right. destruct (Hbelow r o'' Hr Hv') as (_ & _ & H3). rewrite Htop. (unfold NOTIFICATION_SPACING in *; lia).
    + left. destruct (Hbelow q o Hq Hv) as (_ & _ & H3). rewrite Htop. (unfold NOTIFICATION_SPACING in *; lia).
    + exact (Hapart q r o o'' Hne Hq Hr Hv Hv').
Qed.

Lemma createNotification_None_stacked (type : NotificationType) (w w' : World) :
  consistent w -> stacked w -> createNotification type w = Done None w' ->
  stacked w'.
Proof.
  intros Hw [Hoff Hbelow Hapart] Hc.
  destruct (createNotification_None_frame type w w' (popups_fresh w Hw) Hc)
    as (Hheap & _ & _ & _ & Ho & _).
  split; rewrite ?Hheap, ?Ho; assumption.
Qed.

End Layout.

Lemma stacked_fresh_world `{Externals} : stacked fresh_world.
Proof.
  split; cbn.
  - lia.
  - intros p o Hp. by rewrite lookup_empty in Hp.
  - intros p q o o' _ Hp. by rewrite lookup_empty in Hp.
Qed.

(** X12.  One step from a consistent world with room below for one
    more popup, be it one of the three notify operations, a click that
    hides a popup, the expiry of a single shot or a status change of a
    call model, keeps the visible popups stacked: each one lies between
    0 and the stored offset, and any two of them are at least
    [NOTIFICATION_SPACING] apart, so that none overlaps another.  A
    hidden window that is made visible again is not among these
    steps. *)
Theorem popups_never_overlap `{Externals} (s : Stimulus) (w w' : World) :
  consistent w -> stacked w -> roomy w ->
  react s w = Done tt w' ->
  stacked w'.
Proof.
  intros Hw Hst Hroom Hrun.
  destruct s as [message|message|call|p|k|model status]; cbn [react] in Hrun.
  - unfold notifyReceivedMessage in Hrun.
    apply bind_inv in Hrun as ([p|] & w1 & Hc & Hrun).
    + rewrite <- (set_status_connections_id w1) in Hrun.
      exact (notify_stacked _ _ _ _ _ _ _ _ Hw Hst Hroom Hc Hrun).
    + injection Hrun as <-. exact (createNotification_None_stacked _ _ _ Hw Hst Hc).
  - unfold notifyReceivedFileMessage in Hrun.
    apply bind_inv in Hrun as ([p|] & w1 & Hc & Hrun).
    + destruct (getFileTransferInformation_getSize message); [|discriminate].
      rewrite <- (set_status_connections_id w1) in Hrun.
      exact (notify_stacked _ _ _ _ _ _ _ _ Hw Hst Hroom Hc Hrun).
    + injection Hrun as <-. exact (createNotification_None_stacked _ _ _ Hw Hst Hc).
  - unfold notifyReceivedCall in Hrun.
    apply bind_inv in Hrun as ([p|] & w1 & Hc & Hrun).
    + apply bind_inv in Hrun as ([] & w2 & Hcon & Hrun). injection Hcon as <-.
      exact (notify_stacked _ _ _ _ _ _ _ _ Hw Hst Hroom Hc Hrun).
    + injection Hrun as <-. exact (createNotification_None_stacked _ _ _ Hw Hst Hc).
  - exact (stacked_shrinks w w' Hst (dismiss_shrinks p w w' Hw Hrun)).
  - exact (stacked_shrinks w w' Hst (QTimer_timeout_shrinks k w w' Hw Hrun)).
  - unfold CallModel_statusChanged in Hrun. unfold_monad.
    exact (stacked_shrinks w w' Hst
             (emit_statusChanged_shrinks _ model status w w' Hw Hrun)).
Qed.

Lemma popups_never_overlap_witness :
  exists o o',
    heap (world_after (replicate 3 (ReceivedMessage sample_message))) !! 0%nat = Some o /\
    heap (world_after (replicate 3 (ReceivedMessage sample_message))) !! 2%nat = Some o' /\
    window o = Some true /\ window o' = Some true /\
    popup_top o = 0 /\ @popup_bottom plain_externals o = 120 /\
    popup_top o' = 260 /\ @popup_bottom plain_externals o' = 380 /\
    @stacked plain_externals (world_after (replicate 3 (ReceivedMessage sample_message))) /\
    (@popup_bottom plain_externals o + NOTIFICATION_SPACING <= popup_top o' \/
     @popup_bottom plain_externals o' + NOTIFICATION_SPACING <= popup_top o).
Proof.
  pose (m := ReceivedMessage sample_message).
  pose (w1 := world_after (replicate 1 m)).
  pose (w2 := world_after (replicate 2 m)).
  pose (w3 := world_after (replicate 3 m)).
  assert (Ha1 : @react plain_externals m fresh_world = Done tt w1)
    by (vm_compute; reflexivity).
  assert (Ha2 : @react plain_externals m w1 = Done tt w2)
    by (vm_compute; reflexivity).
  assert (Ha3 : @react plain_externals m w2 = Done tt w3)
    by (vm_compute; reflexivity).
  assert (Hr0 : @roomy plain_externals fresh_world)
    by (intros type; destruct type; vm_compute; discriminate).
  assert (Hr1 : @roomy plain_externals w1)
    by (intros type; destruct type; vm_compute; discriminate).
  assert (Hr2 : @roomy plain_externals w2)
    by (intros type; destruct type; vm_compute; discriminate).
  pose proof (@react_consistent plain_externals m _ _ consistent_fresh_world Ha1) as Hc1.
  pose proof (@react_consistent plain_externals m _ _ Hc1 Ha2) as Hc2.
  pose proof (@popups_never_overlap plain_externals m fresh_world w1
                consistent_fresh_world (@stacked_fresh_world plain_externals) Hr0 Ha1)
    as Hs1.
  pose proof (@popups_never_overlap plain_externals m w1 w2 Hc1 Hs1 Hr1 Ha2) as Hs2.
  pose proof (@popups_never_overlap plain_externals m w2 w3 Hc2 Hs2 Hr2 Ha3) as Hs3.
  eexists. eexists.
  split; [vm_compute; reflexivity|].
  match goal with
  | |- ?P /\ _ => assert (Hq : P) by (vm_compute; reflexivity)
  end.
  split; [exact Hq|].
  match goal with
  | |- ?P /\ ?Q /\ _ => assert (Hv : P) by reflexivity; assert (Hv' : Q) by reflexivity
  end.
  split; [exact Hv|]. split; [exact Hv'|].
  split; [vm_compute; reflexivity|]. split; [vm_compute; reflexivity|].
  split; [vm_compute; reflexivity|]. split; [vm_compute; reflexivity|].
  split; [exact Hs3|].
  refine (stacked_apart w3 Hs3 0%nat 2%nat _ _ _ _ Hq Hv Hv');
    [discriminate | vm_compute; reflexivity].
Defined.

(** ** A window made visible again *)

Section Reshow.
Context `{Externals}.

Lemma visible_popups_show (h : gmap nat QObject) (p : nat) (o o' : QObject) :
  h !! p = Some o -> window o <> Some true -> window o' = Some true ->
  size (visible_popups (<[p := o']> h)) = S (size (visible_popups h)).
Proof.
  intros Hp Hw Hw'.
  rewrite <- (insert_delete_eq h p o').
  rewrite (visible_popups_insert_visible _ p o' (lookup_delete_eq h p) Hw').
  f_equal. unfold visible_popups. rewrite map_filter_delete.
  rewrite delete_id; [reflexivity|].
  apply map_lookup_filter_None_2. right. intros o1 Ho1. cbn. congruence.
Qed.

End Reshow.

(** X13.  The lambda does not tell a window that becomes visible from
    one that is hidden: when the hidden window of a live popup is made
    visible again, the lambda logs its warning and decrements the
    counter all the same.  From a consistent world this leaves one more
    popup visible and a counter one lower, so that the counter is no
    longer the number of visible popups. *)
Theorem reshow_decrements `{Externals} (p : nat) (o : QObject) (w : World) :
  consistent w -> heap w !! p = Some o -> window o = Some false ->
  exists w',
    QQuickWindow_setVisible p true w = Done tt w' /\
    EvWarning "A notification cannot be visible twice!" ∈ trace w' /\
    m_n_instances w' = wrap counter_type (m_n_instances w - 1) /\
    size (visible_popups (heap w')) = S (size (visible_popups (heap w))) /\
    m_n_instances w' <> Z.of_nat (size (visible_popups (heap w'))) /\
    ~ consistent w'.
Proof.
  intros Hw Hp Hwin.
  destruct (popups_watched w Hw p o Hp) as (Hr & _).
  rewrite (setVisible_change p o true w Hp Hwin), Hr, emit_visibleChanged_one.
  destruct (on_visibleChanged_run true
              (set_heap (<[p := with_window o (Some true)]> (heap w)) w))
    as (w' & Hrun & Hn & _ & Hh & _ & _ & _ & Htr).
  cbn in Hn, Hh, Htr.
  assert (Hsize : size (visible_popups (heap w')) = S (size (visible_popups (heap w)))).
  { rewrite Hh. apply (visible_popups_show _ p o); [exact Hp | congruence | reflexivity]. }
  assert (Hne : m_n_instances w' <> Z.of_nat (size (visible_popups (heap w')))).
  { rewrite Hn, Hsize.
    pose proof (counter_counts w Hw) as Hc. pose proof (counter_capped w Hw) as Hcap.
    destruct (decide (m_n_instances w = 0)) as [Hz|Hz].
    - assert (Hs0 : size (visible_popups (heap w)) = 0%nat) by lia.
      rewrite Hz, Hs0. destruct counter_type; vm_compute; discriminate.
    - rewrite wrap_counter_small by lia. lia. }
  exists w'. split; [exact Hrun|]. split.
  { rewrite Htr. cbn. rewrite elem_of_app, !elem_of_cons. right. right. by left. }
  split; [exact Hn|]. split; [exact Hsize|]. split; [exact Hne|].
  intros Hw'. exact (Hne (counter_counts w' Hw')).
Qed.

Lemma reshow_decrements_witness :
  exists w w',
    @dismiss plain_externals 0%nat (world_after (replicate 2 (ReceivedMessage sample_message)))
      = Done tt w /\
    @QQuickWindow_setVisible plain_externals 0%nat true w = Done tt w' /\
    m_n_instances w = 1 /\ size (visible_popups (heap w)) = 1%nat /\
    m_n_instances w' = 0 /\ m_offset w' = 0 /\
    size (visible_popups (heap w')) = 2%nat /\
    ~ consistent w'.
Proof.
  pose (m := ReceivedMessage sample_message).
  pose (w2 := world_after (replicate 2 m)).
  pose (w := world_after (replicate 2 m ++ [Click 0%nat])).
  assert (Ha : @run plain_externals (replicate 2 m ++ [Click 0%nat]) fresh_world
               = Done tt w) by (vm_compute; reflexivity).
  assert (Hd : @dismiss plain_externals 0%nat w2 = Done tt w)
    by (vm_compute; reflexivity).
  pose proof (@run_consistent plain_externals _ _ _ consistent_fresh_world Ha) as Hw.
  assert (Hp : exists o, heap w !! 0%nat = Some o /\ window o = Some false)
    by (eexists; split; [vm_compute; reflexivity | reflexivity]).
  destruct Hp as (o & Hp & Hwin).
  destruct (@reshow_decrements plain_externals 0%nat o w Hw Hp Hwin)
    as (w' & Hrun & _ & Hn & Hsize & _ & Hbad).
  exists w, w'. split; [exact Hd|]. split; [exact Hrun|].
  split; [vm_compute; reflexivity|]. split; [vm_compute; reflexivity|].
  split; [rewrite Hn; vm_compute; reflexivity|].
  assert (Hrun' : exists w'', @QQuickWindow_setVisible plain_externals 0%nat true w
                              = Done tt w'' /\ m_offset w'' = 0)
    by (eexists; split; vm_compute; reflexivity).
  destruct Hrun' as (w'' & Hrun'' & Ho).
  rewrite Hrun in Hrun''. injection Hrun'' as <-.
  split; [exact Ho|].
  split; [rewrite Hsize; vm_compute; reflexivity | exact Hbad].
Defined.
